(** * ekya/models/ekya_resnet.py: the [Resnet] wrapper

    A shallow embedding of the class [Resnet] of [ekya_resnet.py] and the
    properties of its construction, training loop, inference loop and
    checkpoint persistence.

    The class is glue around torch, torchvision and [time]; none of these
    is part of the repository.  Their operations are the fields of the class
    [Framework] below, left uninterpreted: the development follows the
    control flow, the local variables and the Python-level arithmetic of the
    source, and is parametric in what a forward pass or an optimiser step
    computes.  Python floats and float64 tensors are IEEE binary64 values,
    modelled by Rocq's primitive floats.

    The exceptions that are modelled are those Python raises on the values
    the methods handle ([None.keys()], [int.double()], a missing key, a
    division of a Python float by zero, iterating [None]) and those of the
    framework that depend on what the methods pass to it (the strictness of
    [load_state_dict], the checks of [optim.SGD], reading a file).  A
    forward or a backward pass is taken to return.  Moving tensors to
    [self.device] does not change their values and is left out, and so is
    what the methods print, but for two lines of [train_model] that the
    trace records. *)

From Stdlib Require Import ZArith Lia Bool Floats.
From stdpp Require Import gmap strings list pretty.

Local Open Scope Z_scope.
Local Open Scope string_scope.

(** ** Python exceptions and the state-and-exception monad *)

Inductive exn : Type :=
  | AttributeError (msg : string)
  | ZeroDivisionError
  | TypeError (msg : string)
  | KeyError (key : string)
  | RuntimeError (msg : string)
  | ValueError (msg : string)
  | Exception (msg : string).

Inductive result (A : Type) : Type :=
  | Ok (a : A)
  | Raise (e : exn).
Arguments Ok {A} a.
Arguments Raise {A} e.

(** A computation reads and updates a state [S]; an exception leaves the
    state as it was when it was raised, as in Python. *)
Definition M (S A : Type) : Type := S -> result A * S.

Definition ret {S A} (a : A) : M S A := fun s => (Ok a, s).
Definition raise {S A} (e : exn) : M S A := fun s => (Raise e, s).
Definition bind {S A B} (m : M S A) (k : A -> M S B) : M S B :=
  fun s => match m s with
           | (Ok a, s') => k a s'
           | (Raise e, s') => (Raise e, s')
           end.
Definition get {S} : M S S := fun s => (Ok s, s).
Definition modify {S} (f : S -> S) : M S unit := fun s => (Ok tt, f s).

Declare Scope py_scope.
Delimit Scope py_scope with py.
Notation "x <- m ;; k" := (bind m (fun x => k))
  (at level 100, m at next level, right associativity) : py_scope.
Notation "m ;;; k" := (bind m (fun _ => k))
  (at level 100, right associativity) : py_scope.
Local Open Scope py_scope.

(** ** Python numbers *)

(** [float(n)], and [t.double()] for an integer tensor, on a number that is
    a length or a count: [0 <= n < 2^63].  The conversion rounds to the
    nearest float. *)
Definition float_of_int (n : Z) : float := PrimFloat.of_uint63 (Uint63.of_Z n).

(** [x > y] on floats and float64 tensors. *)
Definition fgt (x y : float) : bool := PrimFloat.ltb y x.

(** The values stored in a profile row: [int]s and [float]s. *)
Inductive pyval : Type :=
  | PyInt (n : Z)
  | PyFloat (x : float).

(** ** Python dicts

    A dict keeps its keys in insertion order and [keys()] and [items()]
    iterate in that order: an association list.  [d[k] = v] replaces the
    value of an existing key in place and appends a new key. *)
Section Dict.
Context {K V : Type} `{EqDecision K}.

Definition dict : Type := list (K * V).

Definition keys (d : dict) : list K := d.*1.

Fixpoint dict_get (d : dict) (k : K) : option V :=
  match d with
  | [] => None
  | (k', v) :: d' => if decide (k' = k) then Some v else dict_get d' k
  end.

Fixpoint dict_set (d : dict) (k : K) (v : V) : dict :=
  match d with
  | [] => [(k, v)]
  | (k', v') :: d' =>
      if decide (k' = k) then (k, v) :: d' else (k', v') :: dict_set d' k v
  end.

Definition dict_mem (d : dict) (k : K) : bool := bool_decide (k ∈ keys d).
End Dict.
Arguments dict K V : clear implicits.

(** ** Model instantiation from a name string *)

(** The four torchvision constructors the module refers to. *)
Inductive model_ctor : Type := resnet18 | resnet50 | resnet101 | resnet152.

Definition get_model_from_str (model_str : string) : result model_ctor :=
  if decide (model_str = "resnet18") then Ok resnet18
  else if decide (model_str = "resnet50") then Ok resnet50
  else if decide (model_str = "resnet101") then Ok resnet101
  else if decide (model_str = "resnet152") then Ok resnet152
  else Raise (Exception ("Model " ++ model_str ++ " not found")).

(** ** The module tree built by the constructor

    A parameter is known to the module by its name and its [requires_grad]
    flag; its tensor lives in the state dict under the same name. *)
Record Param : Type := { requires_grad : bool }.

Record Linear : Type := {
  in_features : Z;
  out_features : Z;
  weight : Param;
  bias : Param;
}.

(** A torchvision resnet: the named parameters of the layers before [fc], in
    registration order, and [fc], its last layer. *)
Record ResNetModule : Type := {
  body : list (string * Param);
  fc : Linear;
}.

(** [self.model]: the bare resnet until [initialize_last_layer] has wrapped
    it in [nn.Sequential(resnet, nn.Linear(...))]. *)
Inductive Module : Type :=
  | Bare (net : ResNetModule)
  | Sequential (net : ResNetModule) (out : Linear).

(** [nn.Linear(n_in, n_out)]: two new parameters, which require gradients. *)
Definition nn_Linear (n_in n_out : Z) : Linear :=
  {| in_features := n_in; out_features := n_out;
     weight := {| requires_grad := true |};
     bias := {| requires_grad := true |} |}.

Definition linear_named_parameters (l : Linear) : list (string * Param) :=
  [("weight", weight l); ("bias", bias l)].

Definition prefixed (p : string) (ps : list (string * Param)) : list (string * Param) :=
  map (fun np => (p ++ np.1, np.2)) ps.

Definition resnet_named_parameters (r : ResNetModule) : list (string * Param) :=
  (body r ++ prefixed "fc." (linear_named_parameters (fc r)))%list.

(** [model.named_parameters()] *)
Definition named_parameters (m : Module) : list (string * Param) :=
  match m with
  | Bare r => resnet_named_parameters r
  | Sequential r out =>
      (prefixed "0." (resnet_named_parameters r)
       ++ prefixed "1." (linear_named_parameters out))%list
  end.

(** [model.parameters()] *)
Definition parameters (m : Module) : list Param := (named_parameters m).*2.

Definition freeze (p : Param) : Param := {| requires_grad := false |}.

Definition freeze_linear (l : Linear) : Linear :=
  {| in_features := in_features l; out_features := out_features l;
     weight := freeze (weight l); bias := freeze (bias l) |}.

Definition freeze_resnet (r : ResNetModule) : ResNetModule :=
  {| body := map (fun np => (np.1, freeze np.2)) (body r);
     fc := freeze_linear (fc r) |}.

(** [for param in model.parameters(): param.requires_grad = False] *)
Definition freeze_all (m : Module) : Module :=
  match m with
  | Bare r => Bare (freeze_resnet r)
  | Sequential r out => Sequential (freeze_resnet r) (freeze_linear out)
  end.

(** ** The framework: torch, torchvision and [time]

    What the module calls and does not define.  A state dict is a finite map
    from parameter and buffer names to tensors. *)
Class Framework : Type := {
  Tensor : Type;
  Inputs : Type;
  Outputs : Type;
  Grads : Type;
  OptState : Type;
  SchedState : Type;
  FileSystem : Type;
  (** [t.shape] *)
  shape : Tensor -> list Z;
  (** [inputs.size(0)], which is also [len(inputs)] *)
  size0 : Inputs -> Z;
  (** the module tree and the state dict of [models.resnetNN(pretrained=...)] *)
  tv_module : model_ctor -> bool -> ResNetModule;
  tv_state_dict : model_ctor -> bool -> gmap string Tensor;
  (** the freshly initialised weight and bias of [nn.Linear(n_in, n_out)] *)
  linear_init : Z -> Z -> Tensor * Tensor;
  (** [self.model(inputs)], in training or in evaluation mode *)
  model_call : bool -> gmap string Tensor -> Inputs -> Outputs;
  (** the buffers a forward pass in training mode updates (the running
      statistics of batch normalisation) *)
  track_running_stats : gmap string Tensor -> Inputs -> gmap string Tensor;
  (** [nn.CrossEntropyLoss()(outputs, labels).item()] *)
  cross_entropy : Outputs -> list Z -> float;
  (** the indices returned by [torch.max(outputs, 1)] *)
  argmax1 : Outputs -> list Z;
  (** [optimizer.zero_grad()] and [loss.backward()] on the gradients *)
  zero_grad : Grads -> Grads;
  backward : gmap string Tensor -> Inputs -> list Z -> Grads -> Grads;
  (** [optim.SGD(params, lr=lr, momentum=momentum)], which raises
      [ValueError] when it is given no parameter or a negative learning rate
      or momentum, and its [step()] *)
  sgd_init : list string -> float -> float -> result OptState;
  sgd_step : OptState -> Grads -> gmap string Tensor -> OptState * gmap string Tensor;
  (** [ReduceLROnPlateau(optimizer, 'min')] and its [step(metric)], which may
      lower the learning rate held by the optimiser *)
  plateau_init : SchedState;
  plateau_step : SchedState -> float -> OptState -> SchedState * OptState;
  (** the value of the [n]-th call of [time.time()] *)
  time_time : nat -> float;
  (** [torch.save(obj, path)] and [torch.load(path, map_location=...)] *)
  torch_save : gmap string Tensor -> string -> FileSystem -> result FileSystem;
  torch_load : string -> FileSystem -> result (gmap string Tensor);
}.

(** What a run does besides returning: the calls to the optimiser, the
    scheduler and the model, in the order they are made, and the two
    progress lines ["Epoch e/n"] and ["<phase> epoch done. Loss: .. Acc: .."]
    that [train_model] prints.  The second one also carries the state dict
    the model holds when the line is printed, for the statements about
    checkpoints to refer to. *)
Inductive event `{Framework} : Type :=
  | EvZeroGrad
  | EvForward (training_mode grad_enabled : bool)
  | EvBackward
  | EvOptimizerStep
  | EvSchedulerStep (metric : float)
  | EvEpoch (epoch : Z)
  | EvPhaseDone (phase : string) (epoch_loss epoch_acc : float)
      (state_dict : gmap string Tensor).

(** ** Hyperparameters *)

(** The values of a hyperparameter dict. *)
Inductive hval : Type :=
  | HInt (n : Z)
  | HBool (b : bool)
  | HStr (s : string)
  | HNone.

(** Python truthiness, as [if self.last_layer_only:] takes it. *)
Definition truthy (v : hval) : bool :=
  match v with
  | HInt n => negb (Z.eqb n 0)
  | HBool b => b
  | HStr s => negb (String.eqb s "")
  | HNone => false
  end.

Definition DEFAULT_HYPER_PARAMS : dict string hval :=
  [("num_hidden", HInt 512); ("last_layer_only", HBool true);
   ("model_name", HStr "resnet18")].

(** [d[k]] on a dict with string keys. *)
Definition subscript {V} (d : dict string V) (k : string) : result V :=
  match dict_get d k with
  | Some v => Ok v
  | None => Raise (KeyError k)
  end.

(** A layer size handed to [nn.Linear] has to be an [int] that fits a signed
    64-bit integer, and the tensor of the weights cannot be created when it
    is negative. *)
Definition as_int (v : hval) : result Z :=
  match v with
  | HInt n =>
      if Z.ltb n (- 2 ^ 63) || Z.leb (2 ^ 63) n
      then Raise (TypeError "an integer is required")
      else if Z.ltb n 0
      then Raise (RuntimeError "Trying to create tensor with negative dimension")
      else Ok n
  | _ => Raise (TypeError "an integer is required")
  end.

(** [str(v)], as ["{}".format(v)] gives it. *)
Definition str (v : hval) : string :=
  match v with
  | HInt n => pretty n
  | HBool true => "True"
  | HBool false => "False"
  | HStr s => s
  | HNone => "None"
  end.

(** What [self.params_to_update] is bound to: the list that
    [set_params_to_update] builds when [last_layer_only] is true, or the
    generator [self.model.parameters()], which yields the parameters of the
    model once. *)
Inductive ParamsToUpdate : Type :=
  | ParamsList (params : list (string * Param))
  | ParamsGenerator.

(** The fields of a [Resnet] object other than the state of [self.model]:
    [model] is the module tree of [self.model]. *)
Record Resnet : Type := {
  hyperparameters : dict string hval;
  model_class : model_ctor;
  last_layer_only : hval;
  num_classes : hval;
  model : Module;
  params_to_update : ParamsToUpdate;
}.

(** ** The mutable state

    The state of [self.model] (its state dict and its mode), the gradients
    of its parameters, the files, the number of calls of [time.time()] so
    far, the framework calls made so far, and whether the generator that
    [self.params_to_update] may be bound to has been run to its end. *)
Record State `{Framework} : Type := {
  weights : gmap string Tensor;
  training : bool;
  grads : Grads;
  files : FileSystem;
  ticks : nat;
  trace : list event;
  exhausted : bool;
}.

Section Methods.
Context `{Framework}.

Definition set_weights (w : gmap string Tensor) (s : State) : State :=
  {| weights := w; training := training s; grads := grads s;
     files := files s; ticks := ticks s; trace := trace s;
     exhausted := exhausted s |}.
Definition set_training (b : bool) (s : State) : State :=
  {| weights := weights s; training := b; grads := grads s;
     files := files s; ticks := ticks s; trace := trace s;
     exhausted := exhausted s |}.
Definition set_grads (g : Grads) (s : State) : State :=
  {| weights := weights s; training := training s; grads := g;
     files := files s; ticks := ticks s; trace := trace s;
     exhausted := exhausted s |}.
Definition set_files (f : FileSystem) (s : State) : State :=
  {| weights := weights s; training := training s; grads := grads s;
     files := f; ticks := ticks s; trace := trace s;
     exhausted := exhausted s |}.
Definition set_ticks (n : nat) (s : State) : State :=
  {| weights := weights s; training := training s; grads := grads s;
     files := files s; ticks := n; trace := trace s;
     exhausted := exhausted s |}.
Definition set_trace (t : list event) (s : State) : State :=
  {| weights := weights s; training := training s; grads := grads s;
     files := files s; ticks := ticks s; trace := t;
     exhausted := exhausted s |}.
Definition set_exhausted (b : bool) (s : State) : State :=
  {| weights := weights s; training := training s; grads := grads s;
     files := files s; ticks := ticks s; trace := trace s;
     exhausted := b |}.

Definition lift {A} (r : result A) : M State A :=
  match r with
  | Ok a => ret a
  | Raise e => raise e
  end.

Definition log (e : event) : M State unit :=
  modify (fun s => set_trace (trace s ++ [e])%list s).

(** [time.time()] *)
Definition time : M State float :=
  s <- get ;;
  modify (set_ticks (S (ticks s))) ;;;
  ret (time_time (ticks s)).

(** *** Persistence *)

(** What [load_state_dict(new)] copies into a model with the state dict
    [old]: each tensor of the model whose key is in [new], with a tensor of
    the same shape, takes the value of that one. *)
Definition copy_matching (new old : gmap string Tensor) : gmap string Tensor :=
  map_imap (fun k v =>
              Some (match new !! k with
                    | Some v' => if decide (shape v' = shape v) then v' else v
                    | None => v
                    end)) old.

(** [model.load_state_dict(new)], strict: the tensors that fit are copied,
    and unless the keys of [new] are those of the model and every tensor
    has the shape of the one it replaces, [RuntimeError] is then raised.
    When none is raised the model holds the values of [new]. *)
Definition load_state_dict (new : gmap string Tensor) : M State unit :=
  s <- get ;;
  modify (set_weights (copy_matching new (weights s))) ;;;
  if decide (shape <$> new = shape <$> weights s)
  then ret tt
  else raise (RuntimeError "Error(s) in loading state_dict").

Definition save (path : string) : M State unit :=
  s <- get ;;
  fs <- lift (torch_save (weights s) path (files s)) ;;
  modify (set_files fs).

Definition load (path : string) : M State unit :=
  s <- get ;;
  sd <- lift (torch_load path (files s)) ;;
  load_state_dict sd.

(** *** Construction *)

Definition initialize_last_layer (m : Module) (num_classes num_hidden : hval)
    : M State Module :=
  match m with
  | Sequential _ _ =>
      raise (AttributeError "'Sequential' object has no attribute 'fc'")
  | Bare r =>
      nh <- lift (as_int num_hidden) ;;
      let new_fc := nn_Linear (in_features (fc r)) nh in
      let '(fw, fb) := linear_init (in_features (fc r)) nh in
      modify (fun s =>
        set_weights (<["fc.weight" := fw]> (<["fc.bias" := fb]> (weights s))) s) ;;;
      let r' := {| body := body r; fc := new_fc |} in
      nc <- lift (as_int num_classes) ;;
      let out := nn_Linear nh nc in
      let '(ow, ob) := linear_init nh nc in
      modify (fun s =>
        set_weights (<["1.weight" := ow]> (<["1.bias" := ob]>
                       (kmap (String.append "0.") (weights s)))) s) ;;;
      ret (Sequential r' out)
  end.

Definition set_parameter_requires_grad (last_layer_only : hval) (m : Module)
    : Module :=
  if truthy last_layer_only then freeze_all m else m.

(** With [last_layer_only] the attribute is bound to a list of the
    parameters that require gradients; without it, to a new generator
    [self.model.parameters()]. *)
Definition set_params_to_update (last_layer_only : hval) (m : Module)
    : M State ParamsToUpdate :=
  if truthy last_layer_only
  then ret (ParamsList
              (filter (fun np => requires_grad np.2 = true) (named_parameters m)))
  else modify (set_exhausted false) ;;; ret ParamsGenerator.

(** [Resnet(hyperparameters, pretrained, restore_path)].  The constructor
    reads ['model_name'] from its argument and the other keys from
    [self.hyperparameters], which is [DEFAULT_HYPER_PARAMS] when the
    argument is [None] or empty.  A new torchvision model is in training
    mode. *)
Definition __init__ (hyperparameters : option (dict string hval))
    (pretrained : bool) (restore_path : option string) : M State Resnet :=
  let hp := match hyperparameters with
            | Some ((_ :: _) as d) => d
            | _ => DEFAULT_HYPER_PARAMS
            end in
  name <- match hyperparameters with
          | Some d => lift (subscript d "model_name")
          | None => raise (TypeError "'NoneType' object is not subscriptable")
          end ;;
  ctor <- match name with
          | HStr s => lift (get_model_from_str s)
          | _ => raise (Exception ("Model " ++ str name ++ " not found"))
          end ;;
  modify (fun s => set_training true (set_weights (tv_state_dict ctor pretrained) s)) ;;;
  let m0 := Bare (tv_module ctor pretrained) in
  llo <- lift (subscript hp "last_layer_only") ;;
  let m1 := set_parameter_requires_grad llo m0 in
  nc <- lift (subscript hp "num_classes") ;;
  nh <- lift (subscript hp "num_hidden") ;;
  m2 <- initialize_last_layer m1 nc nh ;;
  ps <- set_params_to_update llo m2 ;;
  match restore_path with
  | Some p => if String.eqb p "" then ret tt else load p
  | None => ret tt
  end ;;;
  ret {| hyperparameters := hp; model_class := ctor; last_layer_only := llo;
         num_classes := nc; model := m2; params_to_update := ps |}.
End Methods.

(** ** Data loaders *)

(** A batch as the loops see it: the inputs and one label per sample. *)
Record Batch `{Framework} : Type := {
  inputs : Inputs;
  labels : list Z;
}.

(** A [DataLoader] as the loops see it: the batches it yields when iterated
    and the size of its dataset.  Python's [len] gives an index-sized
    integer, [0 <= n < 2 ^ 63], or raises. *)
Record DataLoader `{Framework} : Type := {
  batches : list Batch;
  dataset_len : Uint63.int;
}.

(** [len(dataloader.dataset)], as a Python [int]. *)
Definition len_dataset `{Framework} (dataloader : DataLoader) : Z :=
  Uint63.to_Z (dataset_len dataloader).

(** [running_corrects]: the Python [int] it is initialised to, or the
    integer tensor it becomes once a [torch.sum(...)] has been added to it. *)
Inductive pycount : Type :=
  | CInt (n : Z)
  | CTensor (n : Z).

Definition count_value (c : pycount) : Z :=
  match c with CInt n | CTensor n => n end.

(** [c + t] for a tensor [t]: a tensor, whichever [c] is. *)
Definition add_tensor (c : pycount) (t : Z) : pycount := CTensor (count_value c + t).

(** [torch.sum(preds == labels.data)], the model giving one row of outputs
    and the loader one label for each sample of the batch. *)
Definition num_correct (preds labels : list Z) : Z :=
  Z.of_nat (length (filter (fun pl => pl.1 = pl.2) (zip preds labels))).

(** The local variables of [train_model] that its loops update. *)
Record Locals `{Framework} : Type := {
  optimizer : OptState;
  scheduler : SchedState;
  val_acc_history : list float;
  best_model_wts : gmap string Tensor;
  best_acc : float;
  profile : list (list pyval);
  profile_data : dict string (dict string pyval);
  subprofile_test_results : dict Z (dict Z float);
}.

Section Loops.
Context `{Framework}.

(** [c.double()] *)
Definition double (c : pycount) : M State float :=
  match c with
  | CInt _ => raise (AttributeError "'int' object has no attribute 'double'")
  | CTensor n => ret (float_of_int n)
  end.

(** [self.model(inputs)] inside [with torch.set_grad_enabled(grad_enabled)]:
    the mode of the model decides whether the buffers are updated. *)
Definition forward (grad_enabled : bool) (x : Inputs) : M State Outputs :=
  s <- get ;;
  log (EvForward (training s) grad_enabled) ;;;
  (if training s
   then modify (set_weights (track_running_stats (weights s) x))
   else ret tt) ;;;
  ret (model_call (training s) (weights s) x).

(** [for batch_idx, (inputs, labels) in enumerate(dataloader)], with the
    variables the body updates as an accumulator. *)
Fixpoint for_batches {A} (body : A -> Batch -> M State A)
    (bs : list Batch) (a : A) : M State A :=
  match bs with
  | [] => ret a
  | b :: bs' => a' <- body a b ;; for_batches body bs' a'
  end.

(** *** [infer] *)

Definition infer_batch (running_corrects : pycount) (b : Batch)
    : M State pycount :=
  outputs <- forward false (inputs b) ;;
  let preds := argmax1 outputs in
  let num_corrects := num_correct preds (labels b) in
  ret (add_tensor running_corrects num_corrects).

Definition infer (dataloader : DataLoader) : M State float :=
  modify (set_training false) ;;;
  running_corrects <- for_batches infer_batch (batches dataloader) (CInt 0) ;;
  d <- double running_corrects ;;
  let acc := PrimFloat.div d (float_of_int (len_dataset dataloader)) in
  ret acc.

(** *** [train_model] *)

(** The body of the loop over the batches of one phase; the accumulator is
    [(optimizer, running_loss, running_corrects)]. *)
Definition train_batch (phase : string)
    (acc : OptState * float * pycount) (b : Batch)
    : M State (OptState * float * pycount) :=
  let '(opt, running_loss, running_corrects) := acc in
  modify (fun s => set_grads (zero_grad (grads s)) s) ;;;
  log EvZeroGrad ;;;
  outputs <- forward (bool_decide (phase = "train")) (inputs b) ;;
  let loss := cross_entropy outputs (labels b) in
  let preds := argmax1 outputs in
  opt' <- (if decide (phase = "train")
           then
             s <- get ;;
             modify (set_grads (backward (weights s) (inputs b) (labels b) (grads s))) ;;;
             log EvBackward ;;;
             s <- get ;;
             let '(o, w) := sgd_step opt (grads s) (weights s) in
             modify (set_weights w) ;;;
             log EvOptimizerStep ;;;
             ret o
           else ret opt) ;;
  ret (opt',
       PrimFloat.add running_loss
         (PrimFloat.mul loss (float_of_int (size0 (inputs b)))),
       add_tensor running_corrects (num_correct preds (labels b))).

(** [profile_data[phase][metric] = v] and [profile_data[phase][metric]] on
    the nested [defaultdict] whose innermost default is [0]. *)
Definition pd_set (pd : dict string (dict string pyval))
    (phase metric : string) (v : pyval) : dict string (dict string pyval) :=
  dict_set pd phase (dict_set (default [] (dict_get pd phase)) metric v).

Definition pd_get (pd : dict string (dict string pyval))
    (phase metric : string) : pyval :=
  default (PyInt 0) (dict_get (default [] (dict_get pd phase)) metric).

Definition set_optimizer (o : OptState) (l : Locals) : Locals :=
  {| optimizer := o; scheduler := scheduler l;
     val_acc_history := val_acc_history l;
     best_model_wts := best_model_wts l; best_acc := best_acc l;
     profile := profile l; profile_data := profile_data l;
     subprofile_test_results := subprofile_test_results l |}.
Definition set_scheduler (sc : SchedState) (l : Locals) : Locals :=
  {| optimizer := optimizer l; scheduler := sc;
     val_acc_history := val_acc_history l;
     best_model_wts := best_model_wts l; best_acc := best_acc l;
     profile := profile l; profile_data := profile_data l;
     subprofile_test_results := subprofile_test_results l |}.
Definition set_val_acc_history (h : list float) (l : Locals) : Locals :=
  {| optimizer := optimizer l; scheduler := scheduler l;
     val_acc_history := h;
     best_model_wts := best_model_wts l; best_acc := best_acc l;
     profile := profile l; profile_data := profile_data l;
     subprofile_test_results := subprofile_test_results l |}.
Definition set_best (a : float) (w : gmap string Tensor) (l : Locals) : Locals :=
  {| optimizer := optimizer l; scheduler := scheduler l;
     val_acc_history := val_acc_history l;
     best_model_wts := w; best_acc := a;
     profile := profile l; profile_data := profile_data l;
     subprofile_test_results := subprofile_test_results l |}.
Definition set_profile (p : list (list pyval)) (l : Locals) : Locals :=
  {| optimizer := optimizer l; scheduler := scheduler l;
     val_acc_history := val_acc_history l;
     best_model_wts := best_model_wts l; best_acc := best_acc l;
     profile := p; profile_data := profile_data l;
     subprofile_test_results := subprofile_test_results l |}.
Definition set_profile_data (pd : dict string (dict string pyval)) (l : Locals)
    : Locals :=
  {| optimizer := optimizer l; scheduler := scheduler l;
     val_acc_history := val_acc_history l;
     best_model_wts := best_model_wts l; best_acc := best_acc l;
     profile := profile l; profile_data := pd;
     subprofile_test_results := subprofile_test_results l |}.
Definition set_subprofile_test_results (r : dict Z (dict Z float)) (l : Locals)
    : Locals :=
  {| optimizer := optimizer l; scheduler := scheduler l;
     val_acc_history := val_acc_history l;
     best_model_wts := best_model_wts l; best_acc := best_acc l;
     profile := profile l; profile_data := profile_data l;
     subprofile_test_results := r |}.
End Loops.

Section Training.
Context `{Framework}.

(** [for x in xs], with the local variables as an accumulator. *)
Fixpoint for_locals {A} (body : A -> Locals -> M State Locals)
    (xs : list A) (l : Locals) : M State Locals :=
  match xs with
  | [] => ret l
  | x :: xs' => l' <- body x l ;; for_locals body xs' l'
  end.

(** [if phase == 'val' and epoch_acc > best_acc: ...]: the history grows
    and the best accuracy and a copy of the state dict [w] of the model
    are kept. *)
Definition keep_best (phase : string) (epoch_acc : float)
    (w : gmap string Tensor) (l : Locals) : Locals :=
  if bool_decide (phase = "val") && fgt epoch_acc (best_acc l)
  then
    let l := set_val_acc_history (val_acc_history l ++ [epoch_acc])%list l in
    if fgt epoch_acc (best_acc l)
    then set_best epoch_acc w l
    else l
  else l.

(** The four assignments to [profile_data[phase]]. *)
Definition record_metrics (phase : string) (elapsed epoch_loss epoch_acc : float)
    (num_samples : Z) (l : Locals) : Locals :=
  let pd := profile_data l in
  let pd := pd_set pd phase "time" (PyFloat elapsed) in
  let pd := pd_set pd phase "loss" (PyFloat epoch_loss) in
  let pd := pd_set pd phase "acc" (PyFloat epoch_acc) in
  let pd := pd_set pd phase "num_samples" (PyInt num_samples) in
  set_profile_data pd l.

(** [scheduler.step(epoch_loss)] *)
Definition scheduler_step (epoch_loss : float) (l : Locals) : M State Locals :=
  log (EvSchedulerStep epoch_loss) ;;;
  let '(sc, o) := plateau_step (scheduler l) epoch_loss (optimizer l) in
  ret (set_scheduler sc (set_optimizer o l)).

(** [dataloaders[phase]], about to be iterated. *)
Definition loader_of (dataloaders : dict string (option DataLoader))
    (phase : string) : M State DataLoader :=
  match dict_get dataloaders phase with
  | Some (Some dl) => ret dl
  | Some None => raise (TypeError "'NoneType' object is not iterable")
  | None => raise (KeyError phase)
  end.

(** [running_loss / len(dataloaders[phase].dataset)], on a Python float. *)
Definition float_div_int (x : float) (n : Z) : M State float :=
  if Z.eqb n 0
  then raise ZeroDivisionError
  else ret (PrimFloat.div x (float_of_int n)).

(** The body of [for phase in dataloaders.keys()]. *)
Definition run_phase (dataloaders : dict string (option DataLoader))
    (phase : string) (l : Locals) : M State Locals :=
  start_time <- time ;;
  modify (set_training (bool_decide (phase = "train"))) ;;;
  dl <- loader_of dataloaders phase ;;
  r <- for_batches (train_batch phase) (batches dl)
         (optimizer l, PrimFloat.zero, CInt 0) ;;
  let l := set_optimizer r.1.1 l in
  let running_loss := r.1.2 in
  let running_corrects := r.2 in
  epoch_loss <- float_div_int running_loss (len_dataset dl) ;;
  d <- double running_corrects ;;
  let epoch_acc := PrimFloat.div d (float_of_int (len_dataset dl)) in
  l <- (if decide (phase = "train")
        then scheduler_step epoch_loss l
        else ret l) ;;
  end_time <- time ;;
  s <- get ;;
  log (EvPhaseDone phase epoch_loss epoch_acc (weights s)) ;;;
  let l := keep_best phase epoch_acc (weights s) l in
  ret (record_metrics phase (PrimFloat.sub end_time start_time)
         epoch_loss epoch_acc (len_dataset dl) l).

(** [[epoch_start_time]] followed by [profile_data[phase][metric]] for the
    three phases and the four metrics, as the two nested loops append them. *)
Definition profile_row (epoch_start_time : float)
    (pd : dict string (dict string pyval)) : list pyval :=
  (PyFloat epoch_start_time ::
   flat_map (fun phase =>
               map (fun metric => pd_get pd phase metric)
                   ["time"; "loss"; "acc"; "num_samples"])
            ["train"; "val"; "test"])%list.

(** Testing on all the tasks of one epoch of [subprofile_test_epochs]:
    [subprofile_test_results[epoch] = {task_id: self.infer(loader), ...}]. *)
Definition infer_task (task : Z * DataLoader) (this_epoch : dict Z float)
    : M State (dict Z float) :=
  acc <- infer task.2 ;;
  ret (dict_set this_epoch task.1 acc).

Fixpoint for_tasks (tasks : list (Z * DataLoader)) (this_epoch : dict Z float)
    : M State (dict Z float) :=
  match tasks with
  | [] => ret this_epoch
  | t :: ts => d <- infer_task t this_epoch ;; for_tasks ts d
  end.

Definition test_subprofile (spe : dict Z (dict Z DataLoader)) (epoch : Z)
    (l : Locals) : M State Locals :=
  tasks <- match dict_get spe epoch with
           | Some tasks => ret tasks
           | None => raise (KeyError "epoch")
           end ;;
  this_epoch <- for_tasks tasks [] ;;
  ret (set_subprofile_test_results
         (dict_set (subprofile_test_results l) epoch this_epoch) l).

(** [subprofile_test_epochs.keys()], where the argument may be [None]. *)
Definition keys_of (subprofile_test_epochs : option (dict Z (dict Z DataLoader)))
    : M State (dict Z (dict Z DataLoader)) :=
  match subprofile_test_epochs with
  | Some spe => ret spe
  | None => raise (AttributeError "'NoneType' object has no attribute 'keys'")
  end.

(** The body of [for epoch in range(num_epochs)]. *)
Definition run_epoch (dataloaders : dict string (option DataLoader))
    (subprofile_test_epochs : option (dict Z (dict Z DataLoader)))
    (epoch : Z) (l : Locals) : M State Locals :=
  epoch_start_time <- time ;;
  log (EvEpoch epoch) ;;;
  let l := set_profile_data [] l in
  l <- for_locals (run_phase dataloaders) (keys dataloaders) l ;;
  let profile_this_epoch := profile_row epoch_start_time (profile_data l) in
  let l := set_profile (profile l ++ [profile_this_epoch])%list l in
  spe <- keys_of subprofile_test_epochs ;;
  if dict_mem spe epoch
  then test_subprofile spe epoch l
  else ret l.

(** [range(n)] *)
Definition range (n : Z) : list Z := map Z.of_nat (seq 0 (Z.to_nat n)).

(** The local variables of [train_model] before its loops, with the
    optimiser [opt] on a model whose state dict is [w]. *)
Definition initial_locals (opt : OptState) (w : gmap string Tensor) : Locals :=
  {| optimizer := opt;
     scheduler := plateau_init;
     val_acc_history := [];
     best_model_wts := w;
     best_acc := PrimFloat.zero;
     profile := [];
     profile_data := [];
     subprofile_test_results := [] |}.

(** What listing [self.params_to_update] gives in the state [s]: the list
    itself, or what the generator yields, which is every parameter of
    [self.model] the first time and nothing once it has been run to its
    end. *)
Definition params_of (self : Resnet) (s : State) : list (string * Param) :=
  match params_to_update self with
  | ParamsList params => params
  | ParamsGenerator => if exhausted s then [] else named_parameters (model self)
  end.

(** The state once [self.params_to_update] has been listed: a generator
    has nothing left to yield. *)
Definition listed (self : Resnet) (s : State) : State :=
  match params_to_update self with
  | ParamsList _ => s
  | ParamsGenerator => set_exhausted true s
  end.

(** [optim.SGD(self.params_to_update, lr=lr, momentum=momentum)].
    [optim.SGD] checks [lr] and [momentum], and [torch.optim.Optimizer]
    then makes a list of the parameters it is given and refuses an empty
    one: that is [sgd_init]. *)
Definition optim_SGD (self : Resnet) (lr momentum : float) : M State OptState :=
  s <- get ;;
  opt <- lift (sgd_init (keys (params_of self s)) lr momentum) ;;
  modify (listed self) ;;;
  ret opt.

(** [self.train_model(dataloaders, subprofile_test_epochs, num_epochs, lr,
    momentum)].  The call returns [(self.model, val_acc_history,
    float(best_acc), profile, subprofile_test_results)]; [self.model] is in
    the state.  What the method prints is not modelled, but for the two
    lines that [EvEpoch] and [EvPhaseDone] stand for. *)
Definition train_model (self : Resnet)
    (dataloaders : dict string (option DataLoader))
    (subprofile_test_epochs : option (dict Z (dict Z DataLoader)))
    (num_epochs : Z) (lr momentum : float)
    : M State (list float * float * list (list pyval) * dict Z (dict Z float)) :=
  since <- time ;;
  opt <- optim_SGD self lr momentum ;;
  s <- get ;;
  let l := initial_locals opt (weights s) in
  train <- lift (subscript dataloaders "train") ;;
  l <- match train with
       | None =>
           spe <- keys_of subprofile_test_epochs ;;
           for_locals (test_subprofile spe) (keys spe) l
       | Some _ => ret l
       end ;;
  l <- match train with
       | Some _ =>
           for_locals (run_epoch dataloaders subprofile_test_epochs)
             (range num_epochs) l
       | None => ret l
       end ;;
  now <- time ;;
  load_state_dict (best_model_wts l) ;;;
  ret (val_acc_history l, best_acc l, profile l, subprofile_test_results l).
End Training.

(** ** A small framework to run the definitions on

    Tensors are integers, a batch of inputs is a list of integers, and the
    model predicts for a sample [x] the class [x + b], where [b] is the
    tensor ["1.bias"].  The loss of a batch is its number of wrong
    predictions, and an optimiser step adds the gradient, which [backward]
    increments, to ["1.bias"].  Files hold state dicts. *)
Module Toy.
Definition predict (w : gmap string Z) (x : list Z) : list Z :=
  map (fun v => v + default 0 (w !! "1.bias")) x.

Definition wrong (preds labels : list Z) : Z :=
  Z.of_nat (length (filter (fun pl => pl.1 <> pl.2) (zip preds labels))).

Definition resnet : ResNetModule :=
  {| body := [("conv1.weight", {| requires_grad := true |});
              ("bn1.weight", {| requires_grad := true |})];
     fc := {| in_features := 512; out_features := 1000;
              weight := {| requires_grad := true |};
              bias := {| requires_grad := true |} |} |}.

#[export] Instance framework : Framework := {|
  Tensor := Z;
  Inputs := list Z;
  Outputs := list Z;
  Grads := Z;
  OptState := unit;
  SchedState := unit;
  FileSystem := gmap string (gmap string Z);
  shape := fun _ => [];
  size0 := fun x => Z.of_nat (length x);
  tv_module := fun _ _ => resnet;
  tv_state_dict := fun _ _ =>
    <["conv1.weight" := 3]> (<["bn1.weight" := 1]>
      (<["fc.weight" := 7]> (<["fc.bias" := 0]> ∅)));
  linear_init := fun _ _ => (0, 0);
  model_call := fun _ w x => predict w x;
  track_running_stats := fun w _ => w;
  cross_entropy := fun out labels => float_of_int (wrong out labels);
  argmax1 := fun out => out;
  zero_grad := fun _ => 0;
  backward := fun _ _ _ g => g + 1;
  sgd_init := fun params _ _ =>
    match params with
    | [] => Raise (ValueError "optimizer got an empty parameter list")
    | _ => Ok tt
    end;
  sgd_step := fun o g w => (o, alter (Z.add g) "1.bias" w);
  plateau_init := tt;
  plateau_step := fun sc _ o => (sc, o);
  time_time := fun n => float_of_int (Z.of_nat n);
  torch_save := fun sd path fs => Ok (<[path := sd]> fs);
  torch_load := fun path fs =>
    match fs !! path with
    | Some sd => Ok sd
    | None => Raise (Exception "FileNotFoundError")
    end;
|}.

(** A model whose only tensor is ["1.bias"], at [b]. *)
Definition start (b : Z) : State :=
  {| weights := {["1.bias" := b]}; training := true; grads := 0;
     files := ∅; ticks := 0; trace := []; exhausted := false |}.

Definition batch (xs ys : list Z) : Batch := {| inputs := xs; labels := ys |}.

Definition loader (bs : list Batch) (n : Z) : DataLoader :=
  {| batches := bs; dataset_len := Uint63.of_Z n |}.

(** One training sample, which the model at [b = 0] gets wrong, and two
    validation samples, which the model at [b = 1] gets right. *)
Definition train_and_val : dict string (option DataLoader) :=
  [("train", Some (loader [batch [0] [5]] 1));
   ("val", Some (loader [batch [0; 0] [1; 1]] 2))].

(** Two validation samples of which the model at [b = 1] and the model at
    [b = 2] get one right each. *)
Definition train_and_even_val : dict string (option DataLoader) :=
  [("train", Some (loader [batch [0] [5]] 1));
   ("val", Some (loader [batch [0; 0] [1; 2]] 2))].

Definition train_only : dict string (option DataLoader) :=
  [("train", Some (loader [batch [0] [5]] 1))].

Definition hyper : dict string hval :=
  [("model_name", HStr "resnet18"); ("last_layer_only", HBool true);
   ("num_classes", HInt 10); ("num_hidden", HInt 512)].

Definition lr : float := 0x1p-10%float.
Definition momentum : float := 0x1p-1%float.

(** What [Resnet(hyper)] is expected to be. *)
Definition constructed : Resnet :=
  {| hyperparameters := hyper;
     model_class := resnet18;
     last_layer_only := HBool true;
     num_classes := HInt 10;
     model := Sequential
                {| body := [("conv1.weight", {| requires_grad := false |});
                            ("bn1.weight", {| requires_grad := false |})];
                   fc := nn_Linear 512 512 |}
                (nn_Linear 512 10);
     params_to_update :=
       ParamsList
         [("0.fc.weight", {| requires_grad := true |});
          ("0.fc.bias", {| requires_grad := true |});
          ("1.weight", {| requires_grad := true |});
          ("1.bias", {| requires_grad := true |})] |}.
End Toy.

(** ** What a trace shows *)
Section Observations.
Context `{Framework}.

(** The metrics [scheduler.step] was called with, in order. *)
Definition scheduler_metrics (tr : list event) : list float :=
  omap (fun e => match e with EvSchedulerStep m => Some m | _ => None end) tr.

(** The epochs that were started, in order. *)
Definition epochs_of (tr : list event) : list Z :=
  omap (fun e => match e with EvEpoch n => Some n | _ => None end) tr.

(** The loss, the accuracy and the state dict at the end of each pass
    through [phase], in order: one per epoch that got that far. *)
Definition phase_reports (phase : string) (tr : list event)
    : list (float * float * gmap string Tensor) :=
  omap (fun e => match e with
                 | EvPhaseDone p loss acc w =>
                     if decide (p = phase) then Some (loss, acc, w) else None
                 | _ => None
                 end) tr.

Definition epoch_losses (phase : string) (tr : list event) : list float :=
  (phase_reports phase tr).*1.*1.

Definition epoch_accs (phase : string) (tr : list event) : list float :=
  (phase_reports phase tr).*1.*2.

(** The validation accuracy of each epoch with the state dict the model
    held when that validation phase ended. *)
Definition checkpoints (tr : list event) : list (float * gmap string Tensor) :=
  map (fun r => (r.1.2, r.2)) (phase_reports "val" tr).

(** The scheduler is stepped once for each pass through [phase], with the
    epoch loss of that pass. *)
Definition scheduler_driven_by (phase : string) (tr : list event) : Prop :=
  scheduler_metrics tr = epoch_losses phase tr.

(** What a pass without training may ask of the framework: forward passes
    in evaluation mode with gradient tracking disabled, and clearing the
    gradients; no backward pass and no optimiser step. *)
Definition inference_only (e : event) : Prop :=
  match e with
  | EvForward mode grad_enabled => mode = false /\ grad_enabled = false
  | EvBackward | EvOptimizerStep | EvSchedulerStep _ => False
  | _ => True
  end.

(** [x <= y] on floats. *)
Definition fle (x y : float) : bool := PrimFloat.leb x y.

(** None of [xs] exceeds [b]: [a <= b] for each of them. *)
Definition none_exceeds (b : float) (xs : list float) : Prop :=
  Forall (fun a => fle a b = true) xs.

(** [xs !! k] is the first element of [xs] to reach the value [b]: it is
    [b], and [b] strictly exceeds every earlier element. *)
Definition first_to_reach (b : float) (k : nat) (xs : list float) : Prop :=
  xs !! k = Some b /\
  forall j a, (j < k)%nat -> xs !! j = Some a -> fgt b a = true.

(** A list of floats in strictly increasing order. *)
Definition strictly_increasing (xs : list float) : Prop :=
  forall i j a b, (i < j)%nat -> xs !! i = Some a -> xs !! j = Some b ->
    fgt b a = true.

(** The number of correct predictions of the model with state dict [w], in
    evaluation mode, over the batches [bs]. *)
Definition total_correct (w : gmap string Tensor) (bs : list Batch) : Z :=
  foldr (fun b n =>
           num_correct (argmax1 (model_call false w (inputs b))) (labels b) + n)
        0 bs.

(** The state in which [infer(dataloader)] leaves off: the model is in
    evaluation mode and one forward pass per batch has been made. *)
Definition after_infer (dataloader : DataLoader) (s : State) : State :=
  set_trace (trace s ++ replicate (length (batches dataloader))
                          (EvForward false false))%list
    (set_training false s).

(** Every run of [m] takes a state to one that is [R]-related to it,
    whether it returns or raises. *)
Definition keeps {A} (R : State -> State -> Prop) (m : M State A) : Prop :=
  forall s, R s (m s).2.

(** [s'] comes after [s]: its trace continues that of [s], by events that
    together satisfy [Q]. *)
Definition extends (Q : list event -> Prop) (s s' : State) : Prop :=
  exists tr, trace s' = (trace s ++ tr)%list /\ Q tr.

(** From [s] to [s'] no parameter or buffer of the model has changed and
    the framework was asked for inference only. *)
Definition quiet (s s' : State) : Prop :=
  weights s' = weights s /\ extends (Forall inference_only) s s'.

(** The events of the loop over the batches of a phase. *)
Definition batch_event (e : event) : Prop :=
  match e with
  | EvZeroGrad | EvForward _ _ | EvBackward | EvOptimizerStep => True
  | _ => False
  end.

(** From [s] to [s'] the clock has not been read and only batches were
    processed. *)
Definition batch_frame (s s' : State) : Prop :=
  ticks s' = ticks s /\ extends (Forall batch_event) s s'.

(** [l'] has the checkpoint, the history, the profile and the test results
    of [l]: at most its optimiser and scheduler differ. *)
Definition same_records (l l' : Locals) : Prop :=
  val_acc_history l' = val_acc_history l /\
  best_model_wts l' = best_model_wts l /\
  best_acc l' = best_acc l /\
  profile l' = profile l /\
  profile_data l' = profile_data l /\
  subprofile_test_results l' = subprofile_test_results l.

(** Once the model is in evaluation mode it stays there, and nothing
    changes its state dict. *)
Definition eval_frame (s s' : State) : Prop :=
  training s = false -> training s' = false /\ quiet s s'.

(** The events [scheduler.step] adds in the phase [phase]. *)
Definition scheduler_events (phase : string) (epoch_loss : float) : list event :=
  if decide (phase = "train") then [EvSchedulerStep epoch_loss] else [].

(** From [s] to [s'] only batches were processed, by a model whose state
    dict has not changed. *)
Definition infer_frame (s s' : State) : Prop :=
  batch_frame s s' /\ weights s' = weights s.

(** Best-checkpoint retention, as a relation between the local variables
    [val_acc_history], [best_acc] and [best_model_wts] and the validation
    checkpoints [cps] seen so far, for a run that started from the state
    dict [w0]:
    - no validation accuracy exceeds [best];
    - [best] is [0.0], the history is empty and the kept state dict is
      [w0]; or [best] exceeds [0.0], it is the last entry of the history,
      and it is the accuracy of the first checkpoint to reach that value,
      whose state dict is the kept one;
    - the history is strictly increasing, it is a sublist of the accuracies
      of the checkpoints, and each of its entries exceeds [0.0] and every
      accuracy before the one it records. *)
Definition retained (w0 : gmap string Tensor) (history : list float)
    (best : float) (wts : gmap string Tensor)
    (cps : list (float * gmap string Tensor)) : Prop :=
  none_exceeds best cps.*1 /\
  ((best = PrimFloat.zero /\ history = [] /\ wts = w0) \/
   (fgt best PrimFloat.zero = true /\ last history = Some best /\
    exists k, first_to_reach best k cps.*1 /\ cps.*2 !! k = Some wts)) /\
  strictly_increasing history /\
  sublist history cps.*1 /\
  Forall (fun h => fgt h PrimFloat.zero = true /\
                   exists k, first_to_reach h k cps.*1) history.

(** In state [s] with local variables [l], the best checkpoint of the run
    that started in [s0] has been retained. *)
Definition retains (s0 : State) (l : Locals) (s : State) : Prop :=
  exists tr,
    trace s = (trace s0 ++ tr)%list /\
    retained (weights s0) (val_acc_history l) (best_acc l) (best_model_wts l)
      (checkpoints tr).

(** What the loop over the phases [ps] of one epoch, started at tick [t]
    with the metrics [pd] and ended with the metrics [pd'] after the
    events [tr], has done about phase [q]: nothing, when [q] is not one of
    [ps]; otherwise [q] has reported once and its four metrics are
    recorded. *)
Definition phase_done (dataloaders : dict string (option DataLoader))
    (ps : list string) (t : nat) (tr : list event)
    (pd pd' : dict string (dict string pyval)) (q : string) : Prop :=
  ((q ∉ ps) /\ phase_reports q tr = [] /\
   forall m, pd_get pd' q m = pd_get pd q m) \/
  (exists (i : nat) (dl : DataLoader) loss acc w,
     ps !! i = Some q /\
     dict_get dataloaders q = Some (Some dl) /\
     phase_reports q tr = [(loss, acc, w)] /\
     pd_get pd' q "time"
     = PyFloat (PrimFloat.sub (time_time (S (t + 2 * i)))
                              (time_time (t + 2 * i)%nat)) /\
     pd_get pd' q "loss" = PyFloat loss /\
     pd_get pd' q "acc" = PyFloat acc /\
     pd_get pd' q "num_samples" = PyInt (len_dataset dl)).

(** The four values of a profile row for [phase], in the epoch number [k]
    of a run with trace [tr] whose phases started at tick [t1]: zeros when
    the phase is not a key of [dataloaders]; otherwise the time between
    the two readings of the clock around the phase, the loss and the
    accuracy the phase reported in that epoch, and the size of its
    dataset. *)
Definition cells (dataloaders : dict string (option DataLoader))
    (tr : list event) (t1 : nat) (k : nat) (phase : string)
    (cs : list pyval) : Prop :=
  ((phase ∉ keys dataloaders) /\ cs = [PyInt 0; PyInt 0; PyInt 0; PyInt 0]) \/
  (exists (i : nat) (dl : DataLoader) loss acc w,
     keys dataloaders !! i = Some phase /\
     dict_get dataloaders phase = Some (Some dl) /\
     phase_reports phase tr !! k = Some (loss, acc, w) /\
     cs = [PyFloat (PrimFloat.sub (time_time (S (t1 + 2 * i)))
                                  (time_time (t1 + 2 * i)%nat));
           PyFloat loss; PyFloat acc; PyInt (len_dataset dl)]).

(** The row of the profile for the epoch number [k], which started at tick
    [t]: the time read at [t], then the cells of the three phases, whose
    first reading of the clock is at [t + 1]. *)
Definition row_spec (dataloaders : dict string (option DataLoader))
    (tr : list event) (t : nat) (k : nat) (row : list pyval) : Prop :=
  exists c_train c_val c_test,
    row = (PyFloat (time_time t) :: c_train ++ c_val ++ c_test)%list /\
    cells dataloaders tr (S t) k "train" c_train /\
    cells dataloaders tr (S t) k "val" c_val /\
    cells dataloaders tr (S t) k "test" c_test.

(** The number of readings of the clock in one epoch: one at its start and
    two around each phase. *)
Definition ticks_per_epoch (dataloaders : dict string (option DataLoader)) : nat :=
  S (2 * length (keys dataloaders)).

(** After the epochs [done], from the state [s0] in which the loop over
    the epochs started: these epochs were announced, the scheduler was
    stepped once in each, with the loss of the training phase, every phase
    of [dataloaders] has reported once in each, and the profile has one
    row for each, as [row_spec] describes it. *)
Definition epochs_done (dataloaders : dict string (option DataLoader))
    (s0 : State) (done : list Z) (l : Locals) (s : State) : Prop :=
  exists tr,
    trace s = (trace s0 ++ tr)%list /\
    epochs_of tr = done /\
    scheduler_metrics tr = epoch_losses "train" tr /\
    ticks s = (ticks s0 + length done * ticks_per_epoch dataloaders)%nat /\
    length (profile l) = length done /\
    (forall q, q ∈ keys dataloaders ->
               length (phase_reports q tr) = length done) /\
    (forall k row, profile l !! k = Some row ->
       row_spec dataloaders tr
         (ticks s0 + k * ticks_per_epoch dataloaders) k row).

(** In the order [ps] of the phases, no pass through ['train'] comes after
    the pass through ['val']. *)
Definition trains_before_validating (ps : list string) : Prop :=
  forall i j, ps !! i = Some "val" -> ps !! j = Some "train" -> (j < i)%nat.

(** [torch.load] gives back what [torch.save] wrote. *)
Definition serialization_round_trips : Prop :=
  forall sd path fs fs',
    torch_save sd path fs = Ok fs' -> torch_load path fs' = Ok sd.
End Observations.

(** The name under which [get_model_from_str] knows a constructor. *)
Definition ctor_name (c : model_ctor) : string :=
  match c with
  | resnet18 => "resnet18"
  | resnet50 => "resnet50"
  | resnet101 => "resnet101"
  | resnet152 => "resnet152"
  end.

(** ** What the methods give back *)
Section Results.
Context `{Framework}.

Definition accuracy (w : gmap string Tensor) (dataloader : DataLoader) : float :=
  PrimFloat.div (float_of_int (total_correct w (batches dataloader)))
    (float_of_int (len_dataset dataloader)).

(** [{task_id: self.infer(loader), ...}] for the items of [tasks], by a
    model with state dict [w]. *)
Definition task_accuracies (w : gmap string Tensor) (tasks : dict Z DataLoader)
    : dict Z float :=
  foldl (fun d task => dict_set d task.1 (accuracy w task.2)) [] tasks.

(** The state dict of [nn.Sequential(resnet, nn.Linear(nh, nc))], where
    [resnet] had the state dict [w] before its [fc] was replaced by
    [nn.Linear(n_in, nh)]: the two new layers are freshly initialised and
    the keys of the resnet get the prefix ["0."]. *)
Definition with_new_head (w : gmap string Tensor) (n_in nh nc : Z)
    : gmap string Tensor :=
  <["1.weight" := (linear_init nh nc).1]> (<["1.bias" := (linear_init nh nc).2]>
    (kmap (String.append "0.")
       (<["fc.weight" := (linear_init n_in nh).1]>
          (<["fc.bias" := (linear_init n_in nh).2]> w)))).

(** torch keeps the keys and the shapes of a state dict: neither a forward
    pass in training mode nor an optimiser step changes them. *)
Definition shapes_kept : Prop :=
  (forall w x, shape <$> track_running_stats w x = shape <$> w) /\
  (forall o g w, shape <$> (sgd_step o g w).2 = shape <$> w).

(** [loss.item() * inputs.size(0)] for the batch [b], by a model with state
    dict [w] in evaluation mode. *)
Definition batch_loss (w : gmap string Tensor) (b : Batch) : float :=
  PrimFloat.mul (cross_entropy (model_call false w (inputs b)) (labels b))
    (float_of_int (size0 (inputs b))).

(** [running_loss] after the batches [bs], from [0.0]. *)
Definition total_loss (w : gmap string Tensor) (bs : list Batch) : float :=
  foldl (fun running_loss b => PrimFloat.add running_loss (batch_loss w b))
    PrimFloat.zero bs.

(** What one batch of a phase asks of the framework, in order. *)
Definition batch_events (phase : string) : list event :=
  if decide (phase = "train")
  then [EvZeroGrad; EvForward true true; EvBackward; EvOptimizerStep]
  else [EvZeroGrad; EvForward false false].

(** [m] returns, from whatever state it is run in. *)
Definition returns {A} (m : M State A) : Prop :=
  forall s, exists a s', m s = (Ok a, s').

(** The local variables that hold the checkpoint are as they were when
    [train_model] started. *)
Definition untouched_checkpoint (w0 : gmap string Tensor) (l : Locals) : Prop :=
  val_acc_history l = [] /\ best_acc l = PrimFloat.zero /\ best_model_wts l = w0.

(** From [s] to [s'] the component [f] of the state has not changed. *)
Definition same {X} (f : State -> X) (s s' : State) : Prop := f s' = f s.

(** The state dict of the model and the kept one have the keys and the
    shapes of [w0]. *)
Definition shaped (w0 : gmap string Tensor) (l : Locals) (s : State) : Prop :=
  shape <$> weights s = shape <$> w0 /\
  shape <$> best_model_wts l = shape <$> w0.
End Results.

(** ** Further inputs for the small framework *)
Module Examples.
Definition val_loader : DataLoader (H := Toy.framework) := Toy.loader [Toy.batch [0; 0] [1; 1]] 2.

Definition no_training : dict string (option (DataLoader (H := Toy.framework))) :=
  [("train", None)].

(** The loaders of [Toy.train_and_val], the validation set first. *)
Definition val_then_train : dict string (option (DataLoader (H := Toy.framework))) :=
  [("val", Some (Toy.loader [Toy.batch [0; 0] [1; 1]] 2));
   ("train", Some (Toy.loader [Toy.batch [0] [5]] 1))].

Definition test_epochs : dict Z (dict Z (DataLoader (H := Toy.framework))) :=
  [(0, [(7, val_loader)]); (5, [(7, val_loader)])].

Definition hyper_all : dict string hval :=
  [("model_name", HStr "resnet18"); ("last_layer_only", HBool false);
   ("num_classes", HInt 10); ("num_hidden", HInt 512)].

(** What [Resnet(hyper_all)] is expected to be. *)
Definition constructed_all : Resnet :=
  {| hyperparameters := hyper_all;
     model_class := resnet18;
     last_layer_only := HBool false;
     num_classes := HInt 10;
     model := Sequential
                {| body := body Toy.resnet; fc := nn_Linear 512 512 |}
                (nn_Linear 512 10);
     params_to_update := ParamsGenerator |}.
End Examples.

(** * Properties *)

(** ** Floats *)

Ltac cmp_cases :=
  repeat match goal with
  | |- context [Z.compare ?a ?b] => destruct (Z.compare_spec a b)
  | |- context [Pos.compare_cont Eq ?a ?b] =>
      change (Pos.compare_cont Eq a b) with (Pos.compare a b);
      destruct (Pos.compare_spec a b)
  end.

Ltac sf_cases x y z :=
  unfold SFltb, SFleb, SFcompare;
  destruct x as [[]|[]| |[] ? ?], y as [[]|[]| |[] ? ?], z as [[]|[]| |[] ? ?];
  simpl; try congruence; cmp_cases; simpl; try congruence; try lia.

Lemma SFltb_irrefl x : SFltb x x = false.
Proof.
  unfold SFltb, SFcompare.
  destruct x as [[]|[]| |[] m e]; simpl; try congruence;
    rewrite Z.compare_refl; change (Pos.compare_cont Eq m m) with (Pos.compare m m);
    rewrite Pos.compare_refl; reflexivity.
Qed.

Lemma SFltb_trans x y z : SFltb x y = true -> SFltb y z = true -> SFltb x z = true.
Proof. sf_cases x y z. Qed.

Lemma fgt_irrefl x : fgt x x = false.
Proof. unfold fgt. rewrite ltb_spec. apply SFltb_irrefl. Qed.

Lemma fgt_trans x y z : fgt x y = true -> fgt y z = true -> fgt x z = true.
Proof. unfold fgt. rewrite !ltb_spec. intros; eapply SFltb_trans; eauto. Qed.

(** If [x <= y] and [z] exceeds [y], then [z] exceeds [x], and [x <= z]. *)
Lemma SFleb_ltb_ltb x y z : SFleb x y = true -> SFltb y z = true -> SFltb x z = true.
Proof. sf_cases x y z. Qed.

Lemma SFleb_ltb_leb x y z : SFleb x y = true -> SFltb y z = true -> SFleb x z = true.
Proof. sf_cases x y z. Qed.

Lemma fle_fgt x y z : fle x y = true -> fgt z y = true -> fgt z x = true.
Proof. unfold fgt, fle. rewrite !ltb_spec, leb_spec. apply SFleb_ltb_ltb. Qed.

Lemma fle_fgt_fle x y z : fle x y = true -> fgt z y = true -> fle x z = true.
Proof. unfold fgt, fle. rewrite ltb_spec, !leb_spec. apply SFleb_ltb_leb. Qed.

(** *** Numbers: the floats that are not NaN *)

Lemma SFeqb_refl x : x <> S754_nan -> SFeqb x x = true.
Proof.
  unfold SFeqb, SFcompare.
  destruct x as [[]|[]| |[] m e]; try reflexivity; try congruence; intros _;
    rewrite Z.compare_refl; change (Pos.compare_cont Eq m m) with (Pos.compare m m);
    rewrite Pos.compare_refl; reflexivity.
Qed.

Lemma is_nan_false x : Prim2SF x <> S754_nan -> PrimFloat.is_nan x = false.
Proof.
  intros Hx. unfold PrimFloat.is_nan.
  rewrite FloatAxioms.eqb_spec, SFeqb_refl by exact Hx. reflexivity.
Qed.

(** What exceeds something is a number. *)
Lemma fgt_number x y : fgt x y = true -> PrimFloat.is_nan x = false.
Proof.
  unfold fgt. rewrite ltb_spec. intros Hlt. apply is_nan_false.
  intros E. rewrite E in Hlt. destruct (Prim2SF y) as [[]|[]| |[] ? ?]; discriminate.
Qed.

(** Of two numbers, the one that does not exceed the other is at most the
    other. *)
Lemma fgt_false_fle x y :
  PrimFloat.is_nan x = false -> PrimFloat.is_nan y = false ->
  fgt x y = false -> fle x y = true.
Proof.
  unfold fle, fgt, PrimFloat.is_nan.
  rewrite !FloatAxioms.eqb_spec, leb_spec, ltb_spec.
  generalize (Prim2SF x) (Prim2SF y). intros a b.
  unfold SFeqb, SFltb, SFleb, SFcompare.
  destruct a as [[]|[]| |[] ? ?], b as [[]|[]| |[] ? ?];
    simpl; try (intuition congruence); cmp_cases; simpl;
    try (intuition congruence); try lia.
Qed.

Lemma fle_refl x : PrimFloat.is_nan x = false -> fle x x = true.
Proof. intros Hx. apply fgt_false_fle; auto. apply fgt_irrefl. Qed.

(** *** The binary64 of an integer

    [of_uint63] and [/] are specified by [binary_normalize] and [SFdiv]:
    rounding to nearest, ties to even, of a mantissa and an exponent. *)

Lemma digits2_pos_bounds p :
  2 ^ (Z.pos (digits2_pos p) - 1) <= Z.pos p < 2 ^ Z.pos (digits2_pos p).
Proof.
  induction p as [p IH|p IH|]; simpl digits2_pos.
  - rewrite Pos2Z.inj_succ, Z.pow_succ_r by lia.
    replace (Z.succ (Z.pos (digits2_pos p)) - 1) with (Z.succ (Z.pos (digits2_pos p) - 1)) by lia.
    rewrite Z.pow_succ_r by lia. lia.
  - rewrite Pos2Z.inj_succ, Z.pow_succ_r by lia.
    replace (Z.succ (Z.pos (digits2_pos p)) - 1) with (Z.succ (Z.pos (digits2_pos p) - 1)) by lia.
    rewrite Z.pow_succ_r by lia. lia.
  - simpl. lia.
Qed.

Lemma shr_1_m mrs : 0 <= shr_m mrs -> shr_m (shr_1 mrs) = shr_m mrs / 2.
Proof.
  destruct mrs as [m r s]. simpl. intros Hm.
  rewrite <- Z.div2_div. destruct m as [|[p|p|]|p]; try reflexivity; lia.
Qed.

Lemma iter_shr_1_m p : forall mrs,
  0 <= shr_m mrs -> shr_m (SpecFloat.iter_pos shr_1 p mrs) = shr_m mrs / 2 ^ Z.pos p.
Proof.
  assert (Hdiv : forall a b c, 0 < b -> 0 < c -> a / b / c = a / (b * c)).
  { intros. apply Z.div_div; lia. }
  assert (Hnn : forall a b, 0 <= a -> 0 < b -> 0 <= a / b).
  { intros. apply Z.div_pos; lia. }
  induction p as [p IH|p IH|]; intros mrs Hm; simpl SpecFloat.iter_pos.
  - assert (H1 : 0 <= shr_m (shr_1 mrs)) by (rewrite shr_1_m by lia; apply Hnn; lia).
    assert (Hp : 0 < 2 ^ Z.pos p) by (apply Z.pow_pos_nonneg; lia).
    rewrite IH; rewrite IH; try lia.
    + rewrite shr_1_m by lia. rewrite !Hdiv by lia. f_equal.
      rewrite (Pos2Z.inj_xI p).
      replace (2 * Z.pos p + 1) with (1 + Z.pos p + Z.pos p) by lia.
      rewrite !Z.pow_add_r by lia. lia.
    + apply Hnn; lia.
  - assert (Hp : 0 < 2 ^ Z.pos p) by (apply Z.pow_pos_nonneg; lia).
    rewrite IH; rewrite IH; try lia.
    + rewrite !Hdiv by lia. f_equal.
      rewrite (Pos2Z.inj_xO p).
      replace (2 * Z.pos p) with (Z.pos p + Z.pos p) by lia.
      rewrite !Z.pow_add_r by lia. lia.
    + apply Hnn; lia.
  - rewrite shr_1_m by lia. reflexivity.
Qed.

Lemma Zdigits2_le m k : 0 < m -> m < 2 ^ k -> Zdigits2 m <= k.
Proof.
  intros Hm Hk. destruct m as [|p|p]; try lia. simpl.
  pose proof (digits2_pos_bounds p) as [Hlo _].
  destruct (Z_lt_le_dec k (Z.pos (digits2_pos p))) as [Hlt|]; [|assumption].
  assert (2 ^ k <= 2 ^ (Z.pos (digits2_pos p) - 1)) by (apply Z.pow_le_mono_r; lia).
  lia.
Qed.

Lemma shr_record_of_loc_m m l : shr_m (shr_record_of_loc m l) = m.
Proof. destruct l as [|[]]; reflexivity. Qed.

(** Shifting a mantissa to the precision of binary64, away from the
    subnormal range: what is left is positive and below [2 ^ 53], and
    the exponent grows by the digits that were dropped. *)
Lemma shr_fexp_normal m e l :
  0 < m -> -1022 <= e ->
  let r := shr_fexp prec emax m e l in
  0 < shr_m r.1 < 2 ^ 53 /\ shr_m r.1 <= m /\
  e <= r.2 <= e + Z.max 0 (Zdigits2 m - 53).
Proof.
  intros Hm He. unfold shr_fexp, fexp, SpecFloat.emin, prec, emax.
  destruct m as [|p|p]; try lia. simpl Zdigits2.
  pose proof (digits2_pos_bounds p) as [Hlo Hhi].
  set (d := Z.pos (digits2_pos p)) in *.
  assert (Hd : 0 < d) by (unfold d; lia).
  replace (Z.max (d + e - 53) (3 - 1024 - 53) - e) with (d - 53) by lia.
  unfold shr. destruct (d - 53) as [|k|k] eqn:Hk; simpl;
    rewrite ?shr_record_of_loc_m.
  - assert (d = 53) as Hd53 by lia. rewrite Hd53 in Hhi. lia.
  - rewrite iter_shr_1_m by (rewrite shr_record_of_loc_m; lia).
    rewrite shr_record_of_loc_m.
    assert (Hp : 0 < 2 ^ Z.pos k) by (apply Z.pow_pos_nonneg; lia).
    assert (E : 2 ^ (d - 1) = 2 ^ 52 * 2 ^ Z.pos k).
    { rewrite <- Z.pow_add_r by lia. f_equal. lia. }
    assert (E' : 2 ^ d = 2 ^ 53 * 2 ^ Z.pos k).
    { rewrite <- Z.pow_add_r by lia. f_equal. lia. }
    repeat split; try lia.
    + apply Z.lt_le_trans with (2 ^ 52); [reflexivity|].
      apply Z.div_le_lower_bound; lia.
    + apply Z.div_lt_upper_bound; lia.
    + apply Z.div_le_upper_bound; [lia|]. nia.
  - assert (2 ^ d <= 2 ^ 53) by (apply Z.pow_le_mono_r; lia). lia.
Qed.

(** Without a bound on the exponent, at least nothing negative appears. *)
Lemma shr_fexp_nonneg m e l : 0 <= m -> 0 <= shr_m (shr_fexp prec emax m e l).1.
Proof.
  intros Hm. unfold shr_fexp, shr.
  destruct (_ - e) as [|k|k]; simpl; rewrite ?shr_record_of_loc_m; try lia.
  rewrite iter_shr_1_m by (rewrite shr_record_of_loc_m; lia).
  rewrite shr_record_of_loc_m. apply Z.div_pos; [lia|].
  apply Z.pow_pos_nonneg; lia.
Qed.

Lemma round_nearest_even_bounds m l :
  m <= round_nearest_even m l <= m + 1.
Proof. unfold round_nearest_even. destruct l as [|[]]; try destruct (Z.even m); lia. Qed.

(** Rounding a positive mantissa whose exponent is neither in the
    subnormal range nor near the largest one gives a finite, nonzero
    number. *)
Lemma binary_round_aux_finite sx mx ex lx :
  0 < mx -> -1022 <= ex -> ex + Z.max 0 (Zdigits2 mx - 53) <= 970 ->
  exists m e, binary_round_aux prec emax sx mx ex lx = S754_finite sx m e.
Proof.
  intros Hm Hlo Hhi. unfold binary_round_aux.
  pose proof (shr_fexp_normal mx ex lx Hm Hlo) as H1.
  destruct (shr_fexp prec emax mx ex lx) as [mrs1 e1]. simpl in H1.
  destruct H1 as ([H1a H1b] & H1c & H1d).
  pose proof (round_nearest_even_bounds (shr_m mrs1) (loc_of_shr_record mrs1)) as Hr.
  set (m2 := round_nearest_even _ _) in *.
  assert (Hm2 : 0 < m2) by lia.
  pose proof (shr_fexp_normal m2 e1 loc_Exact Hm2 ltac:(lia)) as H2.
  assert (Hd2 : Zdigits2 m2 <= 54).
  { apply Zdigits2_le; [lia|]. change (2 ^ 54) with (2 * 2 ^ 53). lia. }
  destruct (shr_fexp prec emax m2 e1 loc_Exact) as [mrs2 e2]. simpl in H2.
  destruct H2 as ([H2a H2b] & H2c & H2d).
  destruct (shr_m mrs2) as [|m|m]; try lia.
  unfold emax, prec. destruct (Z.leb_spec e2 (1024 - 53)); [eauto|lia].
Qed.

Lemma binary_round_aux_number sx mx ex lx :
  0 <= mx -> binary_round_aux prec emax sx mx ex lx <> S754_nan.
Proof.
  intros Hm. unfold binary_round_aux.
  pose proof (shr_fexp_nonneg mx ex lx Hm) as H1.
  destruct (shr_fexp prec emax mx ex lx) as [mrs1 e1]. simpl in H1.
  pose proof (round_nearest_even_bounds (shr_m mrs1) (loc_of_shr_record mrs1)) as Hr.
  set (m2 := round_nearest_even _ _) in *.
  pose proof (shr_fexp_nonneg m2 e1 loc_Exact ltac:(lia)) as H2.
  destruct (shr_fexp prec emax m2 e1 loc_Exact) as [mrs2 e2]. simpl in H2.
  destruct (shr_m mrs2) as [|m|m]; try lia; [discriminate|].
  destruct (Z.leb _ _); discriminate.
Qed.

(** The binary64 of an unsigned 63-bit integer: zero for [0], and a
    positive finite number otherwise. *)
Lemma of_uint63_finite (x : Uint63.int) :
  (Uint63.to_Z x = 0 /\ Prim2SF (of_uint63 x) = S754_zero false) \/
  (Uint63.to_Z x <> 0 /\ exists m e, Prim2SF (of_uint63 x) = S754_finite false m e).
Proof.
  rewrite of_uint63_spec.
  pose proof (Uint63.to_Z_bounded x) as [Hlo Hhi].
  change Uint63.wB with (2 ^ 63) in Hhi.
  destruct (Uint63.to_Z x) as [|p|p]; [left; auto| |lia].
  right. split; [lia|]. unfold binary_normalize, binary_round.
  pose proof (digits2_pos_bounds p) as [Hdlo Hdhi].
  assert (Hd : Z.pos (digits2_pos p) <= 63) by (apply (Zdigits2_le (Z.pos p)); lia).
  unfold shl_align, fexp, SpecFloat.emin, prec, emax.
  set (d := Z.pos (digits2_pos p)) in *.
  replace (Z.max (d + 0 - 53) (3 - 1024 - 53) - 0) with (d - 53) by lia.
  replace (Z.max (d + 0 - 53) (3 - 1024 - 53)) with (d - 53) by lia.
  destruct (d - 53) as [|k|k] eqn:Hk.
  - apply binary_round_aux_finite; [lia|lia|]. fold d. simpl Zdigits2. fold d. lia.
  - apply binary_round_aux_finite; [lia|lia|]. simpl Zdigits2. fold d. lia.
  - change (Pos.iter xO p k) with (shift_pos k p).
    assert (Hs : Z.pos (shift_pos k p) = 2 ^ Z.pos k * Z.pos p).
    { rewrite shift_pos_correct. reflexivity. }
    assert (Hk52 : 2 ^ Z.pos k <= 2 ^ 52) by (apply Z.pow_le_mono_r; lia).
    assert (Hkpos : 0 < 2 ^ Z.pos k) by (apply Z.pow_pos_nonneg; lia).
    assert (Hmz : Z.pos (shift_pos k p) < 2 ^ 115).
    { rewrite Hs. change (2 ^ 115) with (2 ^ 52 * 2 ^ 63). nia. }
    pose proof (Zdigits2_le (Z.pos (shift_pos k p)) 115 ltac:(lia) Hmz).
    apply binary_round_aux_finite; lia.
Qed.

Lemma SFdiv_finite_number sx mx ex sy my ey :
  SFdiv prec emax (S754_finite sx mx ex) (S754_finite sy my ey) <> S754_nan.
Proof.
  unfold SFdiv, SFdiv_core_binary.
  set (m' := match _ with Z0 => Z.pos mx | Z.pos _ => _ | Z.neg _ => 0 end).
  assert (Hm' : 0 <= m').
  { unfold m'. destruct (_ - _ - _) as [|k|k]; try lia.
    apply Z.shiftl_nonneg. lia. }
  pose proof (Z.div_pos m' (Z.pos my) Hm' ltac:(lia)) as Hq.
  unfold Z.div in Hq. destruct (Z.div_eucl m' (Z.pos my)) as [q r].
  apply binary_round_aux_number. exact Hq.
Qed.

(** The quotient of a count by a length that is not zero is a number. *)
Lemma count_div_len_number (c : Z) (n : Uint63.int) :
  Uint63.to_Z n <> 0 ->
  PrimFloat.is_nan (PrimFloat.div (float_of_int c) (float_of_int (Uint63.to_Z n)))
  = false.
Proof.
  intros Hn. apply is_nan_false. rewrite div_spec. unfold float_of_int.
  rewrite Uint63.of_to_Z.
  destruct (of_uint63_finite n) as [[Hz _]|(_ & my & ey & ->)]; [contradiction|].
  destruct (of_uint63_finite (Uint63.of_Z c)) as [[_ ->]|(_ & mx & ex & ->)].
  - discriminate.
  - apply SFdiv_finite_number.
Qed.

(** ** The monad *)

Lemma bind_unfold {S A B} (m : M S A) (k : A -> M S B) s :
  bind m k s = match m s with
               | (Ok a, s') => k a s'
               | (Raise e, s') => (Raise e, s')
               end.
Proof. reflexivity. Qed.

Lemma bind_Ok {S A B} (m : M S A) (k : A -> M S B) s b s' :
  bind m k s = (Ok b, s') ->
  exists a s1, m s = (Ok a, s1) /\ k a s1 = (Ok b, s').
Proof.
  rewrite bind_unfold. destruct (m s) as [[a|e] s1]; [eauto | discriminate].
Qed.

Lemma bind_Raise {S A B} (m : M S A) (k : A -> M S B) s e s' :
  m s = (Raise e, s') -> bind m k s = (Raise e, s').
Proof. intros E. rewrite bind_unfold, E. reflexivity. Qed.

Lemma bind_step {S A B} (m : M S A) (k : A -> M S B) s a s1 :
  m s = (Ok a, s1) -> bind m k s = k a s1.
Proof. intros E. rewrite bind_unfold, E. reflexivity. Qed.

Lemma lift_Ok `{Framework} {A} (r : result A) s a s' :
  lift r s = (Ok a, s') -> r = Ok a /\ s' = s.
Proof. destruct r; simpl; unfold ret, raise; intros [= <- <-]; auto. Qed.

Lemma modify_run {S} (f : S -> S) s : modify f s = (Ok tt, f s).
Proof. reflexivity. Qed.

Lemma time_run `{Framework} s :
  time s = (Ok (time_time (ticks s)), set_ticks (S (ticks s)) s).
Proof. reflexivity. Qed.

Lemma log_run `{Framework} e s :
  log e s = (Ok tt, set_trace (trace s ++ [e])%list s).
Proof. reflexivity. Qed.

(** Run the monadic operations of the goal as far as they go. *)
Tactic Notation "mrun" :=
  cbv beta iota zeta delta [bind get ret modify raise lift].
Tactic Notation "mrun" "in" hyp(H) :=
  cbv beta iota zeta delta [bind get ret modify raise lift] in H.

(** Take a successful run apart, bind by bind. *)
Ltac inv_run H :=
  repeat (let a := fresh "a" in let s := fresh "s" in let E := fresh "E" in
          apply bind_Ok in H as (a & s & E & H)).

(** ** Loading a state dict *)

Lemma copy_matching_same `{Framework} (new old : gmap string Tensor) :
  shape <$> new = shape <$> old -> copy_matching new old = new.
Proof.
  intros Hshape. apply map_eq. intros k. unfold copy_matching.
  rewrite map_lookup_imap.
  apply (f_equal (fun m => m !! k)) in Hshape. rewrite !lookup_fmap in Hshape.
  destruct (old !! k) as [v|], (new !! k) as [v'|]; try discriminate; [|reflexivity].
  injection Hshape as Hshape. simpl. rewrite decide_True by exact Hshape. reflexivity.
Qed.

Lemma load_state_dict_same `{Framework} (new : gmap string Tensor) s :
  shape <$> new = shape <$> weights s ->
  load_state_dict new s = (Ok tt, set_weights new s).
Proof.
  intros Hshape. unfold load_state_dict. mrun.
  rewrite decide_True by exact Hshape.
  rewrite copy_matching_same by exact Hshape. reflexivity.
Qed.

Lemma load_state_dict_Ok `{Framework} (new : gmap string Tensor) s u s' :
  load_state_dict new s = (Ok u, s') ->
  shape <$> new = shape <$> weights s /\ s' = set_weights new s.
Proof.
  intros Hrun. destruct (decide (shape <$> new = shape <$> weights s)) as [Hshape|Hne].
  - rewrite load_state_dict_same in Hrun by exact Hshape.
    injection Hrun as _ <-. auto.
  - unfold load_state_dict in Hrun. mrun in Hrun.
    rewrite decide_False in Hrun by exact Hne. discriminate.
Qed.

(** Whether it returns or raises, [load_state_dict] changes the state dict
    only. *)
Lemma load_state_dict_state `{Framework} (new : gmap string Tensor) s :
  (load_state_dict new s).2 = set_weights (copy_matching new (weights s)) s.
Proof. unfold load_state_dict. mrun. case_decide; reflexivity. Qed.

Lemma load_Ok `{Framework} path s u s' :
  load path s = (Ok u, s') ->
  exists sd,
    torch_load path (files s) = Ok sd /\
    shape <$> sd = shape <$> weights s /\
    s' = set_weights sd s.
Proof.
  unfold load. intros Hload.
  apply bind_Ok in Hload as (s0 & s0' & E0 & Hload). injection E0 as <- <-.
  apply bind_Ok in Hload as (sd & s2 & E2 & Hload).
  apply lift_Ok in E2 as [E2 ->].
  apply load_state_dict_Ok in Hload as [Hshape ->]. eauto.
Qed.

(** ** Model instantiation from a name string *)

Lemma get_model_from_str_name (c : model_ctor) :
  get_model_from_str (ctor_name c) = Ok c.
Proof. destruct c; reflexivity. Qed.

(** C9: [get_model_from_str] returns a constructor for the four names
    ['resnet18'], ['resnet50'], ['resnet101'] and ['resnet152'], the one of
    that name, and for these only; on every other string it raises
    [Exception("Model ... not found")]. *)
Theorem get_model_from_str_spec (model_str : string) :
  (forall c, get_model_from_str model_str = Ok c <-> model_str = ctor_name c) /\
  (model_str ∈ ["resnet18"; "resnet50"; "resnet101"; "resnet152"] \/
   get_model_from_str model_str
   = Raise (Exception ("Model " ++ model_str ++ " not found"))).
Proof.
  split.
  - intros c. split.
    + unfold get_model_from_str.
      repeat case_decide; intros [= <-]; subst; reflexivity.
    + intros ->. apply get_model_from_str_name.
  - unfold get_model_from_str.
    repeat case_decide; subst; auto; left; set_solver.
Qed.

(** ** Construction and the freezing policy *)

Lemma freeze_all_frozen (m : Module) :
  Forall (fun p => requires_grad p = false) (parameters (freeze_all m)).
Proof.
  unfold parameters.
  rewrite Forall_fmap.
  destruct m as [r|r out]; simpl; unfold resnet_named_parameters, prefixed;
    simpl; rewrite ?map_app, ?map_map, ?Forall_app; simpl;
    repeat split; repeat constructor;
    apply Forall_map, Forall_true; intros [n p]; reflexivity.
Qed.

Lemma prefixed_app p (ps qs : list (string * Param)) :
  prefixed p (ps ++ qs) = (prefixed p ps ++ prefixed p qs)%list.
Proof. apply map_app. Qed.

Lemma body_frozen_filter (ps : list (string * Param)) p :
  filter (fun np : string * Param => requires_grad np.2 = true)
    (prefixed p (map (fun np => (np.1, freeze np.2)) ps)) = [].
Proof.
  induction ps as [|[n q] ps IH]; [reflexivity|].
  simpl. rewrite filter_cons_False by (simpl; discriminate). exact IH.
Qed.

Lemma as_int_Ok v n : as_int v = Ok n -> v = HInt n /\ 0 <= n < 2 ^ 63.
Proof.
  destruct v as [k| | |]; try discriminate. unfold as_int.
  destruct (Z.ltb_spec k (- 2 ^ 63)), (Z.leb_spec (2 ^ 63) k); try discriminate.
  destruct (Z.ltb_spec k 0); [discriminate|].
  intros [= <-]. split; [reflexivity | lia].
Qed.

(** What [set_params_to_update] leaves: a list of the parameters that
    require gradients, or a generator that has not been run. *)
Lemma set_params_to_update_run `{Framework} llo m s :
  set_params_to_update llo m s
  = if truthy llo
    then (Ok (ParamsList (filter (fun np => requires_grad np.2 = true)
                            (named_parameters m))), s)
    else (Ok ParamsGenerator, set_exhausted false s).
Proof. unfold set_params_to_update. destruct (truthy llo); reflexivity. Qed.

Lemma initialize_last_layer_Ok `{Framework} m nc nh s m' s' :
  initialize_last_layer m nc nh s = (Ok m', s') ->
  exists r h c,
    m = Bare r /\ nh = HInt h /\ nc = HInt c /\
    m' = Sequential {| body := body r; fc := nn_Linear (in_features (fc r)) h |}
           (nn_Linear h c).
Proof.
  unfold initialize_last_layer.
  destruct m as [r|]; [|discriminate].
  intros Hrun.
  apply bind_Ok in Hrun as (h & s1 & E1 & Hrun).
  apply lift_Ok in E1 as [E1 ->].
  apply as_int_Ok in E1 as [-> _].
  destruct (linear_init (in_features (fc r)) h) as [fw fb].
  apply bind_Ok in Hrun as ([] & s2 & _ & Hrun).
  apply bind_Ok in Hrun as (c & s3 & E3 & Hrun).
  apply lift_Ok in E3 as [E3 ->].
  apply as_int_Ok in E3 as [-> _].
  destruct (linear_init h c) as [ow ob].
  apply bind_Ok in Hrun as ([] & s4 & _ & Hrun).
  injection Hrun as <- <-. eauto 10.
Qed.

Lemma initialize_last_layer_sizes `{Framework} m nc nh s m' s' :
  initialize_last_layer m nc nh s = (Ok m', s') ->
  exists h c,
    nh = HInt h /\ nc = HInt c /\ 0 <= h < 2 ^ 63 /\ 0 <= c < 2 ^ 63.
Proof.
  unfold initialize_last_layer.
  destruct m as [r|]; [|discriminate].
  intros Hrun.
  apply bind_Ok in Hrun as (h & s1 & E1 & Hrun).
  apply lift_Ok in E1 as [E1 ->].
  apply as_int_Ok in E1 as [-> Hh].
  destruct (linear_init (in_features (fc r)) h) as [fw fb].
  apply bind_Ok in Hrun as ([] & s2 & _ & Hrun).
  apply bind_Ok in Hrun as (c & s3 & E3 & Hrun).
  apply lift_Ok in E3 as [E3 ->].
  apply as_int_Ok in E3 as [-> Hc].
  eauto 10.
Qed.

(** C4: a [Resnet] that has been constructed holds
    [nn.Sequential(resnet, nn.Linear(num_hidden, num_classes))], where the
    [fc] of the resnet is a new [nn.Linear].  When
    [hyperparameters['last_layer_only']] is true, every parameter of the
    pretrained resnet was frozen before that head was attached, so that in
    the finished model the parameters of the backbone do not require
    gradients and those of the two new layers do; [params_to_update] is the
    list of the parameters that require gradients, which are the four
    parameters of the two new layers.  When it is false, the parameters of
    the backbone are as torchvision gave them and [params_to_update] is the
    generator [self.model.parameters()], which has not been run: listing it
    gives all the parameters of the model. *)
Theorem freezing_policy `{Framework} hp pretrained restore_path s r s' :
  __init__ hp pretrained restore_path s = (Ok r, s') ->
  let pre := tv_module (model_class r) pretrained in
  let trainable := {| requires_grad := true |} in
  subscript (hyperparameters r) "last_layer_only" = Ok (last_layer_only r) /\
  exists net out,
    model r = Sequential net out /\
    (body net).*1 = (body pre).*1 /\
    fc net = nn_Linear (in_features (fc pre)) (in_features out) /\
    out = nn_Linear (in_features out) (out_features out) /\
    if truthy (last_layer_only r) then
      Forall (fun p => requires_grad p = false)
        (parameters (set_parameter_requires_grad (last_layer_only r) (Bare pre))) /\
      Forall (fun np => requires_grad np.2 = false) (body net) /\
      params_to_update r
      = ParamsList (filter (fun np => requires_grad np.2 = true)
                      (named_parameters (model r))) /\
      params_to_update r
      = ParamsList [("0.fc.weight", trainable); ("0.fc.bias", trainable);
                    ("1.weight", trainable); ("1.bias", trainable)]
    else
      set_parameter_requires_grad (last_layer_only r) (Bare pre) = Bare pre /\
      body net = body pre /\
      params_to_update r = ParamsGenerator /\
      exhausted s' = false /\
      params_of r s' = named_parameters (model r).
Proof.
  unfold __init__. intros Hrun.
  apply bind_Ok in Hrun as (name & s1 & _ & Hrun).
  apply bind_Ok in Hrun as (ctor & s2 & _ & Hrun).
  apply bind_Ok in Hrun as ([] & s3 & _ & Hrun).
  apply bind_Ok in Hrun as (llo & s4 & E4 & Hrun).
  apply lift_Ok in E4 as [E4 ->].
  apply bind_Ok in Hrun as (nc & s5 & _ & Hrun).
  apply bind_Ok in Hrun as (nh & s6 & _ & Hrun).
  apply bind_Ok in Hrun as (m2 & s7 & E7 & Hrun).
  apply bind_Ok in Hrun as (ps & s8 & E8 & Hrun).
  apply bind_Ok in Hrun as ([] & s9 & E9 & Hrun).
  injection Hrun as <- <-. simpl.
  split; [exact E4|].
  rewrite set_params_to_update_run in E8.
  unfold set_parameter_requires_grad in *.
  destruct (truthy llo) eqn:Hllo;
    apply initialize_last_layer_Ok in E7 as (r0 & h & c & E0 & -> & -> & ->);
    injection E0 as <-; injection E8 as <- <-.
  - eexists _, _. split; [reflexivity|]. simpl.
    split; [rewrite <- list_fmap_compose; reflexivity|].
    split; [reflexivity|]. split; [reflexivity|].
    split; [apply (freeze_all_frozen (Bare _))|].
    split; [apply Forall_map, Forall_true; intros [n p]; reflexivity|].
    split; [reflexivity|]. apply (f_equal ParamsList).
    unfold resnet_named_parameters. cbn [body fc].
    rewrite prefixed_app, !filter_app, body_frozen_filter. reflexivity.
  - assert (Hex : exhausted s9 = false).
    { destruct restore_path as [p|]; [destruct (String.eqb p "")|].
      - injection E9 as <-. reflexivity.
      - apply load_Ok in E9 as (sd & _ & _ & ->). reflexivity.
      - injection E9 as <-. reflexivity. }
    eexists _, _. split; [reflexivity|]. simpl.
    unfold params_of. simpl. rewrite Hex. auto 10.
Qed.

(** ** Checkpoint persistence *)

Lemma save_Ok `{Framework} path s u s1 :
  save path s = (Ok u, s1) ->
  exists fs, torch_save (weights s) path (files s) = Ok fs /\ s1 = set_files fs s.
Proof.
  unfold save. intros Hrun.
  apply bind_Ok in Hrun as (s0 & s0' & E0 & Hrun). injection E0 as <- <-.
  apply bind_Ok in Hrun as (fs & s2 & E2 & Hrun).
  apply lift_Ok in E2 as [E2 ->].
  injection Hrun as _ <-. eauto.
Qed.

(** C5: [load(path)] after [save(path)] restores the state dict that was
    saved.  The object that loads may be the one that saved, at any later
    time, or another one constructed in the same way: its state dict has the
    keys and the shapes of the saved one, and it sees the file that was
    written.  [save] leaves the model as it is.  The file is read back as it
    was written: that is torch's part. *)
Theorem save_load_round_trip `{Framework} path s s1 s2 :
  serialization_round_trips ->
  save path s = (Ok tt, s1) ->
  files s2 = files s1 ->
  shape <$> weights s2 = shape <$> weights s ->
  weights s1 = weights s /\
  load path s2 = (Ok tt, set_weights (weights s) s2) /\
  weights (load path s2).2 = weights s.
Proof.
  intros Hrt Hsave Hfiles Hshape.
  apply save_Ok in Hsave as (fs & Hfs & ->).
  assert (Hload : load path s2 = (Ok tt, set_weights (weights s) s2)).
  { unfold load. mrun.
    rewrite Hfiles. simpl. rewrite (Hrt _ _ _ _ Hfs). mrun.
    apply load_state_dict_same. symmetry. exact Hshape. }
  rewrite Hload. auto.
Qed.

(** ** Relations that every step of a run keeps *)
Section Keeps.
Context `{Framework} (R : State -> State -> Prop).
Hypothesis R_refl : forall s, R s s.
Hypothesis R_trans : forall s1 s2 s3, R s1 s2 -> R s2 s3 -> R s1 s3.

Lemma keeps_ret {A} (a : A) : keeps R (ret a).
Proof. intros s. apply R_refl. Qed.

Lemma keeps_raise {A} e : keeps R (raise (A:=A) e).
Proof. intros s. apply R_refl. Qed.

Lemma keeps_get : keeps R get.
Proof. intros s. apply R_refl. Qed.

Lemma keeps_lift {A} (r : result A) : keeps R (lift r).
Proof. destruct r; [apply keeps_ret | apply keeps_raise]. Qed.

Lemma keeps_bind {A B} (m : M State A) (k : A -> M State B) :
  keeps R m -> (forall a, keeps R (k a)) -> keeps R (bind m k).
Proof.
  intros Hm Hk s. rewrite bind_unfold.
  specialize (Hm s). destruct (m s) as [[a|e] s1]; simpl in *.
  - eapply R_trans; [exact Hm | apply Hk].
  - exact Hm.
Qed.

Lemma keeps_for_batches {A} (body : A -> Batch -> M State A) bs :
  (forall a b, keeps R (body a b)) -> forall a, keeps R (for_batches body bs a).
Proof.
  intros Hbody. induction bs as [|b bs IH]; intros a; simpl.
  - apply keeps_ret.
  - apply keeps_bind; auto.
Qed.

Lemma keeps_for_locals {A} (body : A -> Locals -> M State Locals) xs :
  (forall x l, keeps R (body x l)) -> forall l, keeps R (for_locals body xs l).
Proof.
  intros Hbody. induction xs as [|x xs IH]; intros l; simpl.
  - apply keeps_ret.
  - apply keeps_bind; auto.
Qed.
End Keeps.

Section Extends.
Context `{Framework} (Q : list event -> Prop).
Hypothesis Q_nil : Q [].
Hypothesis Q_app : forall t1 t2, Q t1 -> Q t2 -> Q (t1 ++ t2)%list.

Lemma extends_refl s : extends Q s s.
Proof. exists []. rewrite app_nil_r. auto. Qed.

Lemma extends_trans s1 s2 s3 :
  extends Q s1 s2 -> extends Q s2 s3 -> extends Q s1 s3.
Proof.
  intros (t1 & E1 & Q1) (t2 & E2 & Q2). exists (t1 ++ t2)%list.
  rewrite E2, E1, app_assoc. auto.
Qed.

Lemma extends_same_trace s s' : trace s' = trace s -> extends Q s s'.
Proof. intros E. exists []. rewrite app_nil_r. auto. Qed.

Lemma extends_log e : Q [e] -> keeps (extends Q) (log e).
Proof. intros Qe s. exists [e]. auto. Qed.
End Extends.

(** ** Inference *)

Lemma infer_batches_spec `{Framework} bs : forall rc s,
  training s = false ->
  for_batches infer_batch bs rc s
  = (Ok (match bs with
         | [] => rc
         | _ => CTensor (count_value rc + total_correct (weights s) bs)
         end),
     set_trace (trace s ++ replicate (length bs) (EvForward false false))%list s).
Proof.
  induction bs as [|b bs IH]; intros rc s Hs.
  - simpl. unfold ret. destruct s; simpl in *. rewrite app_nil_r. reflexivity.
  - simpl. unfold infer_batch at 1, forward, log. mrun. rewrite Hs. mrun.
    rewrite IH by exact Hs.
    destruct s; simpl in *. subst. rewrite <- app_assoc. simpl.
    unfold add_tensor. simpl. f_equal.
    destruct bs; simpl; f_equal; f_equal; lia.
Qed.

(** What [infer] does, in one equation: it fails when the loader yields no
    batch, since [running_corrects] is then still the [int] it was
    initialised to, and otherwise returns the number of correct predictions
    divided by [len(dataloader.dataset)]. *)
Lemma infer_spec `{Framework} (dl : DataLoader) s :
  infer dl s
  = (match batches dl with
     | [] => Raise (AttributeError "'int' object has no attribute 'double'")
     | _ => Ok (PrimFloat.div (float_of_int (total_correct (weights s) (batches dl)))
                  (float_of_int (len_dataset dl)))
     end,
     after_infer dl s).
Proof.
  unfold infer. rewrite bind_unfold. unfold modify at 1.
  rewrite bind_unfold, infer_batches_spec by reflexivity.
  unfold after_infer.
  destruct (batches dl); reflexivity.
Qed.

(** When the loader yields a batch, [infer] returns the accuracy: the number
    of samples whose predicted class is their label, over all the batches,
    divided by the size of the dataset. *)
Lemma infer_accuracy `{Framework} (dl : DataLoader) s :
  batches dl <> [] ->
  infer dl s
  = (Ok (PrimFloat.div (float_of_int (total_correct (weights s) (batches dl)))
           (float_of_int (len_dataset dl))),
     after_infer dl s).
Proof. intros Hne. rewrite infer_spec. destruct (batches dl); congruence. Qed.

(** C7, where the code departs from it: on a loader that yields no batch,
    whatever the size of its dataset, [infer] does not return [0 / size]; it
    raises [AttributeError], [running_corrects] being still the [int] [0],
    which has no [double()].  [DataLoader(dataset, batch_size=2,
    drop_last=True)] on a dataset of one sample is such a loader. *)
Theorem infer_without_batches_raises `{Framework} (size : Uint63.int) s :
  (infer {| batches := []; dataset_len := size |} s).1
  = Raise (AttributeError "'int' object has no attribute 'double'").
Proof. rewrite infer_spec. reflexivity. Qed.

Lemma Forall_inference_only_replicate `{Framework} n :
  Forall inference_only (replicate n (EvForward false false)).
Proof. apply Forall_replicate. simpl. auto. Qed.

Lemma infer_quiet `{Framework} (dl : DataLoader) s : quiet s (infer dl s).2.
Proof.
  rewrite infer_spec. simpl. split; [reflexivity|].
  eexists. split; [reflexivity|]. apply Forall_inference_only_replicate.
Qed.

(** ** Passes that do not train *)
Section Evaluation.
Context `{Framework}.

Lemma quiet_refl s : quiet s s.
Proof. split; [reflexivity|]. apply extends_refl. constructor. Qed.

Lemma quiet_trans s1 s2 s3 : quiet s1 s2 -> quiet s2 s3 -> quiet s1 s3.
Proof.
  intros [W1 E1] [W2 E2]. split; [congruence|].
  eapply extends_trans; eauto. intros. apply Forall_app. auto.
Qed.

Lemma eval_frame_refl s : eval_frame s s.
Proof. intros Hs. split; [exact Hs | apply quiet_refl]. Qed.

Lemma eval_frame_trans s1 s2 s3 :
  eval_frame s1 s2 -> eval_frame s2 s3 -> eval_frame s1 s3.
Proof.
  intros H12 H23 Hs. destruct (H12 Hs) as [Hs2 Q12].
  destruct (H23 Hs2) as [Hs3 Q23]. split; [exact Hs3|].
  eapply quiet_trans; eauto.
Qed.

(** A step that touches neither the model nor the trace. *)
Lemma eval_frame_modify (f : State -> State) :
  (forall s, weights (f s) = weights s /\ training (f s) = training s
             /\ trace (f s) = trace s) ->
  keeps eval_frame (modify f).
Proof.
  intros Hf s Hs. destruct (Hf s) as (W & T & Tr). simpl.
  split; [congruence|]. split; [exact W|].
  apply extends_same_trace; [constructor | exact Tr].
Qed.

Lemma eval_frame_log e : inference_only e -> keeps eval_frame (log e).
Proof.
  intros He s Hs. simpl. split; [exact Hs|]. split; [reflexivity|].
  exists [e]. split; [reflexivity|]. constructor; [exact He | constructor].
Qed.

Local Abbreviation ebind := (keeps_bind eval_frame eval_frame_trans).
Local Abbreviation eret := (keeps_ret eval_frame eval_frame_refl).

Lemma eval_frame_time : keeps eval_frame time.
Proof.
  unfold time. apply ebind; [apply keeps_get, eval_frame_refl|].
  intros s0. apply ebind; [|intros _; apply eret].
  apply eval_frame_modify. intros s. auto.
Qed.

Lemma eval_frame_forward x : keeps eval_frame (forward false x).
Proof.
  intros s Hs. unfold forward. mrun. unfold log. mrun. rewrite Hs. simpl.
  split; [exact Hs|]. split; [reflexivity|].
  exists [EvForward false false]. split; [reflexivity|].
  repeat constructor.
Qed.

Lemma eval_frame_train_batch phase acc b :
  phase <> "train" -> keeps eval_frame (train_batch phase acc b).
Proof.
  intros Hphase. unfold train_batch. destruct acc as [[opt rl] rc].
  apply ebind; [apply eval_frame_modify; intros s; auto|].
  intros _. apply ebind; [apply eval_frame_log; exact I|].
  intros _. apply ebind.
  { rewrite bool_decide_eq_false_2 by exact Hphase. apply eval_frame_forward. }
  intros outputs. apply ebind; [|intros o; apply eret].
  rewrite decide_False by exact Hphase. apply eret.
Qed.

(** The part of [run_phase] that comes after the mode has been set. *)
Lemma eval_frame_double c : keeps eval_frame (double c).
Proof. destruct c; [apply keeps_raise | apply keeps_ret]; apply eval_frame_refl. Qed.

Lemma eval_frame_loader_of dataloaders phase :
  keeps eval_frame (loader_of dataloaders phase).
Proof.
  unfold loader_of. destruct (dict_get dataloaders phase) as [[dl|]|];
    [apply keeps_ret | apply keeps_raise | apply keeps_raise];
    apply eval_frame_refl.
Qed.

Lemma eval_frame_float_div_int x n : keeps eval_frame (float_div_int x n).
Proof.
  unfold float_div_int. destruct (Z.eqb n 0);
    [apply keeps_raise | apply keeps_ret]; apply eval_frame_refl.
Qed.

Lemma run_phase_quiet dataloaders phase l s :
  phase <> "train" -> quiet s (run_phase dataloaders phase l s).2.
Proof.
  intros Hphase. unfold run_phase.
  rewrite (bind_step _ _ _ _ _ (time_run s)).
  rewrite (bind_step _ _ _ _ _ (modify_run _ _)).
  rewrite bool_decide_eq_false_2 by exact Hphase.
  set (s1 := set_training false (set_ticks (S (ticks s)) s)).
  assert (Hs1 : quiet s s1).
  { split; [reflexivity|]. apply extends_same_trace; [constructor | reflexivity]. }
  eapply quiet_trans; [exact Hs1|].
  match goal with |- quiet s1 (?m s1).2 => cut (keeps eval_frame m) end.
  { intros Hk. apply (Hk s1). reflexivity. }
  apply ebind; [apply eval_frame_loader_of|]. intros dl.
  apply ebind.
  { apply (keeps_for_batches eval_frame eval_frame_refl eval_frame_trans).
    intros. apply eval_frame_train_batch. exact Hphase. }
  intros r. apply ebind; [apply eval_frame_float_div_int|]. intros epoch_loss.
  apply ebind; [apply eval_frame_double|]. intros d.
  apply ebind; [rewrite decide_False by exact Hphase; apply eret|]. intros l'.
  apply ebind; [apply eval_frame_time|]. intros end_time.
  apply ebind; [apply keeps_get, eval_frame_refl|]. intros s2.
  apply ebind; [apply eval_frame_log; exact I|]. intros _.
  apply eret.
Qed.
End Evaluation.

(** C8: [infer] and every phase of [train_model] other than ['train'] leave
    the state dict of the model as it is, and ask the framework for nothing
    but forward passes in evaluation mode with gradient tracking disabled
    (and for clearing the gradients): [loss.backward()] and
    [optimizer.step()], which change parameters, are run in the ['train']
    phase only.  This holds whether the pass returns or raises. *)
Theorem parameters_change_only_in_train `{Framework}
    (dataloaders : dict string (option DataLoader)) (phase : string)
    (l : Locals) (dataloader : DataLoader) (s : State) :
  phase <> "train" ->
  quiet s (infer dataloader s).2 /\
  quiet s (run_phase dataloaders phase l s).2.
Proof.
  intros Hphase. split.
  - apply infer_quiet.
  - apply run_phase_quiet. exact Hphase.
Qed.

(** ** One phase of one epoch *)
Section Phase.
Context `{Framework}.

Lemma batch_frame_refl s : batch_frame s s.
Proof. split; [reflexivity|]. apply extends_refl. constructor. Qed.

Lemma batch_frame_trans s1 s2 s3 :
  batch_frame s1 s2 -> batch_frame s2 s3 -> batch_frame s1 s3.
Proof.
  intros [T1 E1] [T2 E2]. split; [congruence|].
  eapply extends_trans; eauto. intros. apply Forall_app. auto.
Qed.

Local Abbreviation bbind := (keeps_bind batch_frame batch_frame_trans).
Local Abbreviation bret := (keeps_ret batch_frame batch_frame_refl).

Lemma batch_frame_modify (f : State -> State) :
  (forall s, ticks (f s) = ticks s /\ trace (f s) = trace s) ->
  keeps batch_frame (modify f).
Proof.
  intros Hf s. destruct (Hf s) as [T Tr]. simpl. split; [exact T|].
  apply extends_same_trace; [constructor | exact Tr].
Qed.

Lemma batch_frame_log e : batch_event e -> keeps batch_frame (log e).
Proof.
  intros He s. simpl. split; [reflexivity|].
  exists [e]. split; [reflexivity|]. constructor; [exact He | constructor].
Qed.

Lemma batch_frame_forward g x : keeps batch_frame (forward g x).
Proof.
  unfold forward. apply bbind; [apply keeps_get, batch_frame_refl|].
  intros s0. apply bbind; [apply batch_frame_log; exact I|].
  intros _. apply bbind; [|intros _; apply bret].
  destruct (training s0); [|apply bret].
  apply batch_frame_modify. intros s. auto.
Qed.

Lemma batch_frame_train_batch phase acc b :
  keeps batch_frame (train_batch phase acc b).
Proof.
  unfold train_batch. destruct acc as [[opt rl] rc].
  apply bbind; [apply batch_frame_modify; intros s; auto|].
  intros _. apply bbind; [apply batch_frame_log; exact I|].
  intros _. apply bbind; [apply batch_frame_forward|].
  intros outputs. apply bbind; [|intros o; apply bret].
  case_decide; [|apply bret].
  apply bbind; [apply keeps_get, batch_frame_refl|]. intros s1.
  apply bbind; [apply batch_frame_modify; intros s; auto|]. intros _.
  apply bbind; [apply batch_frame_log; exact I|]. intros _.
  apply bbind; [apply keeps_get, batch_frame_refl|]. intros s2.
  destruct (sgd_step opt (grads s2) (weights s2)) as [o w].
  apply bbind; [apply batch_frame_modify; intros s; auto|]. intros _.
  apply bbind; [apply batch_frame_log; exact I|]. intros _.
  apply bret.
Qed.

Lemma batch_frame_batches phase bs acc :
  keeps batch_frame (for_batches (train_batch phase) bs acc).
Proof.
  apply (keeps_for_batches batch_frame batch_frame_refl batch_frame_trans).
  intros. apply batch_frame_train_batch.
Qed.

Lemma loader_of_Ok dataloaders phase s (dl : DataLoader) s' :
  loader_of dataloaders phase s = (Ok dl, s') ->
  dict_get dataloaders phase = Some (Some dl) /\ s' = s.
Proof.
  unfold loader_of. destruct (dict_get dataloaders phase) as [[d|]|];
    intros [= <- <-]; auto.
Qed.

Lemma float_div_int_Ok x n s y s' :
  float_div_int x n s = (Ok y, s') ->
  n <> 0 /\ y = PrimFloat.div x (float_of_int n) /\ s' = s.
Proof.
  unfold float_div_int. destruct (Z.eqb_spec n 0); intros [= <- <-]; auto.
Qed.

Lemma double_Ok c s d s' :
  double c s = (Ok d, s') -> d = float_of_int (count_value c) /\ s' = s.
Proof. destruct c; intros [= <- <-]; auto. Qed.

(** A phase that completes: it reads the clock twice, runs its batches,
    steps the scheduler if it is the training phase, reports its loss and
    accuracy, and updates the checkpoint and the metrics.  The dataset is
    not empty, so that the accuracy is a number. *)
Lemma run_phase_Ok dataloaders phase l s l' s' :
  run_phase dataloaders phase l s = (Ok l', s') ->
  exists (dl : DataLoader) l1 epoch_loss epoch_acc tr,
    dict_get dataloaders phase = Some (Some dl) /\
    len_dataset dl <> 0 /\
    PrimFloat.is_nan epoch_acc = false /\
    ticks s' = S (S (ticks s)) /\
    Forall batch_event tr /\
    trace s' = (trace s ++ tr ++ scheduler_events phase epoch_loss
                ++ [EvPhaseDone phase epoch_loss epoch_acc (weights s')])%list /\
    same_records l l1 /\
    l' = record_metrics phase
           (PrimFloat.sub (time_time (S (ticks s))) (time_time (ticks s)))
           epoch_loss epoch_acc (len_dataset dl)
           (keep_best phase epoch_acc (weights s') l1).
Proof.
  unfold run_phase. intros Hrun.
  rewrite (bind_step _ _ _ _ _ (time_run s)) in Hrun.
  rewrite (bind_step _ _ _ _ _ (modify_run _ _)) in Hrun.
  apply bind_Ok in Hrun as (dl & s1 & E1 & Hrun).
  apply loader_of_Ok in E1 as [Hdl ->].
  apply bind_Ok in Hrun as (r & s2 & E2 & Hrun).
  match type of E2 with
  | _ ?s0 = _ =>
      pose proof (batch_frame_batches phase (batches dl)
                    (optimizer l, PrimFloat.zero, CInt 0) s0)
        as [T2 (tr & Tr2 & Htr)]
  end.
  rewrite E2 in T2, Tr2. simpl in T2, Tr2.
  apply bind_Ok in Hrun as (epoch_loss & s3 & E3 & Hrun).
  apply float_div_int_Ok in E3 as (Hlen & -> & ->).
  apply bind_Ok in Hrun as (d & s4 & E4 & Hrun).
  apply double_Ok in E4 as [-> ->].
  exists dl.
  unfold scheduler_events.
  destruct (decide (phase = "train")) as [Hp|Hp].
  - unfold scheduler_step in Hrun.
    rewrite bind_unfold in Hrun.
    rewrite (bind_step _ _ _ _ _ (log_run _ _)) in Hrun.
    destruct (plateau_step _ _ _) as [sc o].
    unfold ret at 1 in Hrun.
    rewrite (bind_step _ _ _ _ _ (time_run _)) in Hrun.
    mrun in Hrun. unfold log in Hrun. mrun in Hrun.
    injection Hrun as <- <-.
    exists (set_scheduler sc (set_optimizer o (set_optimizer r.1.1 l))).
    eexists _, _, tr. simpl.
    split; [exact Hdl|].
    split; [exact Hlen|].
    split; [apply count_div_len_number; exact Hlen|].
    split; [rewrite T2; reflexivity|].
    split; [exact Htr|].
    split; [rewrite Tr2, <- !app_assoc; reflexivity|].
    split; [repeat split|]. rewrite T2. reflexivity.
  - unfold ret at 1 in Hrun. rewrite bind_unfold in Hrun.
    rewrite (bind_step _ _ _ _ _ (time_run _)) in Hrun.
    mrun in Hrun. unfold log in Hrun. mrun in Hrun.
    injection Hrun as <- <-.
    exists (set_optimizer r.1.1 l).
    eexists _, _, tr. simpl.
    split; [exact Hdl|].
    split; [exact Hlen|].
    split; [apply count_div_len_number; exact Hlen|].
    split; [rewrite T2; reflexivity|].
    split; [exact Htr|].
    split; [rewrite Tr2, <- !app_assoc; reflexivity|].
    split; [repeat split|]. rewrite T2. reflexivity.
Qed.
End Phase.

(** ** Reading a trace *)
Section Traces.
Context `{Framework}.

Lemma scheduler_metrics_app t1 t2 :
  scheduler_metrics (t1 ++ t2) = (scheduler_metrics t1 ++ scheduler_metrics t2)%list.
Proof. apply omap_app. Qed.

Lemma epochs_of_app t1 t2 : epochs_of (t1 ++ t2) = (epochs_of t1 ++ epochs_of t2)%list.
Proof. apply omap_app. Qed.

Lemma phase_reports_app p t1 t2 :
  phase_reports p (t1 ++ t2) = (phase_reports p t1 ++ phase_reports p t2)%list.
Proof. apply omap_app. Qed.

Lemma epoch_losses_app p t1 t2 :
  epoch_losses p (t1 ++ t2) = (epoch_losses p t1 ++ epoch_losses p t2)%list.
Proof. unfold epoch_losses. rewrite phase_reports_app, !fmap_app. reflexivity. Qed.

Lemma epoch_accs_app p t1 t2 :
  epoch_accs p (t1 ++ t2) = (epoch_accs p t1 ++ epoch_accs p t2)%list.
Proof. unfold epoch_accs. rewrite phase_reports_app, !fmap_app. reflexivity. Qed.

Lemma checkpoints_app t1 t2 :
  checkpoints (t1 ++ t2) = (checkpoints t1 ++ checkpoints t2)%list.
Proof. unfold checkpoints. rewrite phase_reports_app, map_app. reflexivity. Qed.

Lemma checkpoints_accs tr : (checkpoints tr).*1 = epoch_accs "val" tr.
Proof.
  unfold checkpoints, epoch_accs.
  rewrite <- !list_fmap_compose. reflexivity.
Qed.

(** The events of the batches are none of those the observations pick. *)
Lemma batch_events_silent tr :
  Forall batch_event tr ->
  scheduler_metrics tr = [] /\ epochs_of tr = [] /\
  forall p, phase_reports p tr = [].
Proof.
  induction 1 as [|e tr He _ IH]; [auto|].
  destruct IH as (IH1 & IH2 & IH3).
  destruct e; simpl in He; try contradiction; simpl; auto.
Qed.

Lemma scheduler_events_metrics p loss :
  scheduler_metrics (scheduler_events p loss)
  = if decide (p = "train") then [loss] else [].
Proof. unfold scheduler_events. case_decide; reflexivity. Qed.

Lemma scheduler_events_silent p loss :
  epochs_of (scheduler_events p loss) = [] /\
  forall q, phase_reports q (scheduler_events p loss) = [].
Proof. unfold scheduler_events. case_decide; auto. Qed.

Lemma phase_reports_done q p loss acc w :
  phase_reports q [EvPhaseDone p loss acc w]
  = if decide (p = q) then [(loss, acc, w)] else [].
Proof. simpl. case_decide; reflexivity. Qed.

(** What a completed phase adds to each observation. *)
Lemma phase_trace_reports q p tr loss acc w :
  Forall batch_event tr ->
  phase_reports q (tr ++ scheduler_events p loss ++ [EvPhaseDone p loss acc w])
  = if decide (p = q) then [(loss, acc, w)] else [].
Proof.
  intros Htr. apply batch_events_silent in Htr as (_ & _ & Hr).
  rewrite !phase_reports_app, Hr, (proj2 (scheduler_events_silent p loss)).
  apply phase_reports_done.
Qed.

Lemma phase_trace_metrics p tr loss acc w :
  Forall batch_event tr ->
  scheduler_metrics (tr ++ scheduler_events p loss ++ [EvPhaseDone p loss acc w])
  = if decide (p = "train") then [loss] else [].
Proof.
  intros Htr. apply batch_events_silent in Htr as (Hm & _ & _).
  rewrite !scheduler_metrics_app, Hm, scheduler_events_metrics. simpl.
  apply app_nil_r.
Qed.

Lemma phase_trace_epochs p tr loss acc w :
  Forall batch_event tr ->
  epochs_of (tr ++ scheduler_events p loss ++ [EvPhaseDone p loss acc w]) = [].
Proof.
  intros Htr. apply batch_events_silent in Htr as (_ & He & _).
  rewrite !epochs_of_app, He, (proj1 (scheduler_events_silent p loss)).
  reflexivity.
Qed.
End Traces.

(** ** Testing the tasks of a subprofile epoch *)
Section Subprofile.
Context `{Framework}.

Lemma infer_frame_refl s : infer_frame s s.
Proof. split; [apply batch_frame_refl | reflexivity]. Qed.

Lemma infer_frame_trans s1 s2 s3 :
  infer_frame s1 s2 -> infer_frame s2 s3 -> infer_frame s1 s3.
Proof.
  intros [B1 W1] [B2 W2]. split; [|congruence].
  eapply batch_frame_trans; eauto.
Qed.

Lemma infer_keeps_frame (dl : DataLoader) : keeps infer_frame (infer dl).
Proof.
  intros s. rewrite infer_spec. simpl. split; [|reflexivity].
  split; [reflexivity|]. eexists. split; [reflexivity|].
  apply Forall_replicate. exact I.
Qed.

Lemma for_tasks_keeps_frame tasks : forall d, keeps infer_frame (for_tasks tasks d).
Proof.
  induction tasks as [|t ts IH]; intros d; simpl.
  - apply keeps_ret, infer_frame_refl.
  - apply (keeps_bind infer_frame infer_frame_trans); [|apply IH].
    unfold infer_task.
    apply (keeps_bind infer_frame infer_frame_trans);
      [apply infer_keeps_frame|].
    intros acc. apply keeps_ret, infer_frame_refl.
Qed.

Lemma test_subprofile_keeps_frame spe epoch l :
  keeps infer_frame (test_subprofile spe epoch l).
Proof.
  unfold test_subprofile.
  apply (keeps_bind infer_frame infer_frame_trans).
  { destruct (dict_get spe epoch);
      [apply keeps_ret | apply keeps_raise]; apply infer_frame_refl. }
  intros tasks. apply (keeps_bind infer_frame infer_frame_trans);
    [apply for_tasks_keeps_frame|].
  intros d. apply keeps_ret, infer_frame_refl.
Qed.

Lemma test_subprofile_Ok spe epoch l s l' s' :
  test_subprofile spe epoch l s = (Ok l', s') ->
  infer_frame s s' /\
  exists results, l' = set_subprofile_test_results results l.
Proof.
  intros Hrun. split.
  - pose proof (test_subprofile_keeps_frame spe epoch l s) as Hk.
    rewrite Hrun in Hk. exact Hk.
  - unfold test_subprofile in Hrun.
    apply bind_Ok in Hrun as (tasks & s1 & _ & Hrun).
    apply bind_Ok in Hrun as (d & s2 & _ & Hrun).
    injection Hrun as <- _. eauto.
Qed.
End Subprofile.

(** ** Loops that complete *)

Lemma for_locals_Ok_inv `{Framework} {A} (body : A -> Locals -> M State Locals)
    (Inv : list A -> Locals -> State -> Prop) (xs0 : list A) :
  (forall pre x suf l s l' s',
     xs0 = (pre ++ x :: suf)%list -> Inv pre l s -> body x l s = (Ok l', s') ->
     Inv (pre ++ [x])%list l' s') ->
  forall xs pre l s l' s',
    xs0 = (pre ++ xs)%list -> Inv pre l s ->
    for_locals body xs l s = (Ok l', s') -> Inv xs0 l' s'.
Proof.
  intros Hstep. induction xs as [|x xs IH]; intros pre l s l' s' Hxs HI Hrun.
  - simpl in Hrun. injection Hrun as <- <-. rewrite app_nil_r in Hxs. congruence.
  - simpl in Hrun. apply bind_Ok in Hrun as (l1 & s1 & E1 & Hrun).
    apply (IH (pre ++ [x])%list l1 s1).
    + rewrite <- app_assoc. exact Hxs.
    + eapply Hstep; eauto.
    + exact Hrun.
Qed.

(** With an invariant that does not look at the elements. *)
Lemma for_locals_Ok `{Framework} {A} (body : A -> Locals -> M State Locals)
    (Inv : Locals -> State -> Prop) (xs : list A) :
  (forall x l s l' s', Inv l s -> body x l s = (Ok l', s') -> Inv l' s') ->
  forall l s l' s',
    Inv l s -> for_locals body xs l s = (Ok l', s') -> Inv l' s'.
Proof.
  intros Hstep l s l' s' HI Hrun.
  apply (for_locals_Ok_inv body (fun _ => Inv) xs) with (xs := xs) (pre := [])
                                                        (l := l) (s := s); eauto.
Qed.

(** ** Best-checkpoint retention *)
Section Retention.
Context `{Framework}.

Lemma first_to_reach_app b k xs ys :
  first_to_reach b k xs -> first_to_reach b k (xs ++ ys).
Proof.
  intros [Hk Hbefore]. pose proof (lookup_lt_Some _ _ _ Hk) as Hlt. split.
  - rewrite lookup_app_l by exact Hlt. exact Hk.
  - intros j a Hj Ha. rewrite lookup_app_l in Ha by lia. eauto.
Qed.

Lemma first_to_reach_new best a xs :
  none_exceeds best xs -> fgt a best = true ->
  first_to_reach a (length xs) (xs ++ [a]).
Proof.
  intros Hmax Ha. split.
  - rewrite lookup_app_r by lia. rewrite Nat.sub_diag. reflexivity.
  - intros j x Hj Hx. rewrite lookup_app_l in Hx by exact Hj.
    eapply fle_fgt; [|exact Ha].
    unfold none_exceeds in Hmax. rewrite Forall_forall in Hmax.
    apply Hmax. eapply list_elem_of_lookup_2. exact Hx.
Qed.

Lemma strictly_increasing_snoc hist best a :
  strictly_increasing hist ->
  (hist = [] \/ last hist = Some best) ->
  fgt a best = true ->
  strictly_increasing (hist ++ [a]).
Proof.
  intros Hinc Hlast Ha i j x y Hij Hx Hy.
  pose proof (lookup_lt_Some _ _ _ Hy) as Hj.
  rewrite length_app in Hj. simpl in Hj.
  destruct (decide (j < length hist)%nat) as [Hjl|Hjl].
  - rewrite lookup_app_l in Hx by lia. rewrite lookup_app_l in Hy by lia. eauto.
  - assert (j = length hist) as -> by lia.
    rewrite lookup_app_r in Hy by lia. rewrite Nat.sub_diag in Hy.
    injection Hy as <-.
    rewrite lookup_app_l in Hx by lia.
    destruct Hlast as [->|Hlast]; [rewrite lookup_nil in Hx; discriminate|].
    rewrite last_lookup in Hlast.
    destruct (decide (i = pred (length hist))) as [->|Hi].
    + rewrite Hlast in Hx. injection Hx as <-. exact Ha.
    + eapply fgt_trans; [exact Ha|].
      apply (Hinc i (pred (length hist)) x best); [lia | exact Hx | exact Hlast].
Qed.

(** A validation accuracy, a number, that does not exceed the best one:
    nothing is kept. *)
Lemma retained_skip w0 hist best wts cps a w :
  retained w0 hist best wts cps ->
  PrimFloat.is_nan a = false -> fgt a best = false ->
  retained w0 hist best wts (cps ++ [(a, w)]).
Proof.
  intros (R1 & R2 & R3 & R4 & R5) Hnum Ha. unfold retained.
  rewrite !fmap_app. simpl.
  assert (Hbest : PrimFloat.is_nan best = false).
  { destruct R2 as [(-> & _ & _)|(Hpos & _)]; [reflexivity|].
    eapply fgt_number. exact Hpos. }
  repeat split.
  - apply Forall_app. split; [exact R1|]. repeat constructor.
    apply fgt_false_fle; assumption.
  - destruct R2 as [R2|(Hpos & Hlast & k & Hk & Hw)]; [left; exact R2|].
    right. split; [exact Hpos|]. split; [exact Hlast|]. exists k. split.
    + apply first_to_reach_app. exact Hk.
    + rewrite lookup_app_l; [exact Hw|]. eapply lookup_lt_Some. exact Hw.
  - exact R3.
  - apply sublist_inserts_r. exact R4.
  - eapply Forall_impl; [exact R5|]. intros h [Hh [k Hk]].
    split; [exact Hh|]. exists k. apply first_to_reach_app. exact Hk.
Qed.

(** A validation accuracy that exceeds the best one: it becomes the best
    one, it is appended to the history, and the state dict is kept. *)
Lemma retained_keep w0 hist best wts cps a w :
  retained w0 hist best wts cps -> fgt a best = true ->
  retained w0 (hist ++ [a]) a w (cps ++ [(a, w)]).
Proof.
  intros (R1 & R2 & R3 & R4 & R5) Ha. unfold retained.
  rewrite !fmap_app. simpl.
  assert (Hpos : fgt a PrimFloat.zero = true).
  { destruct R2 as [(-> & _ & _)|(Hpos & _)]; [exact Ha|].
    eapply fgt_trans; eauto. }
  assert (Hnew : first_to_reach a (length cps.*1) (cps.*1 ++ [a])).
  { eapply first_to_reach_new; eauto. }
  repeat split.
  - apply Forall_app. split.
    + eapply Forall_impl; [exact R1|]. intros x Hx. simpl in Hx.
      exact (fle_fgt_fle x best a Hx Ha).
    + repeat constructor. apply fle_refl. eapply fgt_number. exact Ha.
  - right. split; [exact Hpos|]. split; [apply last_snoc|].
    exists (length cps.*1). split; [exact Hnew|].
    rewrite lookup_app_r by (rewrite !length_fmap; lia).
    rewrite !length_fmap, Nat.sub_diag. reflexivity.
  - eapply strictly_increasing_snoc; [exact R3| |exact Ha].
    destruct R2 as [(_ & -> & _)|(_ & Hlast & _)]; auto.
  - apply sublist_app; [exact R4 | reflexivity].
  - apply Forall_app. split.
    + eapply Forall_impl; [exact R5|]. intros h [Hh [k Hk]].
      split; [exact Hh|]. exists k. apply first_to_reach_app. exact Hk.
    + repeat constructor; [exact Hpos|]. eexists. exact Hnew.
Qed.

Lemma retained_start w0 : retained w0 [] PrimFloat.zero w0 [].
Proof.
  unfold retained. simpl. repeat split.
  - constructor.
  - left. auto.
  - intros i j a b _ Ha. rewrite lookup_nil in Ha. discriminate.
  - constructor.
  - constructor.
Qed.
End Retention.

(** ** Epochs and the whole of [train_model] *)
Section Epochs.
Context `{Framework}.

Lemma keys_of_Ok spe s (d : dict Z (dict Z DataLoader)) s' :
  keys_of spe s = (Ok d, s') -> spe = Some d /\ s' = s.
Proof. destruct spe; intros [= <- <-]; auto. Qed.

(** An epoch that completes: all its phases completed, a row was appended
    to the profile, and the tasks of the epoch, if any, were tested. *)
Lemma run_epoch_Ok dataloaders spe epoch l s l' s' :
  run_epoch dataloaders spe epoch l s = (Ok l', s') ->
  exists d lk sk,
    spe = Some d /\
    for_locals (run_phase dataloaders) (keys dataloaders)
      (set_profile_data [] l)
      (set_trace (trace s ++ [EvEpoch epoch])%list (set_ticks (S (ticks s)) s))
    = (Ok lk, sk) /\
    let lp := set_profile
                (profile lk ++ [profile_row (time_time (ticks s)) (profile_data lk)])%list
                lk in
    if dict_mem d epoch
    then test_subprofile d epoch lp sk = (Ok l', s')
    else l' = lp /\ s' = sk.
Proof.
  unfold run_epoch. intros Hrun.
  rewrite (bind_step _ _ _ _ _ (time_run s)) in Hrun.
  rewrite (bind_step _ _ _ _ _ (log_run _ _)) in Hrun.
  apply bind_Ok in Hrun as (lk & sk & Ek & Hrun).
  apply bind_Ok in Hrun as (d & s1 & E1 & Hrun).
  apply keys_of_Ok in E1 as [-> ->].
  exists d, lk, sk. split; [reflexivity|]. split; [exact Ek|].
  simpl. destruct (dict_mem d epoch); [exact Hrun|].
  injection Hrun as <- <-. auto.
Qed.

(** A call that completes: the loops completed from the initial local
    variables, the clock was read once more and the kept state dict was
    loaded into the model. *)
Lemma optim_SGD_run self lr momentum s :
  optim_SGD self lr momentum s
  = match sgd_init (keys (params_of self s)) lr momentum with
    | Ok opt => (Ok opt, listed self s)
    | Raise e => (Raise e, s)
    end.
Proof.
  unfold optim_SGD. mrun.
  destruct (sgd_init (keys (params_of self s)) lr momentum); reflexivity.
Qed.

Lemma optim_SGD_Ok self lr momentum s opt s' :
  optim_SGD self lr momentum s = (Ok opt, s') ->
  sgd_init (keys (params_of self s)) lr momentum = Ok opt /\ s' = listed self s.
Proof.
  rewrite optim_SGD_run.
  destruct (sgd_init (keys (params_of self s)) lr momentum);
    intros [= <- <-]; auto.
Qed.

Lemma optim_SGD_state self lr momentum s :
  (optim_SGD self lr momentum s).2 = s \/
  (optim_SGD self lr momentum s).2 = listed self s.
Proof.
  rewrite optim_SGD_run.
  destruct (sgd_init (keys (params_of self s)) lr momentum); auto.
Qed.

(** Listing the parameters changes nothing else. *)
Lemma listed_weights self s : weights (listed self s) = weights s.
Proof. unfold listed. destruct (params_to_update self); reflexivity. Qed.

Lemma listed_trace self s : trace (listed self s) = trace s.
Proof. unfold listed. destruct (params_to_update self); reflexivity. Qed.

Lemma listed_ticks self s : ticks (listed self s) = ticks s.
Proof. unfold listed. destruct (params_to_update self); reflexivity. Qed.

Lemma listed_files self s : files (listed self s) = files s.
Proof. unfold listed. destruct (params_to_update self); reflexivity. Qed.

Lemma listed_training self s : training (listed self s) = training s.
Proof. unfold listed. destruct (params_to_update self); reflexivity. Qed.

Lemma optim_SGD_trace self lr momentum s :
  trace (optim_SGD self lr momentum s).2 = trace s.
Proof.
  destruct (optim_SGD_state self lr momentum s) as [-> | ->];
    [reflexivity | apply listed_trace].
Qed.

Lemma optim_SGD_weights self lr momentum s :
  weights (optim_SGD self lr momentum s).2 = weights s.
Proof.
  destruct (optim_SGD_state self lr momentum s) as [-> | ->];
    [reflexivity | apply listed_weights].
Qed.

Lemma optim_SGD_files self lr momentum s :
  files (optim_SGD self lr momentum s).2 = files s.
Proof.
  destruct (optim_SGD_state self lr momentum s) as [-> | ->];
    [reflexivity | apply listed_files].
Qed.

Lemma train_model_Ok self dataloaders spe n lr momentum s res s' :
  train_model self dataloaders spe n lr momentum s = (Ok res, s') ->
  exists opt train l_end s_end,
    let l0 := initial_locals opt (weights s) in
    let s0 := listed self (set_ticks (S (ticks s)) s) in
    sgd_init (keys (params_of self s)) lr momentum = Ok opt /\
    dict_get dataloaders "train" = Some train /\
    match train with
    | None =>
        exists d, spe = Some d /\
          for_locals (test_subprofile d) (keys d) l0 s0 = (Ok l_end, s_end)
    | Some _ =>
        for_locals (run_epoch dataloaders spe) (range n) l0 s0 = (Ok l_end, s_end)
    end /\
    res = (val_acc_history l_end, best_acc l_end, profile l_end,
           subprofile_test_results l_end) /\
    s' = set_weights (best_model_wts l_end) (set_ticks (S (ticks s_end)) s_end).
Proof.
  unfold train_model. intros Hrun.
  rewrite (bind_step _ _ _ _ _ (time_run s)) in Hrun.
  apply bind_Ok in Hrun as (opt & s0 & E0 & Hrun).
  apply optim_SGD_Ok in E0 as [E0 ->].
  change (params_of self (set_ticks (S (ticks s)) s)) with (params_of self s) in E0.
  rewrite bind_unfold in Hrun. unfold get at 1 in Hrun.
  rewrite listed_weights in Hrun.
  change (weights (set_ticks (S (ticks s)) s)) with (weights s) in Hrun.
  apply bind_Ok in Hrun as (train & s1 & E1 & Hrun).
  apply lift_Ok in E1 as [E1 ->].
  unfold subscript in E1.
  destruct (dict_get dataloaders "train") as [t|] eqn:Htrain; [|discriminate].
  injection E1 as ->.
  apply bind_Ok in Hrun as (l1 & s2 & E2 & Hrun).
  apply bind_Ok in Hrun as (l2 & s3 & E3 & Hrun).
  rewrite (bind_step _ _ _ _ _ (time_run s3)) in Hrun.
  apply bind_Ok in Hrun as ([] & s4 & E4 & Hrun).
  injection Hrun as <- <-.
  apply load_state_dict_Ok in E4 as [_ ->].
  exists opt, train. destruct train as [dl|].
  - injection E2 as <- <-. exists l2, s3. simpl. auto.
  - injection E3 as <- <-.
    apply bind_Ok in E2 as (d & s5 & E5 & E2).
    apply keys_of_Ok in E5 as [-> ->].
    exists l1, s2. simpl. split; [exact E0|]. split; [reflexivity|].
    split; [eauto|]. auto.
Qed.

(** *** The checkpoint through the loops *)

Lemma retained_keep_best w0 l cps phase a w :
  retained w0 (val_acc_history l) (best_acc l) (best_model_wts l) cps ->
  PrimFloat.is_nan a = false ->
  let l' := keep_best phase a w l in
  retained w0 (val_acc_history l') (best_acc l') (best_model_wts l')
    (cps ++ if decide (phase = "val") then [(a, w)] else []).
Proof.
  intros Hr Hnum. unfold keep_best.
  destruct (decide (phase = "val")) as [->|Hp].
  - rewrite bool_decide_eq_true_2 by reflexivity. simpl.
    destruct (fgt a (best_acc l)) eqn:Ha; simpl; rewrite ?Ha; simpl.
    + exact (retained_keep _ _ _ _ _ a w Hr Ha).
    + exact (retained_skip _ _ _ _ _ a w Hr Hnum Ha).
  - rewrite bool_decide_eq_false_2 by exact Hp. simpl.
    rewrite app_nil_r. exact Hr.
Qed.

Lemma run_phase_retains s0 dataloaders phase l s l' s' :
  retains s0 l s ->
  run_phase dataloaders phase l s = (Ok l', s') ->
  retains s0 l' s'.
Proof.
  intros (tr0 & Htr0 & Hr) Hrun.
  apply run_phase_Ok in Hrun
    as (dl & l1 & loss & acc & tr & _ & _ & Hnum & _ & Htr & Htrace & Hsame & ->).
  destruct Hsame as (Eh & Ew & Eb & _).
  eexists. split.
  - rewrite Htrace, Htr0, <- app_assoc. reflexivity.
  - rewrite checkpoints_app. unfold checkpoints at 2.
    rewrite phase_trace_reports by exact Htr.
    rewrite <- Eh, <- Ew, <- Eb in Hr.
    pose proof (retained_keep_best _ _ _ phase acc (weights s') Hr Hnum) as Hk.
    simpl in Hk. simpl.
    destruct (decide (phase = "val")); exact Hk.
Qed.

Lemma batch_frame_retains s0 l s s' :
  retains s0 l s -> batch_frame s s' -> retains s0 l s'.
Proof.
  intros (tr0 & Htr0 & Hr) (_ & tr & Htr & Hb).
  exists (tr0 ++ tr)%list. split.
  - rewrite Htr, Htr0, <- app_assoc. reflexivity.
  - rewrite checkpoints_app. unfold checkpoints at 2.
    apply batch_events_silent in Hb as (_ & _ & ->).
    simpl. rewrite app_nil_r. exact Hr.
Qed.

Lemma test_subprofile_retains s0 d epoch l s l' s' :
  retains s0 l s ->
  test_subprofile d epoch l s = (Ok l', s') ->
  retains s0 l' s'.
Proof.
  intros Hr Hrun.
  apply test_subprofile_Ok in Hrun as ([Hb _] & results & ->).
  eapply batch_frame_retains in Hr; [|exact Hb]. exact Hr.
Qed.

Lemma run_epoch_retains s0 dataloaders spe epoch l s l' s' :
  retains s0 l s ->
  run_epoch dataloaders spe epoch l s = (Ok l', s') ->
  retains s0 l' s'.
Proof.
  intros Hr Hrun.
  apply run_epoch_Ok in Hrun as (d & lk & sk & -> & Hphases & Hrest).
  assert (Hk : retains s0 lk sk).
  { eapply (for_locals_Ok (run_phase dataloaders) (retains s0)); [| |exact Hphases].
    - intros. eapply run_phase_retains; eauto.
    - destruct Hr as (tr0 & Htr0 & Hr).
      exists (tr0 ++ [EvEpoch epoch])%list. split.
      + simpl. rewrite Htr0, <- app_assoc. reflexivity.
      + rewrite checkpoints_app. simpl. rewrite app_nil_r. exact Hr. }
  simpl in Hrest. destruct (dict_mem d epoch).
  - eapply test_subprofile_retains; [|exact Hrest]. exact Hk.
  - destruct Hrest as [-> ->]. exact Hk.
Qed.

(** When [train_model] returns, the best checkpoint has been retained and
    is the state dict of the model. *)
Lemma train_model_retains self dataloaders spe n lr momentum s
    history best prof sub s' :
  train_model self dataloaders spe n lr momentum s
  = (Ok (history, best, prof, sub), s') ->
  exists tr,
    trace s' = (trace s ++ tr)%list /\
    retained (weights s) history best (weights s') (checkpoints tr).
Proof.
  intros Hrun.
  apply train_model_Ok in Hrun
    as (opt & train & l_end & s_end & _ & _ & Hloops & Hres & ->).
  injection Hres as -> -> -> ->.
  set (l0 := initial_locals opt (weights s)) in *.
  set (s0 := listed self (set_ticks (S (ticks s)) s)) in *.
  assert (H0 : retains s l0 s0).
  { exists []. split; [unfold s0; rewrite listed_trace, app_nil_r; reflexivity|].
    apply retained_start. }
  assert (Hend : retains s l_end s_end).
  { destruct train as [dl|].
    - eapply (for_locals_Ok (run_epoch dataloaders spe) (retains s));
        [|exact H0|exact Hloops].
      intros. eapply run_epoch_retains; eauto.
    - destruct Hloops as (d & -> & Hloops).
      eapply (for_locals_Ok (test_subprofile d) (retains s));
        [|exact H0|exact Hloops].
      intros. eapply test_subprofile_retains; eauto. }
  destruct Hend as (tr & Htr & Hr). exists tr. split; [exact Htr | exact Hr].
Qed.
End Epochs.

(** C2, as the code has it: the state dict that is kept is the one the model
    holds when a validation phase ends, which need not be the one it holds
    when that epoch ends.  When [train_model] returns, the validation
    accuracy of every epoch is at most the best accuracy it returns, and
    - either that accuracy is [0.0] and the model holds the state dict it had
      when [train_model] was called: no epoch's validation accuracy exceeded
      [0.0];
    - or it exceeds [0.0], it is the validation accuracy of some epoch, which
      strictly exceeds that of every earlier epoch, and the model holds the
      state dict that was copied when the validation phase of that epoch
      ended.
    The validation accuracies and the state dicts are those of the
    ["val epoch done"] lines of the run, in order.  The copy is made when
    the validation phase ends, inside the loop over the phases; when
    training comes before validation in [dataloaders], that is the state
    dict the model holds at the end of the epoch
    ([checkpoint_is_epoch_end]); when it comes after, the training of the
    best epoch itself is not in the state dict returned. *)
Theorem best_checkpoint_retention `{Framework} self dataloaders spe n lr momentum
    s history best prof sub s' :
  train_model self dataloaders spe n lr momentum s
  = (Ok (history, best, prof, sub), s') ->
  exists tr,
    trace s' = (trace s ++ tr)%list /\
    none_exceeds best (epoch_accs "val" tr) /\
    ((best = PrimFloat.zero /\ weights s' = weights s) \/
     (fgt best PrimFloat.zero = true /\
      exists k, first_to_reach best k (epoch_accs "val" tr) /\
                (checkpoints tr).*2 !! k = Some (weights s'))).
Proof.
  intros Hrun.
  apply train_model_retains in Hrun as (tr & Htr & R1 & R2 & _).
  exists tr. rewrite <- checkpoints_accs.
  split; [exact Htr|]. split; [exact R1|].
  destruct R2 as [(Hb & _ & Hw)|(Hpos & _ & Hk)]; [left | right]; auto.
Qed.

(** C10: the [val_acc_history] that [train_model] returns is strictly
    increasing.  It is a sublist of the validation accuracies of the epochs,
    so it may have fewer entries than there were epochs, and each of its
    entries exceeds [0.0] and is the validation accuracy of an epoch that
    strictly exceeds the validation accuracy of every earlier epoch.
    When it is not empty, its last entry is the best accuracy returned;
    when it is empty, that is [0.0]. *)
Theorem val_acc_history_increasing `{Framework} self dataloaders spe n lr momentum
    s history best prof sub s' :
  train_model self dataloaders spe n lr momentum s
  = (Ok (history, best, prof, sub), s') ->
  exists tr,
    trace s' = (trace s ++ tr)%list /\
    strictly_increasing history /\
    sublist history (epoch_accs "val" tr) /\
    Forall (fun h => fgt h PrimFloat.zero = true /\
                     exists k, first_to_reach h k (epoch_accs "val" tr)) history /\
    ((history = [] /\ best = PrimFloat.zero) \/ last history = Some best).
Proof.
  intros Hrun.
  apply train_model_retains in Hrun as (tr & Htr & _ & R2 & R3 & R4 & R5).
  exists tr. rewrite <- checkpoints_accs.
  split; [exact Htr|]. split; [exact R3|]. split; [exact R4|]. split; [exact R5|].
  destruct R2 as [(Hb & Hh & _)|(_ & Hlast & _)]; [left | right]; auto.
Qed.

(** ** Dicts and the nested [profile_data] *)

Lemma dict_get_set {K V} `{EqDecision K} (d : dict K V) k v k' :
  dict_get (dict_set d k v) k' = if decide (k = k') then Some v else dict_get d k'.
Proof.
  induction d as [|[k0 v0] d IH]; simpl.
  - repeat case_decide; congruence.
  - destruct (decide (k0 = k)) as [->|Hk0]; simpl.
    + repeat case_decide; congruence.
    + destruct (decide (k0 = k')) as [->|Hk0'].
      * rewrite decide_False by congruence. reflexivity.
      * exact IH.
Qed.

Lemma dict_get_None {K V} `{EqDecision K} (d : dict K V) k :
  k ∉ keys d -> dict_get d k = None.
Proof.
  unfold keys. induction d as [|[k0 v0] d IH]; simpl; [reflexivity|].
  intros Hk. apply not_elem_of_cons in Hk as [Hne Hk].
  rewrite decide_False by congruence. auto.
Qed.

Lemma dict_get_Some_elem {K V} `{EqDecision K} (d : dict K V) k v :
  dict_get d k = Some v -> k ∈ keys d.
Proof.
  unfold keys. induction d as [|[k0 v0] d IH]; simpl; [discriminate|].
  case_decide; [subst; intros _; left | intros Hd; right; auto].
Qed.

Lemma pd_get_set pd p m v p' m' :
  pd_get (pd_set pd p m v) p' m'
  = if decide (p = p' /\ m = m') then v else pd_get pd p' m'.
Proof.
  unfold pd_get, pd_set. rewrite dict_get_set.
  destruct (decide (p = p')) as [->|Hp]; simpl.
  - rewrite dict_get_set.
    destruct (decide (m = m')) as [->|Hm].
    + rewrite decide_True by auto. reflexivity.
    + rewrite decide_False by tauto. reflexivity.
  - rewrite decide_False by tauto. reflexivity.
Qed.

(** The four metrics of a phase, once recorded, and those of the others. *)
Lemma record_metrics_get `{Framework} p dt loss acc n l q m :
  pd_get (profile_data (record_metrics p dt loss acc n l)) q m
  = if decide (q = p) then
      if decide (m = "time") then PyFloat dt
      else if decide (m = "loss") then PyFloat loss
      else if decide (m = "acc") then PyFloat acc
      else if decide (m = "num_samples") then PyInt n
      else pd_get (profile_data l) q m
    else pd_get (profile_data l) q m.
Proof.
  unfold record_metrics. simpl. rewrite !pd_get_set.
  destruct (decide (q = p)) as [->|Hq].
  - repeat (case_decide; try (exfalso; intuition congruence); try reflexivity);
      try (destruct_and?; subst; try discriminate; tauto).
  - repeat (rewrite decide_False by (intros [? _]; congruence)). reflexivity.
Qed.

(** ** The phases of one epoch *)
Section Phases.
Context `{Framework}.

Lemma keep_best_records phase a w l :
  profile (keep_best phase a w l) = profile l /\
  profile_data (keep_best phase a w l) = profile_data l.
Proof.
  unfold keep_best.
  destruct (bool_decide (phase = "val") && fgt a (best_acc l)); simpl; auto.
  destruct (fgt a (best_acc l)); simpl; auto.
Qed.

Lemma phases_Ok dataloaders ps : forall l s l' s',
  NoDup ps ->
  for_locals (run_phase dataloaders) ps l s = (Ok l', s') ->
  exists tr,
    trace s' = (trace s ++ tr)%list /\
    epochs_of tr = [] /\
    scheduler_metrics tr = epoch_losses "train" tr /\
    ticks s' = (ticks s + 2 * length ps)%nat /\
    profile l' = profile l /\
    forall q, phase_done dataloaders ps (ticks s) tr
                (profile_data l) (profile_data l') q.
Proof.
  induction ps as [|p ps IH]; intros l s l' s' Hnd Hrun.
  - simpl in Hrun. injection Hrun as <- <-. exists [].
    rewrite app_nil_r. simpl. repeat split; auto.
    intros q. left. split; [apply not_elem_of_nil | auto].
  - simpl in Hrun. apply bind_Ok in Hrun as (l1 & s1 & E1 & Hrun).
    apply NoDup_cons in Hnd as [Hp Hnd].
    apply run_phase_Ok in E1
      as (dl & l0 & loss & acc & tr1 & Hdl & _ & _ & Ht1 & Hb1 & Htr1 & Hsame & ->).
    apply IH in Hrun as (tr2 & Htr2 & He2 & Hs2 & Ht2 & Hp2 & Hd2); [|exact Hnd].
    destruct Hsame as (_ & _ & _ & Hprof & Hpd & _).
    destruct (keep_best_records p acc (weights s1) l0) as [Hkp Hkd].
    set (tr0 := (tr1 ++ scheduler_events p loss
                 ++ [EvPhaseDone p loss acc (weights s1)])%list) in *.
    exists (tr0 ++ tr2)%list.
    split; [rewrite Htr2, Htr1, <- app_assoc; reflexivity|].
    split; [rewrite epochs_of_app, He2; unfold tr0;
            rewrite phase_trace_epochs by exact Hb1; reflexivity|].
    split.
    { rewrite scheduler_metrics_app, epoch_losses_app, Hs2. f_equal.
      unfold epoch_losses, tr0.
      rewrite phase_trace_metrics, phase_trace_reports by exact Hb1.
      case_decide; reflexivity. }
    split; [rewrite Ht2, Ht1; simpl; lia|].
    split; [rewrite Hp2; simpl; congruence|].
    intros q.
    assert (Hrep : phase_reports q (tr0 ++ tr2)
                   = ((if decide (p = q) then [(loss, acc, weights s1)] else [])
                      ++ phase_reports q tr2)%list).
    { rewrite phase_reports_app. unfold tr0.
      rewrite phase_trace_reports by exact Hb1. reflexivity. }
    specialize (Hd2 q). unfold phase_done in *.
    destruct (decide (p = q)) as [<-|Hpq].
    + right. exists 0%nat, dl, loss, acc, (weights s1).
      destruct Hd2 as [(_ & Hr2 & Hget)|(i & _ & _ & _ & _ & Hi & _)];
        [|exfalso; apply Hp; eapply list_elem_of_lookup_2; exact Hi].
      rewrite Hrep, Hr2, !Hget, !record_metrics_get. simpl.
      destruct (decide (p = p)) as [_|Hne]; [|congruence].
      replace (ticks s + 0)%nat with (ticks s) by lia.
      repeat split; auto.
    + destruct Hd2 as [(Hq & Hr2 & Hget)
                      |(i & dl' & loss' & acc' & w' & Hi & Hdl' & Hr2 & Hti & Hlo & Hac & Hns)].
      * left. split; [apply not_elem_of_cons; auto|].
        split; [rewrite Hrep, Hr2; reflexivity|].
        intros m. rewrite Hget, record_metrics_get.
        rewrite decide_False by congruence. congruence.
      * right. exists (S i), dl', loss', acc', w'.
        rewrite Ht1 in Hti.
        replace (S (S (ticks s)) + 2 * i)%nat with (ticks s + 2 * S i)%nat in Hti by lia.
        rewrite Hrep, Hr2.
        repeat split; auto.
Qed.
End Phases.

(** ** The profile, epoch by epoch *)
Section Profile.
Context `{Framework}.

Lemma cells_length dataloaders tr t k q cs :
  cells dataloaders tr t k q cs -> length cs = 4%nat.
Proof.
  intros [[_ ->]|(i & dl & loss & acc & w & _ & _ & _ & ->)]; reflexivity.
Qed.

Lemma row_spec_length dataloaders tr t k row :
  row_spec dataloaders tr t k row -> length row = 13%nat.
Proof.
  intros (c1 & c2 & c3 & -> & H1 & H2 & H3).
  apply cells_length in H1, H2, H3.
  simpl. rewrite !length_app. lia.
Qed.

(** The cells of an epoch do not change when the run goes on. *)
Lemma cells_app dataloaders tr tr' t k q cs :
  cells dataloaders tr t k q cs -> cells dataloaders (tr ++ tr') t k q cs.
Proof.
  intros [Hno|(i & dl & loss & acc & w & Hi & Hdl & Hr & ->)]; [left; exact Hno|].
  right. exists i, dl, loss, acc, w. repeat split; auto.
  rewrite phase_reports_app. apply lookup_app_l_Some. exact Hr.
Qed.

Lemma row_spec_app dataloaders tr tr' t k row :
  row_spec dataloaders tr t k row -> row_spec dataloaders (tr ++ tr') t k row.
Proof.
  intros (c1 & c2 & c3 & -> & H1 & H2 & H3).
  exists c1, c2, c3. auto using cells_app.
Qed.

(** The cells of the epoch that has just completed. *)
Lemma phase_done_cells dataloaders tr0 tr t pd' q :
  q ∉ keys dataloaders \/ length (phase_reports q tr0) = length (epochs_of tr0) ->
  phase_done dataloaders (keys dataloaders) t tr [] pd' q ->
  cells dataloaders (tr0 ++ tr) t (length (epochs_of tr0)) q
    [pd_get pd' q "time"; pd_get pd' q "loss"; pd_get pd' q "acc";
     pd_get pd' q "num_samples"].
Proof.
  intros Hlen [(Hq & _ & Hget)
              |(i & dl & loss & acc & w & Hi & Hdl & Hr & -> & -> & -> & ->)].
  - left. split; [exact Hq|]. rewrite !Hget. reflexivity.
  - right. exists i, dl, loss, acc, w. repeat split; auto.
    destruct Hlen as [Hq|Hlen];
      [exfalso; apply Hq; eapply list_elem_of_lookup_2; exact Hi|].
    rewrite phase_reports_app, Hr, <- Hlen.
    rewrite lookup_app_r by lia. rewrite Nat.sub_diag. reflexivity.
Qed.

Lemma phase_done_ext dataloaders ps t tr tr' pd pd' q :
  Forall batch_event tr' ->
  phase_done dataloaders ps t tr pd pd' q ->
  phase_done dataloaders ps t (tr ++ tr') pd pd' q.
Proof.
  intros Hb Hd. apply batch_events_silent in Hb as (_ & _ & Hr).
  unfold phase_done in *. rewrite phase_reports_app, Hr, app_nil_r. exact Hd.
Qed.

(** An epoch that completes, seen from outside. *)
Lemma epoch_Ok dataloaders spe epoch l s l' s' :
  NoDup (keys dataloaders) ->
  run_epoch dataloaders spe epoch l s = (Ok l', s') ->
  exists tr pd,
    trace s' = (trace s ++ EvEpoch epoch :: tr)%list /\
    epochs_of tr = [] /\
    scheduler_metrics tr = epoch_losses "train" tr /\
    ticks s' = (ticks s + ticks_per_epoch dataloaders)%nat /\
    profile l' = (profile l ++ [profile_row (time_time (ticks s)) pd])%list /\
    forall q, phase_done dataloaders (keys dataloaders) (S (ticks s)) tr [] pd q.
Proof.
  intros Hnd Hrun.
  apply run_epoch_Ok in Hrun as (d & lk & sk & -> & Hphases & Hrest).
  apply phases_Ok in Hphases
    as (tr & Htr & He & Hs & Ht & Hp & Hd); [|exact Hnd].
  simpl in Htr, Ht, Hp, Hd, Hrest.
  assert (Hend : exists tr', Forall batch_event tr' /\
                   trace s' = (trace sk ++ tr')%list /\ ticks s' = ticks sk /\
                   profile l' = (profile lk ++
                     [profile_row (time_time (ticks s)) (profile_data lk)])%list).
  { destruct (dict_mem d epoch).
    - apply test_subprofile_Ok in Hrest as ([[Ht' (tr' & Htr' & Hb)] _] & results & ->).
      exists tr'. auto.
    - destruct Hrest as [-> ->]. exists []. rewrite app_nil_r. auto. }
  destruct Hend as (tr' & Hb & Htr' & Ht' & Hp').
  pose proof (batch_events_silent _ Hb) as (Hm' & He' & Hr').
  exists (tr ++ tr')%list, (profile_data lk).
  split; [rewrite Htr', Htr, <- !app_assoc; reflexivity|].
  split; [rewrite epochs_of_app, He, He'; reflexivity|].
  split; [rewrite scheduler_metrics_app, epoch_losses_app, Hs, Hm';
          unfold epoch_losses; rewrite Hr'; reflexivity|].
  split; [rewrite Ht', Ht; unfold ticks_per_epoch; lia|].
  split; [rewrite Hp', Hp; reflexivity|].
  intros q. apply phase_done_ext; [exact Hb | apply Hd].
Qed.
End Profile.

Section EpochLoop.
Context `{Framework}.

Lemma epochs_done_start dataloaders s0 l :
  profile l = [] -> epochs_done dataloaders s0 [] l s0.
Proof.
  intros Hp. exists []. rewrite app_nil_r, Hp. simpl.
  repeat split; auto. intros k row Hrow. rewrite lookup_nil in Hrow. discriminate.
Qed.

Lemma epochs_done_step dataloaders spe s0 done epoch l s l' s' :
  NoDup (keys dataloaders) ->
  "train" ∈ keys dataloaders ->
  epochs_done dataloaders s0 done l s ->
  run_epoch dataloaders spe epoch l s = (Ok l', s') ->
  epochs_done dataloaders s0 (done ++ [epoch]) l' s'.
Proof.
  intros Hnd Htrain (tr0 & Htr0 & He0 & Hs0 & Ht0 & Hlen0 & Hrep0 & Hrows0) Hrun.
  apply epoch_Ok in Hrun as (tr & pd & Htr & He & Hs & Ht & Hp & Hd); [|exact Hnd].
  exists (tr0 ++ EvEpoch epoch :: tr)%list.
  assert (Hreports : forall q, q ∈ keys dataloaders ->
            exists r, phase_reports q (EvEpoch epoch :: tr) = [r]).
  { intros q Hq. destruct (Hd q) as [(Hno & _)|(i & dl & a & b & w & _ & _ & Hr & _)];
      [contradiction|]. simpl. eauto. }
  split; [rewrite Htr, Htr0, <- app_assoc; reflexivity|].
  split; [rewrite epochs_of_app, He0; simpl; rewrite He; reflexivity|].
  split.
  { rewrite scheduler_metrics_app, epoch_losses_app, Hs0. f_equal. exact Hs. }
  split; [rewrite Ht, Ht0, length_app; simpl; lia|].
  split; [rewrite Hp, !length_app, Hlen0; reflexivity|].
  split.
  { intros q Hq. destruct (Hreports q Hq) as [r Hr].
    rewrite phase_reports_app, !length_app, Hr, (Hrep0 q Hq). reflexivity. }
  intros k row Hrow. rewrite Hp in Hrow.
  apply lookup_app_Some in Hrow as [Hrow|[Hk Hrow]].
  - apply row_spec_app. apply Hrows0. exact Hrow.
  - rewrite Hlen0 in Hk, Hrow.
    destruct (k - length done)%nat eqn:Hkd; [|destruct n; discriminate].
    assert (k = length done) as -> by lia. injection Hrow as <-.
    rewrite <- He0 in *.
    assert (Hcell : forall q,
              cells dataloaders (tr0 ++ EvEpoch epoch :: tr) (S (ticks s))
                (length (epochs_of tr0)) q
                [pd_get pd q "time"; pd_get pd q "loss"; pd_get pd q "acc";
                 pd_get pd q "num_samples"]).
    { intros q.
      assert (Hd' : phase_done dataloaders (keys dataloaders) (S (ticks s))
                      (EvEpoch epoch :: tr) [] pd q) by exact (Hd q).
      apply phase_done_cells; [|exact Hd'].
      destruct (decide (q ∈ keys dataloaders)) as [Hq|Hq]; [right | left; exact Hq].
      apply Hrep0. exact Hq. }
    rewrite <- Ht0.
    exists [pd_get pd "train" "time"; pd_get pd "train" "loss";
            pd_get pd "train" "acc"; pd_get pd "train" "num_samples"],
           [pd_get pd "val" "time"; pd_get pd "val" "loss";
            pd_get pd "val" "acc"; pd_get pd "val" "num_samples"],
           [pd_get pd "test" "time"; pd_get pd "test" "loss";
            pd_get pd "test" "acc"; pd_get pd "test" "num_samples"].
    split; [reflexivity|]. auto.
Qed.

(** When [train_model] returns after training, every epoch of
    [range(num_epochs)] is done. *)
Lemma train_model_epochs self dataloaders spe n lr momentum s res s'
    (dl : DataLoader) :
  NoDup (keys dataloaders) ->
  dict_get dataloaders "train" = Some (Some dl) ->
  train_model self dataloaders spe n lr momentum s = (Ok res, s') ->
  exists l_end s_end,
    res = (val_acc_history l_end, best_acc l_end, profile l_end,
           subprofile_test_results l_end) /\
    trace s' = trace s_end /\
    epochs_done dataloaders (listed self (set_ticks (S (ticks s)) s)) (range n)
      l_end s_end.
Proof.
  intros Hnd Htrain Hrun.
  apply train_model_Ok in Hrun
    as (opt & train & l_end & s_end & _ & Ht & Hloops & -> & ->).
  simpl in Ht, Hloops. rewrite Htrain in Ht. injection Ht as <-.
  exists l_end, s_end. split; [reflexivity|]. split; [reflexivity|].
  eapply (for_locals_Ok_inv (run_epoch dataloaders spe)
            (epochs_done dataloaders (listed self (set_ticks (S (ticks s)) s)))
            (range n))
    with (pre := []); [|reflexivity| |exact Hloops].
  - intros pre x suf l s1 l' s1' _ Hinv Hstep.
    eapply epochs_done_step; eauto.
    eapply dict_get_Some_elem. exact Htrain.
  - apply epochs_done_start. reflexivity.
Qed.
End EpochLoop.

(** C6: when [train_model] returns after training ([dataloaders['train']] is
    not [None]), the profile has exactly one row for each epoch of
    [range(num_epochs)], in order.  The row of epoch [k] has 13 values: the
    time read when the epoch started, then, for ['train'], ['val'] and
    ['test'] in that order, the time the phase took, its loss, its accuracy
    and the size of its dataset, or four zeros when the phase is not a key
    of [dataloaders].  The loss and the accuracy are those the phase
    reported in epoch [k]; the times are differences of readings of the
    clock, of which there are [1 + 2 * len(dataloaders)] in each epoch, after
    a first one when [train_model] starts.  Every phase of [dataloaders]
    reports once in each epoch. *)
Theorem profile_rows `{Framework} self dataloaders spe n lr momentum s
    history best prof sub s' (dl : DataLoader) :
  NoDup (keys dataloaders) ->
  dict_get dataloaders "train" = Some (Some dl) ->
  train_model self dataloaders spe n lr momentum s
  = (Ok (history, best, prof, sub), s') ->
  exists tr,
    trace s' = (trace s ++ tr)%list /\
    epochs_of tr = range n /\
    length prof = length (range n) /\
    (forall q, q ∈ keys dataloaders ->
               length (phase_reports q tr) = length (range n)) /\
    forall k row, prof !! k = Some row ->
      length row = 13%nat /\
      row_spec dataloaders tr
        (S (ticks s) + k * ticks_per_epoch dataloaders) k row.
Proof.
  intros Hnd Htrain Hrun.
  eapply train_model_epochs in Hrun as (l_end & s_end & Hres & Htr & Hdone); eauto.
  injection Hres as -> -> -> ->.
  destruct Hdone as (tr & Htr' & He & _ & _ & Hlen & Hrep & Hrows).
  exists tr. rewrite listed_trace in Htr'. simpl in Htr'.
  split; [congruence|]. split; [exact He|]. split; [exact Hlen|].
  split; [exact Hrep|].
  intros k row Hrow. specialize (Hrows k row Hrow).
  rewrite listed_ticks in Hrows. simpl in Hrows.
  split; [eapply row_spec_length|]; exact Hrows.
Qed.

(** ** The scheduler *)
Section Scheduler.
Context `{Framework}.

Lemma driven_nil : scheduler_driven_by "train" [].
Proof. reflexivity. Qed.

Lemma driven_app t1 t2 :
  scheduler_driven_by "train" t1 -> scheduler_driven_by "train" t2 ->
  scheduler_driven_by "train" (t1 ++ t2).
Proof.
  unfold scheduler_driven_by. intros H1 H2.
  rewrite scheduler_metrics_app, epoch_losses_app. congruence.
Qed.

Lemma driven_batches tr : Forall batch_event tr -> scheduler_driven_by "train" tr.
Proof.
  intros Hb. apply batch_events_silent in Hb as (Hm & _ & Hr).
  unfold scheduler_driven_by, epoch_losses. rewrite Hm, Hr. reflexivity.
Qed.

(** From [s] to [s'] the scheduler was stepped with the training losses. *)
Local Abbreviation driven := (extends (scheduler_driven_by "train")).

Lemma driven_refl s : driven s s.
Proof. apply extends_refl, driven_nil. Qed.

Lemma driven_trans s1 s2 s3 : driven s1 s2 -> driven s2 s3 -> driven s1 s3.
Proof. apply extends_trans, driven_app. Qed.

Local Abbreviation dbind := (keeps_bind driven driven_trans).
Local Abbreviation dret := (keeps_ret driven driven_refl).

Lemma batch_frame_driven s s' : batch_frame s s' -> driven s s'.
Proof. intros (_ & tr & Htr & Hb). exists tr. auto using driven_batches. Qed.

Lemma keeps_driven_of_batch_frame {A} (m : M State A) :
  keeps batch_frame m -> keeps driven m.
Proof. intros Hk s. apply batch_frame_driven, Hk. Qed.

Lemma driven_same_trace {A} (m : M State A) :
  (forall s, trace (m s).2 = trace s) -> keeps driven m.
Proof. intros Hm s. apply extends_same_trace; [apply driven_nil | apply Hm]. Qed.

Lemma run_phase_driven dataloaders phase l :
  keeps driven (run_phase dataloaders phase l).
Proof.
  unfold run_phase.
  apply dbind; [apply driven_same_trace; reflexivity|]. intros start_time.
  apply dbind; [apply driven_same_trace; reflexivity|]. intros _.
  apply dbind.
  { apply driven_same_trace. intros s. unfold loader_of.
    destruct (dict_get dataloaders phase) as [[d|]|]; reflexivity. }
  intros dl. apply dbind.
  { apply keeps_driven_of_batch_frame, batch_frame_batches. }
  intros r. apply dbind.
  { apply driven_same_trace. intros s. unfold float_div_int.
    destruct (Z.eqb (len_dataset dl) 0); reflexivity. }
  intros epoch_loss. apply dbind.
  { apply driven_same_trace. intros s. destruct r.2; reflexivity. }
  intros d s. unfold scheduler_step, time, log. mrun.
  destruct (decide (phase = "train")) as [->|Hp].
  - destruct (plateau_step _ _ _) as [sc o]. simpl.
    eexists. split; [rewrite <- app_assoc; reflexivity|].
    reflexivity.
  - simpl. eexists. split; [reflexivity|].
    unfold scheduler_driven_by, epoch_losses. simpl.
    rewrite decide_False by exact Hp. reflexivity.
Qed.

Lemma run_epoch_driven dataloaders spe epoch l :
  keeps driven (run_epoch dataloaders spe epoch l).
Proof.
  unfold run_epoch.
  apply dbind; [apply driven_same_trace; reflexivity|]. intros t.
  apply dbind.
  { intros s. exists [EvEpoch epoch]. split; reflexivity. }
  intros _. apply dbind.
  { apply (keeps_for_locals driven driven_refl driven_trans).
    intros. apply run_phase_driven. }
  intros lk. apply dbind.
  { apply driven_same_trace. intros s. destruct spe; reflexivity. }
  intros d. destruct (dict_mem d epoch); [|apply dret].
  apply keeps_driven_of_batch_frame. intros s.
  apply (test_subprofile_keeps_frame d epoch _ s).
Qed.

(** However [train_model] ends, the metrics its scheduler was stepped
    with are the losses of the training phases that completed. *)
Lemma train_model_driven self dataloaders spe n lr momentum :
  keeps driven (train_model self dataloaders spe n lr momentum).
Proof.
  unfold train_model.
  apply dbind; [apply driven_same_trace; reflexivity|]. intros since.
  apply dbind; [apply driven_same_trace, optim_SGD_trace|]. intros opt.
  apply dbind; [apply keeps_get, driven_refl|]. intros s0.
  apply dbind; [apply keeps_lift; [apply driven_refl]|]. intros train.
  apply dbind.
  { destruct train; [apply dret|].
    apply dbind.
    { apply driven_same_trace. intros s. destruct spe; reflexivity. }
    intros d. apply (keeps_for_locals driven driven_refl driven_trans).
    intros e l. apply keeps_driven_of_batch_frame. intros s.
    apply (test_subprofile_keeps_frame d e l s). }
  intros l1. apply dbind.
  { destruct train; [|apply dret].
    apply (keeps_for_locals driven driven_refl driven_trans).
    intros. apply run_epoch_driven. }
  intros l2. apply dbind; [apply driven_same_trace; reflexivity|]. intros now.
  apply dbind; [|intros; apply dret].
  apply driven_same_trace. intros s. rewrite load_state_dict_state. reflexivity.
Qed.
End Scheduler.

(** C1, as the code has it: the scheduler is driven by the training loss.
    However [train_model] ends, the metrics [scheduler.step] was called with
    are, in order, the epoch losses of the passes through the ['train']
    phase that completed; and when it returns after training, there was
    exactly one such call in each epoch of [range(num_epochs)].  The loss of
    the validation phase is never passed to the scheduler. *)
Theorem scheduler_steps_on_train_loss `{Framework} self dataloaders spe n
    lr momentum s :
  NoDup (keys dataloaders) ->
  let r := train_model self dataloaders spe n lr momentum s in
  extends (scheduler_driven_by "train") s r.2 /\
  forall res (dl : DataLoader),
    r.1 = Ok res -> dict_get dataloaders "train" = Some (Some dl) ->
    exists tr,
      trace r.2 = (trace s ++ tr)%list /\
      scheduler_driven_by "train" tr /\
      epochs_of tr = range n /\
      length (epoch_losses "train" tr) = length (range n) /\
      length (scheduler_metrics tr) = length (range n).
Proof.
  intros Hnd r. split; [apply train_model_driven|].
  intros res dl Hres Htrain. subst r.
  destruct (train_model _ _ _ _ _ _ s) as [r1 s'] eqn:Hrun. simpl in *. subst r1.
  eapply train_model_epochs in Hrun as (l_end & s_end & _ & Htr & Hdone); eauto.
  destruct Hdone as (tr & Htr' & He & Hs & _ & _ & Hrep & _).
  exists tr. rewrite listed_trace in Htr'. simpl in Htr'.
  assert (Hlen : length (epoch_losses "train" tr) = length (range n)).
  { unfold epoch_losses. rewrite !length_fmap. apply Hrep.
    eapply dict_get_Some_elem. exact Htrain. }
  split; [congruence|]. split; [exact Hs|]. split; [exact He|].
  split; [exact Hlen|]. rewrite Hs. exact Hlen.
Qed.

(** C1 as it is stated fails: in one epoch over a training set and a
    validation set whose losses differ, the scheduler is stepped with the
    training loss [1.0], not with the validation loss [0.0]. *)
Lemma scheduler_not_driven_by_val :
  ~ scheduler_driven_by "val"
      (trace (train_model Toy.constructed Toy.train_and_val (Some []) 1
                Toy.lr Toy.momentum (Toy.start 0)).2).
Proof.
  unfold scheduler_driven_by. intros E.
  apply (f_equal (fun l => match l with
                           | [x] => PrimFloat.eqb x PrimFloat.one
                           | _ => false
                           end)) in E.
  vm_compute in E. discriminate.
Qed.

(** ** [subprofile_test_epochs] left at [None] *)

Lemma range_pos n : 0 < n -> exists rest, range n = 0 :: rest.
Proof.
  intros Hn. unfold range.
  destruct (Z.to_nat n) as [|m] eqn:Hm; [lia|]. simpl. eauto.
Qed.

Lemma range_nonpos n : n <= 0 -> range n = [].
Proof. intros Hn. unfold range. replace (Z.to_nat n) with 0%nat by lia. reflexivity. Qed.

(** With [None] for [subprofile_test_epochs], an epoch runs its phases and
    then fails on [None.keys()], unless a phase has failed before. *)
Lemma run_epoch_None `{Framework} dataloaders epoch l s :
  run_epoch dataloaders None epoch l s
  = let first := for_locals (run_phase dataloaders) (keys dataloaders)
                   (set_profile_data [] l)
                   (set_trace (trace s ++ [EvEpoch epoch])%list
                      (set_ticks (S (ticks s)) s)) in
    (Raise match first.1 with
           | Ok _ => AttributeError "'NoneType' object has no attribute 'keys'"
           | Raise e => e
           end,
     first.2).
Proof.
  unfold run_epoch.
  rewrite (bind_step _ _ _ _ _ (time_run s)).
  rewrite (bind_step _ _ _ _ _ (log_run _ _)).
  rewrite bind_unfold. simpl.
  destruct (for_locals _ _ _ _) as [[lk|e] sk]; reflexivity.
Qed.

(** C3, as the code has it.  With [subprofile_test_epochs] left at [None],
    once the optimiser has been constructed (with no parameter to update, or
    a negative learning rate or momentum, [optim.SGD] raises first) and has
    listed [self.params_to_update]:
    - when [dataloaders['train']] is [None], the call raises the
      [AttributeError] of [None.keys()] at once, before the model is used;
    - when it is a loader and [num_epochs >= 1], the call never returns: it
      raises that [AttributeError] when the phases of the first epoch have
      completed, and otherwise what the first failing phase raised;
    - when it is a loader and [num_epochs <= 0], no epoch runs, [None.keys()]
      is not evaluated and the call returns normally, with an empty history,
      [0.0], an empty profile and no test results.
    Without a ['train'] key the call raises [KeyError]. *)
Theorem default_subprofile_raises `{Framework} self dataloaders n lr momentum s :
  let r := train_model self dataloaders None n lr momentum s in
  let s0 := set_ticks (S (ticks s)) s in
  match sgd_init (keys (params_of self s)) lr momentum with
  | Raise e => r = (Raise e, s0)
  | Ok opt =>
      let l0 := initial_locals opt (weights s) in
      let s1 := listed self s0 in
      match dict_get dataloaders "train" with
      | None => r = (Raise (KeyError "train"), s1)
      | Some None =>
          r = (Raise (AttributeError "'NoneType' object has no attribute 'keys'"),
               s1)
      | Some (Some _) =>
          if Z.ltb 0 n then
            let first := for_locals (run_phase dataloaders) (keys dataloaders) l0
                           (set_trace (trace s1 ++ [EvEpoch 0])%list
                              (set_ticks (S (ticks s1)) s1)) in
            r = (Raise match first.1 with
                       | Ok _ =>
                           AttributeError "'NoneType' object has no attribute 'keys'"
                       | Raise e => e
                       end,
                 first.2)
          else
            r = (Ok ([], PrimFloat.zero, [], []),
                 set_ticks (S (S (ticks s))) (listed self s))
      end
  end.
Proof.
  intros r s0. subst r. unfold train_model.
  rewrite (bind_step _ _ _ _ _ (time_run s)). fold s0.
  rewrite bind_unfold, optim_SGD_run.
  change (params_of self s0) with (params_of self s).
  destruct (sgd_init (keys (params_of self s)) lr momentum) as [opt|e]; [|reflexivity].
  cbv beta iota. set (s1 := listed self s0).
  rewrite bind_unfold. unfold get at 1. cbv iota beta.
  replace (weights s1) with (weights s)
    by (unfold s1; rewrite listed_weights; reflexivity).
  unfold subscript.
  destruct (dict_get dataloaders "train") as [[dl|]|]; try reflexivity.
  destruct (Z.ltb_spec 0 n) as [Hn|Hn].
  - destruct (range_pos n Hn) as [rest ->].
    mrun. simpl for_locals. rewrite bind_unfold, run_epoch_None. reflexivity.
  - rewrite range_nonpos by exact Hn.
    simpl for_locals. mrun. rewrite time_run. cbv beta iota.
    cbn [best_model_wts initial_locals].
    rewrite load_state_dict_same by reflexivity.
    unfold s1, s0, listed. destruct (params_to_update self); destruct s; reflexivity.
Qed.

(** C3 as it is stated fails: with [num_epochs = 0] and a training loader,
    the call returns although [subprofile_test_epochs] is [None]. *)
Lemma default_subprofile_returns :
  (train_model Toy.constructed Toy.train_only None 0 Toy.lr Toy.momentum
     (Toy.start 0)).1
  = Ok ([], PrimFloat.zero, [], []) /\
  ~ exists e,
      (train_model Toy.constructed Toy.train_only None 0 Toy.lr Toy.momentum
         (Toy.start 0)).1 = Raise e.
Proof.
  split; [vm_compute; reflexivity|].
  intros [e E]. vm_compute in E. discriminate.
Qed.

(** ** The checkpoint and the end of the epoch

    The state dict is copied when the validation phase ends.  When the
    training phase comes before it, as in [{'train': .., 'val': .., 'test':
    ..}], nothing changes the model in the rest of the epoch, and the copy is
    the state dict the model holds when the epoch ends. *)
Section EpochEnd.
Context `{Framework}.

Lemma keeps_for_locals_Forall (R : State -> State -> Prop) {A}
    (body : A -> Locals -> M State Locals) (P : A -> Prop) xs :
  (forall s, R s s) -> (forall s1 s2 s3, R s1 s2 -> R s2 s3 -> R s1 s3) ->
  (forall x l, P x -> keeps R (body x l)) ->
  Forall P xs -> forall l, keeps R (for_locals body xs l).
Proof.
  intros Hrefl Htrans Hbody HP. induction HP as [|x xs Hx _ IH]; intros l; simpl.
  - apply keeps_ret. exact Hrefl.
  - apply keeps_bind; auto.
Qed.

(** Phases that do not train leave the state dict alone. *)
Lemma phases_quiet dataloaders ps l s :
  "train" ∉ ps ->
  quiet s (for_locals (run_phase dataloaders) ps l s).2.
Proof.
  intros Hno.
  apply (keeps_for_locals_Forall quiet (run_phase dataloaders)
           (fun p => p <> "train") ps quiet_refl quiet_trans).
  - intros p l0 Hp s0. apply run_phase_quiet. exact Hp.
  - apply Forall_forall. intros p Hp ->. contradiction.
Qed.

Lemma trains_before_validating_tail p ps :
  trains_before_validating (p :: ps) -> trains_before_validating ps.
Proof.
  intros Hord i j Hi Hj. specialize (Hord (S i) (S j) Hi Hj). lia.
Qed.

Lemma phases_checkpoint dataloaders ps : forall l s l' s',
  NoDup ps -> trains_before_validating ps -> "val" ∈ ps ->
  for_locals (run_phase dataloaders) ps l s = (Ok l', s') ->
  exists tr acc,
    trace s' = (trace s ++ tr)%list /\
    checkpoints tr = [(acc, weights s')].
Proof.
  induction ps as [|p ps IH]; intros l s l' s' Hnd Hord Hval Hrun.
  - apply elem_of_nil in Hval. contradiction.
  - apply NoDup_cons in Hnd as [Hp Hnd].
    simpl in Hrun. apply bind_Ok in Hrun as (l1 & s1 & E1 & Hrun).
    apply run_phase_Ok in E1
      as (dl & l0 & loss & acc & tr1 & _ & _ & _ & _ & Hb1 & Htr1 & _ & _).
    destruct (decide (p = "val")) as [->|Hpv].
    + assert (Hno : "train" ∉ ps).
      { intros Hin. apply list_elem_of_lookup_1 in Hin as [j Hj].
        specialize (Hord 0%nat (S j) eq_refl Hj). lia. }
      pose proof (phases_quiet dataloaders ps l1 s1 Hno) as [Hw _].
      pose proof Hrun as Hrun'.
      apply phases_Ok in Hrun' as (tr2 & Htr2 & _ & _ & _ & _ & Hd2); [|exact Hnd].
      rewrite Hrun in Hw. simpl in Hw.
      destruct (Hd2 "val") as [(_ & Hr2 & _)|(i & _ & _ & _ & _ & Hi & _)];
        [|exfalso; apply Hp; eapply list_elem_of_lookup_2; exact Hi].
      eexists _, acc. split.
      * rewrite Htr2, Htr1, <- app_assoc. reflexivity.
      * rewrite checkpoints_app. unfold checkpoints.
        rewrite phase_trace_reports by exact Hb1.
        rewrite Hr2, decide_True by reflexivity. simpl. rewrite Hw. reflexivity.
    + apply IH in Hrun as (tr2 & acc2 & Htr2 & Hc2).
      * eexists _, acc2. split.
        -- rewrite Htr2, Htr1, <- app_assoc. reflexivity.
        -- rewrite checkpoints_app. unfold checkpoints at 1.
           rewrite phase_trace_reports by exact Hb1.
           rewrite decide_False by exact Hpv. simpl. exact Hc2.
      * exact Hnd.
      * eapply trains_before_validating_tail. exact Hord.
      * apply elem_of_cons in Hval as [Hval|Hval]; [congruence | exact Hval].
Qed.

(** The checkpoint of an epoch is the state dict at the end of the epoch,
    when training comes before validation. *)
Lemma checkpoint_is_epoch_end dataloaders spe epoch l s l' s' :
  NoDup (keys dataloaders) ->
  trains_before_validating (keys dataloaders) ->
  "val" ∈ keys dataloaders ->
  run_epoch dataloaders spe epoch l s = (Ok l', s') ->
  exists tr acc,
    trace s' = (trace s ++ tr)%list /\
    checkpoints tr = [(acc, weights s')].
Proof.
  intros Hnd Hord Hval Hrun.
  apply run_epoch_Ok in Hrun as (d & lk & sk & -> & Hphases & Hrest).
  apply phases_checkpoint in Hphases as (tr & acc & Htr & Hc); auto.
  simpl in Htr, Hrest.
  assert (Hend : exists tr', Forall batch_event tr' /\
                   trace s' = (trace sk ++ tr')%list /\ weights s' = weights sk).
  { destruct (dict_mem d epoch).
    - apply test_subprofile_Ok in Hrest as ([[_ (tr' & Htr' & Hb)] Hw] & _).
      exists tr'. auto.
    - destruct Hrest as [_ ->]. exists []. rewrite app_nil_r. auto. }
  destruct Hend as (tr' & Hb & Htr' & Hw).
  apply batch_events_silent in Hb as (_ & _ & Hr').
  exists (EvEpoch epoch :: tr ++ tr')%list, acc. split.
  - rewrite Htr', Htr, <- !app_assoc. reflexivity.
  - change (EvEpoch epoch :: tr ++ tr')%list
      with ([EvEpoch epoch] ++ tr ++ tr')%list.
    rewrite !checkpoints_app, Hc. unfold checkpoints. rewrite Hr', Hw. reflexivity.
Qed.
End EpochEnd.

Local Abbreviation val_first :=
  (train_model Toy.constructed Examples.val_then_train (Some []) 2
     Toy.lr Toy.momentum (Toy.start 0)).

(** C2 as it is stated fails: two epochs in which the validation phase
    comes before the training phase.  The validation accuracies are [0.0]
    and [1.0], so the second epoch is the best one; the model held
    ["1.bias" = 1] when its validation phase ended and ["1.bias" = 2] when
    the epoch ended, after its training phase; and the model that is
    returned holds ["1.bias" = 1], not the state dict of the end of that
    epoch. *)
Lemma checkpoint_is_not_epoch_end :
  (exists prof, val_first.1 = Ok ([1%float], 1%float, prof, [])) /\
  epochs_of (trace val_first.2) = [0; 1] /\
  epoch_accs "val" (trace val_first.2) = [0%float; 1%float] /\
  (phase_reports "val" (trace val_first.2)).*2
  = [{["1.bias" := 0]}; {["1.bias" := 1]}] /\
  (phase_reports "train" (trace val_first.2)).*2
  = [{["1.bias" := 1]}; {["1.bias" := 2]}] /\
  last (trace val_first.2)
  = Some (EvPhaseDone "train" 1%float 0%float {["1.bias" := 2]}) /\
  weights val_first.2 = {["1.bias" := 1]} /\
  weights val_first.2 <> {["1.bias" := 2]}.
Proof.
  split; [vm_compute; eexists; reflexivity|].
  repeat split; try (vm_compute; reflexivity).
  intros E. apply (f_equal (fun w => w !! "1.bias")) in E.
  vm_compute in E. discriminate.
Qed.

(** ** What [infer] returns *)

(** X1: on a loader that yields at least one batch, [infer] returns the
    number of samples whose predicted class is their label, counted over the
    batches by the model as it is, divided by [len(dataloader.dataset)].  It
    leaves the state dict as it was and the model in evaluation mode, and
    has asked for one forward pass per batch, in evaluation mode and without
    gradient tracking, and for nothing else. *)
Theorem infer_returns_accuracy `{Framework} (dataloader : DataLoader) s :
  batches dataloader <> [] ->
  let r := infer dataloader s in
  r.1 = Ok (accuracy (weights s) dataloader) /\
  weights r.2 = weights s /\
  training r.2 = false /\
  trace r.2
  = (trace s ++ replicate (length (batches dataloader)) (EvForward false false))%list.
Proof.
  intros Hne r. subst r. rewrite infer_spec.
  unfold accuracy, after_infer.
  destruct (batches dataloader); [congruence|]. simpl. repeat split.
Qed.

(** ** Hyperparameters the constructor cannot use *)

(** X2: [DEFAULT_HYPER_PARAMS] never lets a construction succeed.
    [Resnet(None)] raises [TypeError] and [Resnet({})] raises
    [KeyError('model_name')], both before anything is built, because the
    model name is read from the argument and not from
    [self.hyperparameters]; and the defaults passed explicitly raise
    [KeyError('num_classes')], a key they do not have. *)
Theorem init_defaults_unusable `{Framework} pretrained restore_path s :
  __init__ None pretrained restore_path s
  = (Raise (TypeError "'NoneType' object is not subscriptable"), s) /\
  __init__ (Some []) pretrained restore_path s
  = (Raise (KeyError "model_name"), s) /\
  (__init__ (Some DEFAULT_HYPER_PARAMS) pretrained restore_path s).1
  = Raise (KeyError "num_classes").
Proof. repeat split; reflexivity. Qed.

Lemma init_Ok_keys `{Framework} hp pretrained restore_path s r s' :
  __init__ hp pretrained restore_path s = (Ok r, s') ->
  exists name nc nh,
    hp = Some (hyperparameters r) /\
    dict_get (hyperparameters r) "model_name" = Some (HStr name) /\
    get_model_from_str name = Ok (model_class r) /\
    dict_get (hyperparameters r) "last_layer_only" = Some (last_layer_only r) /\
    dict_get (hyperparameters r) "num_classes" = Some (HInt nc) /\
    num_classes r = HInt nc /\
    dict_get (hyperparameters r) "num_hidden" = Some (HInt nh) /\
    0 <= nc < 2 ^ 63 /\ 0 <= nh < 2 ^ 63.
Proof.
  unfold __init__. intros Hrun.
  apply bind_Ok in Hrun as (name & s1 & E1 & Hrun).
  destruct hp as [d|]; [|discriminate].
  apply lift_Ok in E1 as [E1 ->].
  unfold subscript in E1.
  destruct (dict_get d "model_name") as [v|] eqn:Hname; [|discriminate].
  injection E1 as ->.
  assert (Hd : match d with _ :: _ => d | [] => DEFAULT_HYPER_PARAMS end = d).
  { destruct d; [discriminate | reflexivity]. }
  apply bind_Ok in Hrun as (ctor & s2 & E2 & Hrun).
  destruct name as [| |name|]; try discriminate.
  apply lift_Ok in E2 as [E2 ->].
  apply bind_Ok in Hrun as ([] & s3 & _ & Hrun).
  apply bind_Ok in Hrun as (llo & s4 & E4 & Hrun).
  apply lift_Ok in E4 as [E4 ->].
  apply bind_Ok in Hrun as (nc & s5 & E5 & Hrun).
  apply lift_Ok in E5 as [E5 ->].
  apply bind_Ok in Hrun as (nh & s6 & E6 & Hrun).
  apply lift_Ok in E6 as [E6 ->].
  apply bind_Ok in Hrun as (m2 & s7 & E7 & Hrun).
  apply bind_Ok in Hrun as (ps & s8 & _ & Hrun).
  apply bind_Ok in Hrun as ([] & s9 & _ & Hrun).
  injection Hrun as <- <-. simpl.
  apply initialize_last_layer_sizes in E7 as (h & c & -> & -> & Hh & Hc).
  replace (match d with [] => DEFAULT_HYPER_PARAMS | _ :: _ => d end) with d in *
    by (destruct d; [discriminate | reflexivity]).
  unfold subscript in E4, E5, E6.
  destruct (dict_get d "last_layer_only"); [|discriminate]. injection E4 as ->.
  destruct (dict_get d "num_classes"); [|discriminate]. injection E5 as ->.
  destruct (dict_get d "num_hidden"); [|discriminate]. injection E6 as ->.
  exists name, c, h. auto 10.
Qed.

(** X3: [initialize_last_layer] cannot be called on a [Resnet] twice, so not
    on a constructed one: after a call that returned, [self.model] is an
    [nn.Sequential], which has no [fc], and every further call raises
    [AttributeError] and changes nothing. *)
Theorem initialize_last_layer_twice_raises `{Framework} m nc nh s m' s' :
  initialize_last_layer m nc nh s = (Ok m', s') ->
  forall nc' nh' s2,
    initialize_last_layer m' nc' nh' s2
    = (Raise (AttributeError "'Sequential' object has no attribute 'fc'"), s2).
Proof.
  intros Hrun nc' nh' s2.
  apply initialize_last_layer_Ok in Hrun as (r & h & c & _ & _ & _ & ->).
  reflexivity.
Qed.

(** ** Phases that cannot complete *)
Section BadLoaders.
Context `{Framework}.

(** A computation that returns from every state. *)
Lemma returns_ret {A} (a : A) : returns (ret a).
Proof. intros s. unfold ret. eauto. Qed.

Lemma returns_get : returns get.
Proof. intros s. unfold get. eauto. Qed.

Lemma returns_modify (f : State -> State) : returns (modify f).
Proof. intros s. unfold modify. eauto. Qed.

Lemma returns_log e : returns (log e).
Proof. apply returns_modify. Qed.

Lemma returns_bind {A B} (m : M State A) (k : A -> M State B) :
  returns m -> (forall a, returns (k a)) -> returns (bind m k).
Proof.
  intros Hm Hk s. destruct (Hm s) as (a & s1 & E).
  rewrite (bind_step _ _ _ _ _ E). apply Hk.
Qed.

Lemma returns_forward g x : returns (forward g x).
Proof.
  unfold forward. apply returns_bind; [apply returns_get|]. intros s0.
  apply returns_bind; [apply returns_log|]. intros _.
  apply returns_bind; [|intros _; apply returns_ret].
  destruct (training s0); [apply returns_modify | apply returns_ret].
Qed.

Lemma returns_train_batch phase acc b : returns (train_batch phase acc b).
Proof.
  unfold train_batch. destruct acc as [[opt rl] rc].
  apply returns_bind; [apply returns_modify|]. intros _.
  apply returns_bind; [apply returns_log|]. intros _.
  apply returns_bind; [apply returns_forward|]. intros outputs.
  apply returns_bind; [|intros o; apply returns_ret].
  case_decide; [|apply returns_ret].
  apply returns_bind; [apply returns_get|]. intros s1.
  apply returns_bind; [apply returns_modify|]. intros _.
  apply returns_bind; [apply returns_log|]. intros _.
  apply returns_bind; [apply returns_get|]. intros s2.
  destruct (sgd_step opt (grads s2) (weights s2)) as [o w].
  apply returns_bind; [apply returns_modify|]. intros _.
  apply returns_bind; [apply returns_log|]. intros _.
  apply returns_ret.
Qed.

(** The loop over the batches of a phase always completes. *)
Lemma train_batches_return phase bs : forall acc,
  returns (for_batches (train_batch phase) bs acc).
Proof.
  induction bs as [|b bs IH]; intros acc; simpl.
  - apply returns_ret.
  - apply returns_bind; [apply returns_train_batch | apply IH].
Qed.

(** Without a batch, [running_corrects] is still the [int] it was
    initialised to when the loop over the batches ends. *)
Lemma run_phase_raises dataloaders phase l s :
  (run_phase dataloaders phase l s).1
  = match dict_get dataloaders phase with
    | None => Raise (KeyError phase)
    | Some None => Raise (TypeError "'NoneType' object is not iterable")
    | Some (Some dl) =>
        if Z.eqb (len_dataset dl) 0 then Raise ZeroDivisionError
        else match batches dl with
             | [] => Raise (AttributeError "'int' object has no attribute 'double'")
             | _ => (run_phase dataloaders phase l s).1
             end
    end.
Proof.
  destruct (dict_get dataloaders phase) as [[dl|]|] eqn:Hdl.
  - destruct (Z.eqb (len_dataset dl) 0) eqn:Hlen;
      [|destruct (batches dl) eqn:Hb; [|reflexivity]];
      unfold run_phase;
      rewrite (bind_step _ _ _ _ _ (time_run s));
      rewrite (bind_step _ _ _ _ _ (modify_run _ _));
      set (s0 := set_training _ _);
      rewrite bind_unfold; unfold loader_of; rewrite Hdl;
      unfold ret at 1; cbv iota beta.
    + destruct (train_batches_return phase (batches dl)
                  (optimizer l, PrimFloat.zero, CInt 0) s0) as (r & s1 & Hr).
      rewrite (bind_step _ _ _ _ _ Hr).
      unfold float_div_int. rewrite Hlen. reflexivity.
    + rewrite Hb. simpl. unfold float_div_int. rewrite Hlen. reflexivity.
  - unfold run_phase, loader_of. mrun. rewrite Hdl. reflexivity.
  - unfold run_phase, loader_of. mrun. rewrite Hdl. reflexivity.
Qed.
End BadLoaders.

(** X4: what the phase of a key of [dataloaders] raises when its loader
    cannot be used.  A value [None] raises [TypeError] ([None] is not
    iterable); a loader whose dataset is empty raises [ZeroDivisionError]
    at [epoch_loss], whatever it yields; one that yields no batch from a
    dataset that is not empty raises [AttributeError] at [epoch_acc],
    [running_corrects] being still the [int] [0]. *)
Theorem phase_without_data_raises `{Framework} dataloaders phase l s :
  let r := run_phase dataloaders phase l s in
  (dict_get dataloaders phase = Some None ->
   r.1 = Raise (TypeError "'NoneType' object is not iterable")) /\
  (forall dl : DataLoader,
     dict_get dataloaders phase = Some (Some dl) ->
     (len_dataset dl = 0 -> r.1 = Raise ZeroDivisionError) /\
     (len_dataset dl <> 0 -> batches dl = [] ->
      r.1 = Raise (AttributeError "'int' object has no attribute 'double'"))).
Proof.
  intros r. subst r. rewrite run_phase_raises. split.
  - intros ->. reflexivity.
  - intros dl ->. split.
    + intros ->. reflexivity.
    + intros Hlen ->.
      destruct (Z.eqb_spec (len_dataset dl) 0); [contradiction | reflexivity].
Qed.

(** ** What a call that returns was given *)

Lemma for_locals_Ok_each `{Framework} {A} (body : A -> Locals -> M State Locals) xs :
  forall l s l' s',
    for_locals body xs l s = (Ok l', s') ->
    forall x, x ∈ xs -> exists l0 s0 l1 s1, body x l0 s0 = (Ok l1, s1).
Proof.
  induction xs as [|y xs IH]; intros l s l' s' Hrun x Hx.
  - apply elem_of_nil in Hx. contradiction.
  - simpl in Hrun. apply bind_Ok in Hrun as (l1 & s1 & E1 & Hrun).
    apply elem_of_cons in Hx as [->|Hx]; [eauto 6|].
    eapply IH; eauto.
Qed.

Lemma run_phase_Ok_loader `{Framework} dataloaders phase l s l' s' :
  run_phase dataloaders phase l s = (Ok l', s') ->
  exists dl : DataLoader,
    dict_get dataloaders phase = Some (Some dl) /\
    batches dl <> [] /\ len_dataset dl <> 0.
Proof.
  intros Hrun. pose proof (run_phase_raises dataloaders phase l s) as Hr.
  rewrite Hrun in Hr. simpl in Hr.
  destruct (dict_get dataloaders phase) as [[dl|]|]; try discriminate.
  exists dl. split; [reflexivity|].
  destruct (Z.eqb_spec (len_dataset dl) 0); [discriminate|].
  split; [|assumption]. destruct (batches dl); [discriminate | discriminate].
Qed.

(** X5: [train_model] returns only if [dataloaders] has the key ['train'];
    and when the value there is not [None] and there is an epoch to run,
    only if every value of [dataloaders] is a loader that yields at least
    one batch from a dataset that is not empty. *)
Theorem train_model_needs_data `{Framework} self dataloaders spe n lr momentum
    s res s' :
  train_model self dataloaders spe n lr momentum s = (Ok res, s') ->
  exists train,
    dict_get dataloaders "train" = Some train /\
    (train <> None -> 0 < n ->
     forall phase, phase ∈ keys dataloaders ->
       exists dl : DataLoader,
         dict_get dataloaders phase = Some (Some dl) /\
         batches dl <> [] /\ len_dataset dl <> 0).
Proof.
  intros Hrun.
  apply train_model_Ok in Hrun
    as (opt & train & l_end & s_end & _ & Htrain & Hloops & _ & _).
  exists train. split; [exact Htrain|].
  intros Hsome Hn phase Hphase.
  destruct train as [dl0|]; [|congruence].
  destruct (range_pos n Hn) as [rest Hrange]. rewrite Hrange in Hloops.
  simpl in Hloops. apply bind_Ok in Hloops as (l1 & s1 & E1 & _).
  apply run_epoch_Ok in E1 as (d & lk & sk & _ & Hphases & _).
  eapply for_locals_Ok_each in Hphases as (l0 & s0 & l2 & s2 & Hp); [|exact Hphase].
  eapply run_phase_Ok_loader. exact Hp.
Qed.

(** ** Training without a validation set *)

Lemma keep_best_other `{Framework} phase a w l :
  phase <> "val" -> keep_best phase a w l = l.
Proof.
  intros Hp. unfold keep_best. rewrite bool_decide_eq_false_2 by exact Hp. reflexivity.
Qed.

Lemma run_phase_untouched `{Framework} w0 dataloaders phase l s l' s' :
  phase <> "val" -> untouched_checkpoint w0 l ->
  run_phase dataloaders phase l s = (Ok l', s') ->
  untouched_checkpoint w0 l'.
Proof.
  intros Hp (Hh & Hb & Hw) Hrun.
  apply run_phase_Ok in Hrun
    as (dl & l1 & loss & acc & tr & _ & _ & _ & _ & _ & _ & Hsame & ->).
  destruct Hsame as (Eh & Ew & Eb & _).
  rewrite keep_best_other by exact Hp. unfold untouched_checkpoint. simpl.
  repeat split; congruence.
Qed.

Lemma test_subprofile_untouched `{Framework} w0 d epoch l s l' s' :
  untouched_checkpoint w0 l ->
  test_subprofile d epoch l s = (Ok l', s') ->
  untouched_checkpoint w0 l'.
Proof.
  intros Hu Hrun. apply test_subprofile_Ok in Hrun as (_ & results & ->). exact Hu.
Qed.

(** X6: when [dataloaders] has no key ['val'], a [train_model] that returns
    has thrown its training away: the history is empty, the best accuracy
    is [0.0], and the state dict loaded back into the model at the end is
    the one it had when [train_model] was called. *)
Theorem training_without_validation_is_discarded `{Framework} self dataloaders spe
    n lr momentum s history best prof sub s' :
  "val" ∉ keys dataloaders ->
  train_model self dataloaders spe n lr momentum s
  = (Ok (history, best, prof, sub), s') ->
  history = [] /\ best = PrimFloat.zero /\ weights s' = weights s.
Proof.
  intros Hval Hrun.
  apply train_model_Ok in Hrun
    as (opt & train & l_end & s_end & _ & _ & Hloops & Hres & ->).
  injection Hres as -> -> -> ->.
  set (l0 := initial_locals opt (weights s)) in *.
  assert (H0 : untouched_checkpoint (weights s) l0) by (repeat split).
  assert (Hend : untouched_checkpoint (weights s) l_end).
  { destruct train as [dl|].
    - eapply (for_locals_Ok (run_epoch dataloaders spe)
                (fun l _ => untouched_checkpoint (weights s) l));
        [|exact H0|exact Hloops].
      intros epoch l s1 l' s1' Hu Hepoch.
      apply run_epoch_Ok in Hepoch as (d & lk & sk & _ & Hphases & Hrest).
      assert (Hk : untouched_checkpoint (weights s) lk).
      { eapply (for_locals_Ok_inv (run_phase dataloaders)
                  (fun _ l _ => untouched_checkpoint (weights s) l)
                  (keys dataloaders)) with (pre := []);
          [|reflexivity| |exact Hphases]; [|exact Hu].
        intros pre p suf l2 s2 l2' s2' Hkeys Hu2 Hp.
        eapply run_phase_untouched; [|exact Hu2|exact Hp].
        intros ->. apply Hval. rewrite Hkeys. apply elem_of_app. right. left. }
      simpl in Hrest. destruct (dict_mem d epoch).
      + eapply test_subprofile_untouched; [|exact Hrest]. exact Hk.
      + destruct Hrest as [-> _]. exact Hk.
    - destruct Hloops as (d & _ & Hloops).
      eapply (for_locals_Ok (test_subprofile d)
                (fun l _ => untouched_checkpoint (weights s) l));
        [|exact H0|exact Hloops].
      intros. eapply test_subprofile_untouched; eauto. }
  destruct Hend as (Hh & Hb & Hw). simpl. auto.
Qed.

(** ** The epochs of [subprofile_test_epochs] *)

Lemma keys_dict_set {K V} `{EqDecision K} (d : dict K V) k v :
  keys (dict_set d k v) = if decide (k ∈ keys d) then keys d else (keys d ++ [k])%list.
Proof.
  unfold keys. induction d as [|[k0 v0] d IH].
  - destruct (decide (k ∈ ([] : dict K V).*1)) as [Hc|_]; [|reflexivity].
    apply elem_of_nil in Hc. contradiction.
  - cbn [dict_set]. destruct (decide (k0 = k)) as [->|Hne].
    + rewrite !fmap_cons. cbn [fst]. rewrite decide_True by left. reflexivity.
    + rewrite !fmap_cons, IH. cbn [fst].
      destruct (decide (k ∈ d.*1)) as [Hin|Hin].
      * rewrite decide_True by (right; exact Hin). reflexivity.
      * rewrite decide_False; [reflexivity|].
        intros Hc. apply elem_of_cons in Hc as [->|Hc]; contradiction.
Qed.

Lemma range_NoDup n : NoDup (range n).
Proof.
  unfold range. apply NoDup_fmap_2; [apply Nat2Z.inj'|apply NoDup_seq].
Qed.

Section SubprofileEpochs.
Context `{Framework}.

Lemma test_subprofile_Ok_results spe epoch l s l' s' :
  test_subprofile spe epoch l s = (Ok l', s') ->
  exists this_epoch,
    l' = set_subprofile_test_results
           (dict_set (subprofile_test_results l) epoch this_epoch) l.
Proof.
  unfold test_subprofile. intros Hrun.
  apply bind_Ok in Hrun as (tasks & s1 & _ & Hrun).
  apply bind_Ok in Hrun as (d & s2 & _ & Hrun).
  injection Hrun as <- _. eauto.
Qed.

Lemma run_phase_results dataloaders phase l s l' s' :
  run_phase dataloaders phase l s = (Ok l', s') ->
  subprofile_test_results l' = subprofile_test_results l.
Proof.
  intros Hrun.
  apply run_phase_Ok in Hrun
    as (dl & l1 & loss & acc & tr & _ & _ & _ & _ & _ & _ & Hsame & ->).
  destruct Hsame as (_ & _ & _ & _ & _ & <-).
  unfold record_metrics, keep_best. simpl.
  destruct (bool_decide (phase = "val") && fgt acc (best_acc l1)); simpl; auto.
  destruct (fgt acc (best_acc l1)); reflexivity.
Qed.

Lemma run_epoch_results dataloaders d epoch l s l' s' :
  run_epoch dataloaders (Some d) epoch l s = (Ok l', s') ->
  keys (subprofile_test_results l')
  = if decide (epoch ∈ keys d)
    then keys (dict_set (subprofile_test_results l) epoch ([] : dict Z float))
    else keys (subprofile_test_results l).
Proof.
  intros Hrun.
  apply run_epoch_Ok in Hrun as (d' & lk & sk & [= <-] & Hphases & Hrest).
  assert (Hk : subprofile_test_results lk = subprofile_test_results l).
  { eapply (for_locals_Ok (run_phase dataloaders)
              (fun l0 _ => subprofile_test_results l0 = subprofile_test_results l));
      [| |exact Hphases]; [|reflexivity].
    intros p l0 s0 l1 s1 E0 Hp. rewrite <- E0. eapply run_phase_results. exact Hp. }
  simpl in Hrest. unfold dict_mem in Hrest.
  destruct (decide (epoch ∈ keys d)) as [Hin|Hin].
  - rewrite bool_decide_eq_true_2 in Hrest by exact Hin.
    apply test_subprofile_Ok_results in Hrest as (this_epoch & ->). simpl.
    rewrite Hk, !keys_dict_set. reflexivity.
  - rewrite bool_decide_eq_false_2 in Hrest by exact Hin.
    destruct Hrest as [-> _]. simpl. rewrite Hk. reflexivity.
Qed.
End SubprofileEpochs.

(** X7: after training, the keys of the returned [subprofile_test_results]
    are the epochs of [range(num_epochs)] that are keys of
    [subprofile_test_epochs], in increasing order: the tasks were tested at
    these epochs and at no other, and a key of [subprofile_test_epochs]
    that is not below [num_epochs] is ignored. *)
Theorem subprofile_epochs_tested `{Framework} self dataloaders d n lr momentum s
    history best prof sub s' (dl : DataLoader) :
  dict_get dataloaders "train" = Some (Some dl) ->
  train_model self dataloaders (Some d) n lr momentum s
  = (Ok (history, best, prof, sub), s') ->
  keys sub = filter (fun epoch => epoch ∈ keys d) (range n).
Proof.
  intros Htrain Hrun.
  apply train_model_Ok in Hrun
    as (opt & train & l_end & s_end & _ & Ht & Hloops & Hres & _).
  rewrite Htrain in Ht. injection Ht as <-. injection Hres as -> -> -> ->.
  eapply (for_locals_Ok_inv (run_epoch dataloaders (Some d))
            (fun pre l _ => keys (subprofile_test_results l)
                            = filter (fun epoch => epoch ∈ keys d) pre)
            (range n)) with (pre := []); [|reflexivity| |exact Hloops]; [|reflexivity].
  intros pre epoch suf l s1 l' s1' Hrange Hinv Hepoch.
  apply run_epoch_results in Hepoch. rewrite Hepoch, filter_app, keys_dict_set, Hinv.
  assert (Hfresh : epoch ∉ pre).
  { pose proof (range_NoDup n) as Hnd. rewrite Hrange in Hnd.
    apply NoDup_app in Hnd as (_ & Hdisj & _).
    intros Hin. apply (Hdisj epoch Hin). left. }
  destruct (decide (epoch ∈ keys d)) as [Hin|Hin].
  - rewrite decide_False.
    + rewrite filter_cons_True by exact Hin. reflexivity.
    + intros Hc. apply list_elem_of_filter in Hc as [_ Hc]. contradiction.
  - rewrite filter_cons_False by exact Hin. rewrite app_nil_r. reflexivity.
Qed.

(** ** Inference only: [dataloaders['train']] is [None] *)
Section InferenceOnly.
Context `{Framework}.

Lemma for_tasks_Ok tasks : forall d0 s res s',
  for_tasks tasks d0 s = (Ok res, s') ->
  weights s' = weights s /\
  res = foldl (fun d task => dict_set d task.1 (accuracy (weights s) task.2)) d0 tasks.
Proof.
  induction tasks as [|t ts IH]; intros d0 s res s' Hrun.
  - injection Hrun as <- <-. auto.
  - simpl in Hrun. apply bind_Ok in Hrun as (d1 & s1 & E1 & Hrun).
    unfold infer_task in E1. apply bind_Ok in E1 as (a & s2 & E2 & E1).
    injection E1 as <- <-.
    rewrite infer_spec in E2.
    assert (Ha : a = accuracy (weights s) t.2 /\ weights s2 = weights s).
    { unfold accuracy. destruct (batches t.2); [discriminate|].
      injection E2 as <- <-. auto. }
    destruct Ha as [-> Hw].
    apply IH in Hrun as [Hw' ->]. rewrite Hw. split; [congruence | reflexivity].
Qed.

Lemma test_subprofile_Ok_values d epoch l s l' s' :
  test_subprofile d epoch l s = (Ok l', s') ->
  exists tasks,
    dict_get d epoch = Some tasks /\
    weights s' = weights s /\
    l' = set_subprofile_test_results
           (dict_set (subprofile_test_results l) epoch
              (task_accuracies (weights s) tasks)) l.
Proof.
  unfold test_subprofile. intros Hrun.
  apply bind_Ok in Hrun as (tasks & s1 & E1 & Hrun).
  destruct (dict_get d epoch) as [tasks'|]; [|discriminate].
  injection E1 as -> ->.
  apply bind_Ok in Hrun as (res & s2 & E2 & Hrun).
  apply for_tasks_Ok in E2 as [Hw ->].
  injection Hrun as <- <-. exists tasks. auto.
Qed.

(** With distinct task ids, the accuracy of each task is under its id. *)
Lemma foldl_dict_set_other w (tasks : dict Z DataLoader) : forall d0 t,
  t ∉ keys tasks ->
  dict_get (foldl (fun d task => dict_set d task.1 (accuracy w task.2)) d0 tasks) t
  = dict_get d0 t.
Proof.
  induction tasks as [|[t0 dl0] ts IH]; intros d0 t Ht; [reflexivity|].
  unfold keys in Ht. rewrite fmap_cons in Ht. apply not_elem_of_cons in Ht as [Hne Ht].
  cbn [fst] in Hne. simpl. rewrite IH by exact Ht. rewrite dict_get_set.
  rewrite decide_False by congruence. reflexivity.
Qed.

Lemma foldl_dict_set_lookup w (tasks : dict Z DataLoader) t : forall d0 : dict Z float,
  NoDup (keys tasks) ->
  dict_get (foldl (fun d task => dict_set d task.1 (accuracy w task.2)) d0 tasks) t
  = match dict_get tasks t with
    | Some dl => Some (accuracy w dl)
    | None => dict_get d0 t
    end.
Proof.
  induction tasks as [|[t0 dl0] ts IH]; intros d0 Hnd; [reflexivity|].
  unfold keys in Hnd. rewrite fmap_cons in Hnd. apply NoDup_cons in Hnd as [Hfresh Hnd].
  cbn [fst] in Hfresh. simpl. destruct (decide (t0 = t)) as [->|Hne].
  - rewrite foldl_dict_set_other by exact Hfresh.
    rewrite dict_get_set, decide_True by reflexivity. reflexivity.
  - rewrite IH by exact Hnd. rewrite dict_get_set, decide_False by exact Hne.
    reflexivity.
Qed.

Lemma task_accuracies_lookup w (tasks : dict Z DataLoader) t :
  NoDup (keys tasks) ->
  dict_get (task_accuracies w tasks) t = accuracy w <$> dict_get tasks t.
Proof.
  intros Hnd. unfold task_accuracies. rewrite foldl_dict_set_lookup by exact Hnd.
  destruct (dict_get tasks t); reflexivity.
Qed.

Lemma for_tasks_quiet tasks : forall d0, keeps quiet (for_tasks tasks d0).
Proof.
  induction tasks as [|t ts IH]; intros d0; simpl.
  - apply keeps_ret, quiet_refl.
  - apply (keeps_bind quiet quiet_trans); [|apply IH].
    unfold infer_task. apply (keeps_bind quiet quiet_trans).
    + intros s. apply infer_quiet.
    + intros a. apply keeps_ret, quiet_refl.
Qed.

Lemma test_subprofile_quiet d epoch l : keeps quiet (test_subprofile d epoch l).
Proof.
  unfold test_subprofile. apply (keeps_bind quiet quiet_trans).
  { destruct (dict_get d epoch); [apply keeps_ret | apply keeps_raise]; apply quiet_refl. }
  intros tasks. apply (keeps_bind quiet quiet_trans); [apply for_tasks_quiet|].
  intros res. apply keeps_ret, quiet_refl.
Qed.

(** The loop over the epochs of [subprofile_test_epochs], when it completes:
    the model is as it was, and so are the local variables but for the
    results, which hold the accuracies of the tasks of the epochs seen. *)
Lemma inference_loop_Ok d w l0 es : forall l s l' s',
  for_locals (test_subprofile d) es l s = (Ok l', s') ->
  forall pre,
    weights s = w ->
    (forall epoch, dict_get (subprofile_test_results l) epoch
                   = if decide (epoch ∈ pre) then task_accuracies w <$> dict_get d epoch
                     else None) ->
    (exists r, l = set_subprofile_test_results r l0) ->
    weights s' = w /\
    (forall epoch, dict_get (subprofile_test_results l') epoch
                   = if decide (epoch ∈ (pre ++ es)%list)
                     then task_accuracies w <$> dict_get d epoch
                     else None) /\
    (exists r, l' = set_subprofile_test_results r l0).
Proof.
  induction es as [|x es IH]; intros l s l' s' Hrun pre Hw Hres Hl.
  - injection Hrun as <- <-. rewrite app_nil_r. auto.
  - simpl in Hrun. apply bind_Ok in Hrun as (l1 & s1 & E1 & Hrun).
    apply test_subprofile_Ok_values in E1 as (tasks & Hx & Hw1 & ->).
    replace (pre ++ x :: es)%list with ((pre ++ [x]) ++ es)%list
      by (rewrite <- app_assoc; reflexivity).
    eapply IH; [exact Hrun | congruence | |].
    + intros epoch. simpl. rewrite dict_get_set, Hw.
      destruct (decide (x = epoch)) as [->|Hne].
      * rewrite decide_True by (apply elem_of_app; right; left).
        rewrite Hx. reflexivity.
      * rewrite Hres. destruct (decide (epoch ∈ pre)) as [Hin|Hin].
        -- rewrite decide_True by (apply elem_of_app; left; exact Hin). reflexivity.
        -- rewrite decide_False; [reflexivity|].
           intros Hc. apply elem_of_app in Hc as [Hc|Hc]; [contradiction|].
           apply list_elem_of_singleton in Hc. congruence.
    + destruct Hl as [r ->]. eexists. reflexivity.
Qed.
End InferenceOnly.

(** X8: when [dataloaders['train']] is [None], [train_model] does not
    train: whether it returns or raises, the state dict is as it was and
    the framework was asked for inference only.  When it returns, the
    history and the profile are empty, the best accuracy is [0.0],
    [subprofile_test_epochs] was a dict, and the results hold, for each of
    its epochs and no other, the accuracies of that epoch's tasks by the
    model as it was at the call; with distinct task ids, each task's
    accuracy is under its id. *)
Theorem inference_only_run `{Framework} self dataloaders spe n lr momentum s :
  dict_get dataloaders "train" = Some None ->
  let r := train_model self dataloaders spe n lr momentum s in
  quiet s r.2 /\
  forall history best prof sub,
    r.1 = Ok (history, best, prof, sub) ->
    history = [] /\ best = PrimFloat.zero /\ prof = [] /\
    exists d,
      spe = Some d /\
      (forall epoch,
         dict_get sub epoch = task_accuracies (weights s) <$> dict_get d epoch) /\
      (forall tasks task_id,
         NoDup (keys tasks) ->
         dict_get (task_accuracies (weights s) tasks) task_id
         = accuracy (weights s) <$> dict_get tasks task_id).
Proof.
  intros Htrain r.
  assert (Hr : r = train_model self dataloaders spe n lr momentum s) by reflexivity.
  clearbody r. unfold train_model in Hr.
  rewrite (bind_step _ _ _ _ _ (time_run s)) in Hr. set (st := set_ticks _ s) in Hr.
  assert (Hqt : quiet s st).
  { split; [reflexivity|]. apply extends_same_trace; [constructor | reflexivity]. }
  rewrite bind_unfold, optim_SGD_run in Hr.
  destruct (sgd_init (keys (params_of self st)) lr momentum) as [opt|e];
    [|subst r; split; [exact Hqt | discriminate]].
  cbv iota beta in Hr. set (s0 := listed self st) in Hr.
  assert (Hw0 : weights s0 = weights s) by exact (listed_weights self st).
  assert (Hq0 : quiet s s0).
  { split; [exact Hw0|].
    apply extends_same_trace; [constructor | exact (listed_trace self st)]. }
  rewrite bind_unfold in Hr. unfold get at 1 in Hr. cbv iota beta in Hr.
  rewrite bind_unfold in Hr. unfold subscript in Hr. rewrite Htrain in Hr.
  unfold lift at 1, ret at 1 in Hr. cbv iota beta in Hr.
  set (l0 := initial_locals opt (weights s0)) in Hr.
  rewrite bind_unfold in Hr.
  destruct spe as [d|]; [|subst r; split; [exact Hq0 | discriminate]].
  rewrite bind_unfold in Hr. unfold keys_of at 1, ret at 1 in Hr. cbv iota beta in Hr.
  pose proof (keeps_for_locals quiet quiet_refl quiet_trans
                (test_subprofile d) (keys d) (test_subprofile_quiet d) l0 s0) as Hq.
  destruct (for_locals (test_subprofile d) (keys d) l0 s0) as [[l1|e] s1] eqn:Hloop;
    simpl in Hq;
    [|subst r; split; [exact (quiet_trans _ _ _ Hq0 Hq) | discriminate]].
  apply inference_loop_Ok with (w := weights s) (l0 := l0) (pre := []) in Hloop
    as (Hw1 & Hres & r1 & ->); [|exact Hw0|intros; reflexivity|exists []; reflexivity].
  rewrite bind_unfold in Hr. unfold ret at 1 in Hr. cbv iota beta in Hr.
  rewrite (bind_step _ _ _ _ _ (time_run s1)) in Hr.
  rewrite bind_unfold in Hr. cbn [best_model_wts set_subprofile_test_results l0
                                   initial_locals] in Hr.
  rewrite load_state_dict_same in Hr by (simpl; rewrite Hw1, Hw0; reflexivity).
  unfold ret in Hr. subst r.
  split.
  - destruct Hq as [_ Hext]. destruct Hq0 as [_ Hext0].
    split; [exact Hw0|].
    eapply extends_trans; [intros; apply Forall_app; auto|exact Hext0|].
    destruct Hext as (tr & Htr & Hall). exists tr. auto.
  - intros history best prof sub [= <- <- <- <-].
    repeat split. exists d. split; [reflexivity|]. split.
    + intros epoch. rewrite Hres. simpl.
      destruct (decide (epoch ∈ keys d)) as [Hin|Hin]; [reflexivity|].
      rewrite dict_get_None by exact Hin. reflexivity.
    + intros tasks t Hnd. apply task_accuracies_lookup. exact Hnd.
Qed.

(** ** What training leaves alone

    A component of the state that the state dict, the mode, the gradients,
    the clock and the trace do not bear on is left alone by the loops of
    [train_model] and by [infer]: of the whole of [train_model], only the
    construction of the optimiser can change it. *)
Section Frame.
Context `{Framework} {X : Type} (f : State -> X).
Hypothesis f_weights : forall w s, f (set_weights w s) = f s.
Hypothesis f_training : forall b s, f (set_training b s) = f s.
Hypothesis f_grads : forall g s, f (set_grads g s) = f s.
Hypothesis f_ticks : forall n s, f (set_ticks n s) = f s.
Hypothesis f_trace : forall t s, f (set_trace t s) = f s.

Lemma same_refl s : same f s s.
Proof. reflexivity. Qed.

Lemma same_trans s1 s2 s3 : same f s1 s2 -> same f s2 s3 -> same f s1 s3.
Proof. unfold same. congruence. Qed.

Local Abbreviation fbind := (keeps_bind (same f) same_trans).
Local Abbreviation fret := (keeps_ret (same f) same_refl).
Local Abbreviation fraise := (keeps_raise (same f) same_refl).

Ltac frame :=
  intros;
  repeat first [rewrite f_weights | rewrite f_training | rewrite f_grads
               | rewrite f_ticks | rewrite f_trace];
  reflexivity.

Lemma same_modify (g : State -> State) :
  (forall s, f (g s) = f s) -> keeps (same f) (modify g).
Proof. intros Hg s. apply Hg. Qed.

Lemma same_time : keeps (same f) time.
Proof. intros s. apply f_ticks. Qed.

Lemma same_log e : keeps (same f) (log e).
Proof. intros s. apply f_trace. Qed.

Lemma same_forward g x : keeps (same f) (forward g x).
Proof.
  unfold forward. apply fbind; [apply keeps_get, same_refl|]. intros s0.
  apply fbind; [apply same_log|]. intros _.
  apply fbind; [|intros _; apply fret].
  destruct (training s0); [|apply fret].
  apply same_modify. frame.
Qed.

Lemma same_train_batch phase acc b : keeps (same f) (train_batch phase acc b).
Proof.
  unfold train_batch. destruct acc as [[opt rl] rc].
  apply fbind; [apply same_modify; frame|]. intros _.
  apply fbind; [apply same_log|]. intros _.
  apply fbind; [apply same_forward|]. intros outputs.
  apply fbind; [|intros o; apply fret].
  case_decide; [|apply fret].
  apply fbind; [apply keeps_get, same_refl|]. intros s1.
  apply fbind; [apply same_modify; frame|]. intros _.
  apply fbind; [apply same_log|]. intros _.
  apply fbind; [apply keeps_get, same_refl|]. intros s2.
  destruct (sgd_step opt (grads s2) (weights s2)) as [o w].
  apply fbind; [apply same_modify; frame|]. intros _.
  apply fbind; [apply same_log|]. intros _.
  apply fret.
Qed.

Lemma same_run_phase dataloaders phase l :
  keeps (same f) (run_phase dataloaders phase l).
Proof.
  unfold run_phase.
  apply fbind; [apply same_time|]. intros start_time.
  apply fbind; [apply same_modify; frame|]. intros _.
  apply fbind.
  { unfold loader_of. destruct (dict_get dataloaders phase) as [[d|]|];
      [apply fret | apply fraise | apply fraise]. }
  intros dl. apply fbind.
  { apply (keeps_for_batches (same f) same_refl same_trans).
    intros. apply same_train_batch. }
  intros r. apply fbind.
  { unfold float_div_int.
    destruct (Z.eqb (len_dataset dl) 0); [apply fraise | apply fret]. }
  intros epoch_loss. apply fbind.
  { destruct r.2; [apply fraise | apply fret]. }
  intros d. apply fbind.
  { case_decide; [|apply fret]. unfold scheduler_step.
    apply fbind; [apply same_log|]. intros _.
    destruct (plateau_step _ _ _) as [sc o]. apply fret. }
  intros l'. apply fbind; [apply same_time|]. intros end_time.
  apply fbind; [apply keeps_get, same_refl|]. intros s2.
  apply fbind; [apply same_log|]. intros _. apply fret.
Qed.

Lemma same_infer (dl : DataLoader) : keeps (same f) (infer dl).
Proof. intros s. rewrite infer_spec. unfold same, after_infer. cbn [snd]. frame. Qed.

Lemma same_test_subprofile d epoch l : keeps (same f) (test_subprofile d epoch l).
Proof.
  unfold test_subprofile. apply fbind.
  { destruct (dict_get d epoch); [apply fret | apply fraise]. }
  intros tasks. apply fbind; [|intros; apply fret].
  generalize ([] : dict Z float).
  induction tasks as [|t ts IH]; intros d0; simpl; [apply fret|].
  apply fbind; [|apply IH].
  unfold infer_task. apply fbind; [apply same_infer|]. intros a. apply fret.
Qed.

Lemma same_run_epoch dataloaders spe epoch l :
  keeps (same f) (run_epoch dataloaders spe epoch l).
Proof.
  unfold run_epoch.
  apply fbind; [apply same_time|]. intros t.
  apply fbind; [apply same_log|]. intros _.
  apply fbind.
  { apply (keeps_for_locals (same f) same_refl same_trans).
    intros. apply same_run_phase. }
  intros lk. apply fbind.
  { destruct spe; [apply fret | apply fraise]. }
  intros d. destruct (dict_mem d epoch); [|apply fret].
  apply same_test_subprofile.
Qed.

Lemma same_load_state_dict new : keeps (same f) (load_state_dict new).
Proof. intros s. unfold same. rewrite load_state_dict_state. apply f_weights. Qed.

(** However [train_model] ends, the component is as the construction of
    the optimiser left it. *)
Lemma same_train_model self dataloaders spe n lr momentum s :
  f (train_model self dataloaders spe n lr momentum s).2
  = f (optim_SGD self lr momentum (set_ticks (S (ticks s)) s)).2.
Proof.
  unfold train_model. rewrite (bind_step _ _ _ _ _ (time_run s)).
  rewrite bind_unfold.
  destruct (optim_SGD self lr momentum (set_ticks (S (ticks s)) s))
    as [[opt|e] s1]; [|reflexivity].
  cbn [snd]. revert s1.
  change (keeps (same f)
            (s <- get ;;
             train <- lift (subscript dataloaders "train") ;;
             l <- match train with
                  | None =>
                      spe <- keys_of spe ;;
                      for_locals (test_subprofile spe) (keys spe)
                        (initial_locals opt (weights s))
                  | Some _ => ret (initial_locals opt (weights s))
                  end ;;
             l <- match train with
                  | Some _ => for_locals (run_epoch dataloaders spe) (range n) l
                  | None => ret l
                  end ;;
             now <- time ;;
             load_state_dict (best_model_wts l) ;;;
             ret (val_acc_history l, best_acc l, profile l,
                  subprofile_test_results l))).
  apply fbind; [apply keeps_get, same_refl|]. intros s0.
  apply fbind; [apply keeps_lift, same_refl|]. intros train.
  apply fbind.
  { destruct train; [apply fret|].
    apply fbind; [destruct spe; [apply fret | apply fraise]|].
    intros d. apply (keeps_for_locals (same f) same_refl same_trans).
    intros. apply same_test_subprofile. }
  intros l1. apply fbind.
  { destruct train; [|apply fret].
    apply (keeps_for_locals (same f) same_refl same_trans).
    intros. apply same_run_epoch. }
  intros l2. apply fbind; [apply same_time|]. intros now.
  apply fbind; [apply same_load_state_dict | intros; apply fret].
Qed.
End Frame.

(** X9: [train_model] and [infer] write no file, whether they return or
    raise: the best state dict is kept in memory only, and a caller that
    wants it on disk has to call [save]. *)
Theorem training_never_touches_files `{Framework} self dataloaders spe n lr
    momentum (dataloader : DataLoader) s :
  files (train_model self dataloaders spe n lr momentum s).2 = files s /\
  files (infer dataloader s).2 = files s.
Proof.
  split.
  - rewrite (same_train_model files) by reflexivity.
    rewrite optim_SGD_files. reflexivity.
  - apply (same_infer files); reflexivity.
Qed.

(** ** What a phase asks of the framework, and what it reports *)
Section Protocol.
Context `{Framework}.

Lemma eval_batch_run phase opt rl rc b s :
  phase <> "train" -> training s = false ->
  train_batch phase (opt, rl, rc) b s
  = (Ok (opt, PrimFloat.add rl (batch_loss (weights s) b),
         add_tensor rc (num_correct (argmax1 (model_call false (weights s) (inputs b)))
                          (labels b))),
     set_trace (trace s ++ [EvZeroGrad; EvForward false false])%list
       (set_grads (zero_grad (grads s)) s)).
Proof.
  intros Hp Hs. unfold train_batch, forward, log.
  rewrite bool_decide_eq_false_2 by exact Hp.
  rewrite decide_False by exact Hp.
  mrun. simpl. rewrite Hs. simpl. rewrite <- app_assoc. reflexivity.
Qed.

(** The batches of a phase that does not train: the loss and the count of
    correct predictions are those of the model as it is, which does not
    change. *)
Lemma eval_batches_run phase bs : phase <> "train" -> forall opt rl rc s,
  training s = false ->
  exists s',
    for_batches (train_batch phase) bs (opt, rl, rc) s
    = (Ok (opt,
           foldl (fun a b => PrimFloat.add a (batch_loss (weights s) b)) rl bs,
           match bs with
           | [] => rc
           | _ => CTensor (count_value rc + total_correct (weights s) bs)
           end), s') /\
    weights s' = weights s /\ training s' = false /\ ticks s' = ticks s /\
    trace s' = (trace s ++ concat (replicate (length bs)
                                     [EvZeroGrad; EvForward false false]))%list.
Proof.
  intros Hp. induction bs as [|b bs IH]; intros opt rl rc s Hs.
  - exists s. simpl. rewrite app_nil_r. auto.
  - cbn [for_batches]. rewrite (bind_step _ _ _ _ _ (eval_batch_run phase opt rl rc b s Hp Hs)).
    match goal with |- context [for_batches _ bs _ ?s1] =>
      destruct (IH opt (PrimFloat.add rl (batch_loss (weights s) b))
                  (add_tensor rc (num_correct
                     (argmax1 (model_call false (weights s) (inputs b))) (labels b)))
                  s1 Hs) as (s' & E & Hw & Ht & Hk & Htr)
    end.
    exists s'. simpl in E, Hw, Hk, Htr. rewrite Hw, Ht, Hk, Htr.
    split; [|repeat split; simpl; rewrite <- app_assoc; reflexivity].
    rewrite E. clear E. f_equal. f_equal. f_equal.
    destruct bs; unfold add_tensor; simpl; apply (f_equal CTensor); lia.
Qed.

Lemma train_batch_trace phase acc b s r s' :
  training s = bool_decide (phase = "train") ->
  train_batch phase acc b s = (Ok r, s') ->
  training s' = training s /\
  trace s' = (trace s ++ batch_events phase)%list.
Proof.
  intros Hs. destruct acc as [[opt rl] rc]. unfold batch_events.
  destruct (decide (phase = "train")) as [->|Hp].
  - unfold train_batch, forward, log. mrun. simpl. rewrite Hs. simpl.
    destruct (sgd_step _ _ _) as [o w]. intros [= <- <-]. simpl.
    rewrite <- !app_assoc. auto.
  - rewrite eval_batch_run; [|exact Hp|].
    + intros [= <- <-]. auto.
    + rewrite Hs. apply bool_decide_eq_false_2. exact Hp.
Qed.

Lemma train_batches_trace phase bs : forall acc s r s',
  training s = bool_decide (phase = "train") ->
  for_batches (train_batch phase) bs acc s = (Ok r, s') ->
  training s' = training s /\
  trace s' = (trace s ++ concat (replicate (length bs) (batch_events phase)))%list.
Proof.
  induction bs as [|b bs IH]; intros acc s r s' Hs Hrun.
  - injection Hrun as <- <-. simpl. rewrite app_nil_r. auto.
  - simpl in Hrun. apply bind_Ok in Hrun as (r1 & s1 & E1 & Hrun).
    apply train_batch_trace in E1 as [Ht1 Htr1]; [|exact Hs].
    apply IH in Hrun as [Ht Htr]; [|congruence].
    split; [congruence|]. rewrite Htr, Htr1. simpl. rewrite <- app_assoc. reflexivity.
Qed.
End Protocol.

(** X10: a phase that completes has put the model in training mode when
    it is ['train'] and in evaluation mode otherwise, and the model is
    still in that mode when the phase ends.  It has asked the framework,
    for each batch of its loader in turn, to clear the gradients and for a
    forward pass, followed in ['train'] by the backward pass and the
    optimiser step, then in ['train'] for one scheduler step with the loss
    of the epoch, and then reported the loss and the accuracy. *)
Theorem phase_protocol `{Framework} dataloaders phase l s l' s' :
  run_phase dataloaders phase l s = (Ok l', s') ->
  exists (dl : DataLoader) epoch_loss epoch_acc,
    dict_get dataloaders phase = Some (Some dl) /\
    training s' = bool_decide (phase = "train") /\
    trace s'
    = (trace s
       ++ concat (replicate (length (batches dl)) (batch_events phase))
       ++ scheduler_events phase epoch_loss
       ++ [EvPhaseDone phase epoch_loss epoch_acc (weights s')])%list.
Proof.
  unfold run_phase. intros Hrun.
  rewrite (bind_step _ _ _ _ _ (time_run s)) in Hrun.
  rewrite (bind_step _ _ _ _ _ (modify_run _ _)) in Hrun.
  apply bind_Ok in Hrun as (dl & s1 & E1 & Hrun).
  apply loader_of_Ok in E1 as [Hdl ->].
  apply bind_Ok in Hrun as (r & s2 & E2 & Hrun).
  apply train_batches_trace in E2 as [T2 Tr2]; [|reflexivity].
  simpl in T2, Tr2.
  apply bind_Ok in Hrun as (epoch_loss & s3 & E3 & Hrun).
  apply float_div_int_Ok in E3 as (Hlen & -> & ->).
  apply bind_Ok in Hrun as (d & s4 & E4 & Hrun).
  apply double_Ok in E4 as [-> ->].
  exists dl. unfold scheduler_events.
  destruct (decide (phase = "train")) as [Hp|Hp].
  - unfold scheduler_step in Hrun.
    rewrite bind_unfold in Hrun.
    rewrite (bind_step _ _ _ _ _ (log_run _ _)) in Hrun.
    destruct (plateau_step _ _ _) as [sc o].
    unfold ret at 1 in Hrun.
    rewrite (bind_step _ _ _ _ _ (time_run _)) in Hrun.
    mrun in Hrun. unfold log in Hrun. mrun in Hrun.
    injection Hrun as <- <-.
    eexists _, _. simpl. split; [exact Hdl|]. split; [exact T2|].
    rewrite Tr2, <- !app_assoc. reflexivity.
  - unfold ret at 1 in Hrun. rewrite bind_unfold in Hrun.
    rewrite (bind_step _ _ _ _ _ (time_run _)) in Hrun.
    mrun in Hrun. unfold log in Hrun. mrun in Hrun.
    injection Hrun as <- <-.
    eexists _, _. simpl. split; [exact Hdl|]. split; [exact T2|].
    rewrite Tr2, <- !app_assoc. reflexivity.
Qed.

(** X11: a phase other than ['train'], on a loader that yields a batch from
    a dataset that is not empty, returns.  It leaves the state dict as it
    was; its loss is the sum over the batches of [loss.item() *
    inputs.size(0)] divided by the size of the dataset, and its accuracy the
    number of correct predictions divided by that size, both by the model
    as it was when the phase began; these and the size of the dataset are
    what it stores in [profile_data]. *)
Theorem evaluation_phase_reports `{Framework} dataloaders phase l s
    (dl : DataLoader) :
  phase <> "train" ->
  dict_get dataloaders phase = Some (Some dl) ->
  batches dl <> [] ->
  len_dataset dl <> 0 ->
  let epoch_loss := PrimFloat.div (total_loss (weights s) (batches dl))
                      (float_of_int (len_dataset dl)) in
  let epoch_acc := accuracy (weights s) dl in
  exists l' s',
    run_phase dataloaders phase l s = (Ok l', s') /\
    weights s' = weights s /\
    last (trace s') = Some (EvPhaseDone phase epoch_loss epoch_acc (weights s)) /\
    pd_get (profile_data l') phase "loss" = PyFloat epoch_loss /\
    pd_get (profile_data l') phase "acc" = PyFloat epoch_acc /\
    pd_get (profile_data l') phase "num_samples" = PyInt (len_dataset dl).
Proof.
  intros Hp Hdl Hne Hlen epoch_loss epoch_acc. unfold run_phase.
  rewrite (bind_step _ _ _ _ _ (time_run s)).
  rewrite (bind_step _ _ _ _ _ (modify_run _ _)).
  rewrite bool_decide_eq_false_2 by exact Hp.
  set (s1 := set_training false (set_ticks (S (ticks s)) s)).
  assert (E1 : loader_of dataloaders phase s1 = (Ok dl, s1)).
  { unfold loader_of. rewrite Hdl. reflexivity. }
  rewrite (bind_step _ _ _ _ _ E1).
  destruct (eval_batches_run phase (batches dl) Hp (optimizer l) PrimFloat.zero
              (CInt 0) s1 eq_refl) as (s2 & E2 & Hw2 & Ht2 & Hk2 & Htr2).
  rewrite (bind_step _ _ _ _ _ E2). cbn [fst snd].
  unfold float_div_int.
  destruct (Z.eqb_spec (len_dataset dl) 0) as [|_]; [contradiction|].
  rewrite bind_unfold. unfold ret at 1. cbv iota beta.
  assert (Ed : double (match batches dl with
                       | [] => CInt 0
                       | _ :: _ => CTensor (count_value (CInt 0)
                                             + total_correct (weights s1) (batches dl))
                       end) s2
               = (Ok (float_of_int (total_correct (weights s) (batches dl))), s2)).
  { destruct (batches dl); [congruence | reflexivity]. }
  rewrite (bind_step _ _ _ _ _ Ed).
  rewrite decide_False by exact Hp.
  rewrite bind_unfold. unfold ret at 1. cbv iota beta.
  rewrite (bind_step _ _ _ _ _ (time_run _)).
  mrun. unfold log. mrun.
  eexists _, _. split; [reflexivity|].
  split; [simpl; exact Hw2|].
  split; [simpl; rewrite last_snoc, Hw2; reflexivity|].
  rewrite !record_metrics_get. rewrite !(decide_True (P := phase = phase)) by reflexivity.
  simpl. repeat split.
Qed.

(** ** The state dict of a constructed model *)
Section Constructed.
Context `{Framework}.

Lemma initialize_last_layer_state m nc nh s m' s' :
  initialize_last_layer m nc nh s = (Ok m', s') ->
  exists r h c,
    m = Bare r /\ nh = HInt h /\ nc = HInt c /\
    s' = set_weights (with_new_head (weights s) (in_features (fc r)) h c) s.
Proof.
  unfold initialize_last_layer.
  destruct m as [r|]; [|discriminate].
  intros Hrun.
  apply bind_Ok in Hrun as (h & s1 & E1 & Hrun).
  apply lift_Ok in E1 as [E1 ->].
  apply as_int_Ok in E1 as [-> _].
  destruct (linear_init (in_features (fc r)) h) as [fw fb] eqn:Ef.
  apply bind_Ok in Hrun as ([] & s2 & E2 & Hrun).
  injection E2 as <-.
  apply bind_Ok in Hrun as (c & s3 & E3 & Hrun).
  apply lift_Ok in E3 as [E3 ->].
  apply as_int_Ok in E3 as [-> _].
  destruct (linear_init h c) as [ow ob] eqn:Eo.
  apply bind_Ok in Hrun as ([] & s4 & E4 & Hrun).
  injection E4 as <-. injection Hrun as _ <-.
  exists r, h, c. repeat split. unfold with_new_head. rewrite Ef, Eo.
  destruct s; reflexivity.
Qed.

(** Construction, step by step: the torchvision model, the new head, and
    the checkpoint at [restore_path] if one is given. *)
Lemma init_Ok_state hp pretrained restore_path s r s' :
  __init__ hp pretrained restore_path s = (Ok r, s') ->
  exists h c,
    dict_get (hyperparameters r) "num_hidden" = Some (HInt h) /\
    dict_get (hyperparameters r) "num_classes" = Some (HInt c) /\
    let s0 := set_weights
                (with_new_head (tv_state_dict (model_class r) pretrained)
                   (in_features (fc (tv_module (model_class r) pretrained))) h c)
                (set_training true s) in
    let s1 := if truthy (last_layer_only r) then s0 else set_exhausted false s0 in
    __init__ hp pretrained None s = (Ok r, s1) /\
    match restore_path with
    | Some path => if String.eqb path "" then s' = s1 else load path s1 = (Ok tt, s')
    | None => s' = s1
    end.
Proof.
  intros Hrun. pose proof (init_Ok_keys hp pretrained restore_path s r s' Hrun)
    as (name & c & h & -> & Hname & Hctor & Hllo & Hnc & Hncr & Hnh & _).
  exists h, c. split; [exact Hnh|]. split; [exact Hnc|].
  unfold __init__ in *.
  assert (Hd : match hyperparameters r with
               | [] => DEFAULT_HYPER_PARAMS | _ :: _ => hyperparameters r end
               = hyperparameters r).
  { destruct (hyperparameters r); [discriminate | reflexivity]. }
  rewrite Hd in *. unfold subscript in *.
  rewrite Hname, Hllo, Hnc, Hnh in *. mrun in Hrun. mrun.
  rewrite Hctor in *. mrun in Hrun. mrun.
  destruct (initialize_last_layer _ _ _ _) as [[m2|e] s2] eqn:Einit; [|discriminate].
  pose proof Einit as Estate.
  apply initialize_last_layer_state in Estate as (r0 & h' & c' & Hm & [= <-] & [= <-] & ->).
  assert (Hr0 : r0 = match set_parameter_requires_grad (last_layer_only r)
                             (Bare (tv_module (model_class r) pretrained)) with
                     | Bare x => x | Sequential x _ => x end)
    by (rewrite Hm; reflexivity).
  assert (Hin : in_features (fc r0)
                = in_features (fc (tv_module (model_class r) pretrained))).
  { rewrite Hr0. unfold set_parameter_requires_grad.
    destruct (truthy (last_layer_only r)); reflexivity. }
  rewrite Hin in *. rewrite set_params_to_update_run in *.
  destruct (truthy (last_layer_only r)); simpl in *;
    (destruct restore_path as [path|];
     [destruct (String.eqb path "") eqn:Hpath;
      [injection Hrun as <- <-; split; destruct s; reflexivity
      |destruct (load path _) as [[[]|e] s''] eqn:El; [|discriminate];
       injection Hrun as <- <-; split; [destruct s; reflexivity|];
       rewrite <- El; f_equal; destruct s; reflexivity]
     |injection Hrun as <- <-; split; destruct s; reflexivity]).
Qed.

Lemma with_new_head_backbone w n_in nh nc k :
  k <> "fc.weight" -> k <> "fc.bias" ->
  with_new_head w n_in nh nc !! ("0." ++ k) = w !! k.
Proof.
  intros Hw Hb. unfold with_new_head.
  rewrite !lookup_insert_ne by discriminate.
  rewrite (lookup_kmap (String.append "0.")).
  rewrite !lookup_insert_ne by congruence. reflexivity.
Qed.

Lemma with_new_head_head w n_in nh nc :
  with_new_head w n_in nh nc !! "0.fc.weight" = Some (linear_init n_in nh).1 /\
  with_new_head w n_in nh nc !! "0.fc.bias" = Some (linear_init n_in nh).2 /\
  with_new_head w n_in nh nc !! "1.weight" = Some (linear_init nh nc).1 /\
  with_new_head w n_in nh nc !! "1.bias" = Some (linear_init nh nc).2.
Proof.
  unfold with_new_head. repeat split.
  - rewrite !lookup_insert_ne by discriminate.
    change "0.fc.weight" with ("0." ++ "fc.weight").
    rewrite (lookup_kmap (String.append "0.")). apply lookup_insert_eq.
  - rewrite !lookup_insert_ne by discriminate.
    change "0.fc.bias" with ("0." ++ "fc.bias").
    rewrite (lookup_kmap (String.append "0.")).
    rewrite lookup_insert_ne by discriminate. apply lookup_insert_eq.
  - apply lookup_insert_eq.
  - rewrite lookup_insert_ne by discriminate. apply lookup_insert_eq.
Qed.
End Constructed.

(** X12: a construction returns only if [hyperparameters] is a dict with
    the keys ['model_name'], ['last_layer_only'], ['num_classes'] and
    ['num_hidden'], the name being one that [get_model_from_str] knows and
    the two sizes integers that are not negative and fit 64 bits.  The
    object keeps that dict, the constructor of that name and the two values
    read. *)
Theorem init_requires_keys `{Framework} hp pretrained restore_path s r s' :
  __init__ hp pretrained restore_path s = (Ok r, s') ->
  exists name nc nh,
    hp = Some (hyperparameters r) /\
    dict_get (hyperparameters r) "model_name" = Some (HStr name) /\
    get_model_from_str name = Ok (model_class r) /\
    dict_get (hyperparameters r) "last_layer_only" = Some (last_layer_only r) /\
    dict_get (hyperparameters r) "num_classes" = Some (HInt nc) /\
    num_classes r = HInt nc /\
    dict_get (hyperparameters r) "num_hidden" = Some (HInt nh) /\
    0 <= nc < 2 ^ 63 /\ 0 <= nh < 2 ^ 63.
Proof. apply init_Ok_keys. Qed.

(** X13: the state dict of a model constructed without [restore_path].
    Under the prefix ['0.'] it holds what torchvision gave for the model
    name, but for [fc.weight] and [fc.bias]; these two and ['1.weight'],
    ['1.bias'] are those of the new [nn.Linear(in_features, num_hidden)]
    and [nn.Linear(num_hidden, num_classes)].  Construction asks for no
    forward or backward pass. *)
Theorem construction_keeps_pretrained_weights `{Framework} hp pretrained s r s' :
  __init__ hp pretrained None s = (Ok r, s') ->
  let pre := tv_state_dict (model_class r) pretrained in
  let n_in := in_features (fc (tv_module (model_class r) pretrained)) in
  (forall k, k <> "fc.weight" -> k <> "fc.bias" ->
             weights s' !! ("0." ++ k) = pre !! k) /\
  (exists nh nc,
     dict_get (hyperparameters r) "num_hidden" = Some (HInt nh) /\
     dict_get (hyperparameters r) "num_classes" = Some (HInt nc) /\
     weights s' !! "0.fc.weight" = Some (linear_init n_in nh).1 /\
     weights s' !! "0.fc.bias" = Some (linear_init n_in nh).2 /\
     weights s' !! "1.weight" = Some (linear_init nh nc).1 /\
     weights s' !! "1.bias" = Some (linear_init nh nc).2) /\
  trace s' = trace s.
Proof.
  intros Hrun pre n_in.
  apply init_Ok_state in Hrun as (h & c & Hnh & Hnc & _ & ->).
  assert (Hs : forall (s0 : State),
            weights (if truthy (last_layer_only r) then s0 else set_exhausted false s0)
            = weights s0 /\
            trace (if truthy (last_layer_only r) then s0 else set_exhausted false s0)
            = trace s0)
    by (intros s0; destruct (truthy (last_layer_only r)); split; reflexivity).
  rewrite (proj1 (Hs _)), (proj2 (Hs _)).
  simpl. split; [intros k Hw Hb; apply with_new_head_backbone; assumption|].
  split; [|reflexivity].
  exists h, c. split; [exact Hnh|]. split; [exact Hnc|]. apply with_new_head_head.
Qed.

(** X14: a construction with a [restore_path] that is not empty returns
    the object that the construction without it returns, and differs from
    it in the state dict only: that is the one read from the file, which
    has the keys and the shapes of the model that was built. *)
Theorem construction_restores_checkpoint `{Framework} hp pretrained path s r s' :
  path <> "" ->
  __init__ hp pretrained (Some path) s = (Ok r, s') ->
  exists s1,
    __init__ hp pretrained None s = (Ok r, s1) /\
    torch_load path (files s) = Ok (weights s') /\
    shape <$> weights s' = shape <$> weights s1 /\
    s' = set_weights (weights s') s1.
Proof.
  intros Hpath Hrun.
  apply init_Ok_state in Hrun as (h & c & _ & _ & Hnone & Hload).
  rewrite (proj2 (String.eqb_neq path "")) in Hload by exact Hpath.
  eexists. split; [exact Hnone|].
  apply load_Ok in Hload as (sd & Hsd & Hshape & ->).
  assert (Hf : forall (s0 : State),
            files (if truthy (last_layer_only r) then s0 else set_exhausted false s0)
            = files s0)
    by (intros s0; destruct (truthy (last_layer_only r)); reflexivity).
  rewrite Hf in Hsd. simpl in *. auto.
Qed.

(** ** The generator of the parameters *)

(** X15: with [last_layer_only] false, [params_to_update] is the generator
    [self.model.parameters()] and not a list, and [train_model] can be
    called once.  A call whose optimiser has been constructed has run the
    generator to its end, whether the call then returns or raises; from
    then on [self.params_to_update] yields nothing, and every further
    [train_model], whatever its arguments, hands [optim.SGD] an empty list.
    What [optim.SGD] raises on an empty list (a [ValueError], that being
    torch's part) is what the call raises, having read the clock and
    nothing else. *)
Theorem second_train_model_call_raises `{Framework} hp pretrained restore_path s0
    self s dataloaders spe n lr momentum opt dataloaders' spe' n' lr' momentum' e :
  __init__ hp pretrained restore_path s0 = (Ok self, s) ->
  truthy (last_layer_only self) = false ->
  sgd_init (keys (named_parameters (model self))) lr momentum = Ok opt ->
  sgd_init [] lr' momentum' = Raise e ->
  let first := train_model self dataloaders spe n lr momentum s in
  params_of self s = named_parameters (model self) /\
  params_of self first.2 = [] /\
  train_model self dataloaders' spe' n' lr' momentum' first.2
  = (Raise e, set_ticks (S (ticks first.2)) first.2).
Proof.
  intros Hinit Hllo Hopt Hempty first.
  assert (Hgen : params_to_update self = ParamsGenerator /\ exhausted s = false).
  { unfold __init__ in Hinit.
    apply bind_Ok in Hinit as (name & s1 & _ & Hinit).
    apply bind_Ok in Hinit as (ctor & s2 & _ & Hinit).
    apply bind_Ok in Hinit as ([] & s3 & _ & Hinit).
    apply bind_Ok in Hinit as (llo & s4 & _ & Hinit).
    apply bind_Ok in Hinit as (nc & s5 & _ & Hinit).
    apply bind_Ok in Hinit as (nh & s6 & _ & Hinit).
    apply bind_Ok in Hinit as (m2 & s7 & _ & Hinit).
    apply bind_Ok in Hinit as (ps & s8 & E8 & Hinit).
    apply bind_Ok in Hinit as ([] & s9 & E9 & Hinit).
    injection Hinit as <- <-. simpl in Hllo |- *.
    rewrite set_params_to_update_run, Hllo in E8. injection E8 as <- <-.
    split; [reflexivity|].
    destruct restore_path as [p|]; [destruct (String.eqb p "")|].
    - injection E9 as <-. reflexivity.
    - apply load_Ok in E9 as (sd & _ & _ & ->). reflexivity.
    - injection E9 as <-. reflexivity. }
  destruct Hgen as [Hgen Hfresh].
  assert (Hps : params_of self s = named_parameters (model self)).
  { unfold params_of. rewrite Hgen, Hfresh. reflexivity. }
  assert (Hdone : exhausted first.2 = true).
  { unfold first. rewrite (same_train_model exhausted) by reflexivity.
    rewrite optim_SGD_run.
    change (params_of self (set_ticks (S (ticks s)) s)) with (params_of self s).
    rewrite Hps, Hopt. unfold listed. rewrite Hgen. reflexivity. }
  assert (Hnone : params_of self first.2 = []).
  { unfold params_of. rewrite Hgen, Hdone. reflexivity. }
  split; [exact Hps|]. split; [exact Hnone|].
  unfold train_model at 1. rewrite (bind_step _ _ _ _ _ (time_run _)).
  rewrite bind_unfold, optim_SGD_run.
  change (params_of self (set_ticks (S (ticks first.2)) first.2))
    with (params_of self first.2).
  rewrite Hnone. change (keys ([] : list (string * Param))) with ([] : list string).
  rewrite Hempty. reflexivity.
Qed.

(** ** When [train_model] returns *)
Section Returns.
Context `{Framework}.
Hypothesis Hshapes : shapes_kept.

Lemma train_batch_shapes phase acc b s r s' :
  train_batch phase acc b s = (Ok r, s') ->
  shape <$> weights s' = shape <$> weights s /\ exists n, r.2 = CTensor n.
Proof.
  destruct Hshapes as [Hstats Hstep].
  destruct acc as [[opt rl] rc].
  unfold train_batch, forward, log; mrun; simpl.
  destruct (training s) eqn:Ht;
    destruct (decide (phase = "train")) as [Hp|Hp]; simpl;
    try (destruct (sgd_step _ _ _) as [o w] eqn:Es);
    intros [= <- <-]; simpl; (split; [|unfold add_tensor; eauto]).
  - pose proof (Hstep opt
      (backward (track_running_stats (weights s) (inputs b)) (inputs b) (labels b)
         (zero_grad (grads s)))
      (track_running_stats (weights s) (inputs b))) as Hw.
    rewrite Es in Hw. simpl in Hw. rewrite Hw. apply Hstats.
  - apply Hstats.
  - pose proof (Hstep opt
      (backward (weights s) (inputs b) (labels b) (zero_grad (grads s)))
      (weights s)) as Hw.
    rewrite Es in Hw. exact Hw.
  - reflexivity.
Qed.

Lemma train_batches_shapes phase bs : forall acc s r s',
  for_batches (train_batch phase) bs acc s = (Ok r, s') ->
  shape <$> weights s' = shape <$> weights s /\
  (bs <> [] -> exists n, r.2 = CTensor n).
Proof.
  induction bs as [|b bs IH]; intros acc s r s' Hrun.
  - injection Hrun as <- <-. split; [reflexivity | congruence].
  - simpl in Hrun. apply bind_Ok in Hrun as (r1 & s1 & E1 & Hrun).
    apply train_batch_shapes in E1 as [Hw1 [n1 Hn1]].
    pose proof Hrun as Hrun'. apply IH in Hrun' as [Hw Hn].
    split; [congruence|]. intros _.
    destruct bs as [|b' bs]; [injection Hrun as <- _; eauto|].
    apply Hn. discriminate.
Qed.

Lemma run_phase_returns w0 dataloaders phase (dl : DataLoader) l s :
  dict_get dataloaders phase = Some (Some dl) ->
  batches dl <> [] -> len_dataset dl <> 0 ->
  shaped w0 l s ->
  exists l' s', run_phase dataloaders phase l s = (Ok l', s') /\ shaped w0 l' s'.
Proof.
  intros Hdl Hne Hlen [Hw Hb]. unfold run_phase.
  rewrite (bind_step _ _ _ _ _ (time_run s)).
  rewrite (bind_step _ _ _ _ _ (modify_run _ _)).
  set (s1 := set_training _ _).
  assert (E1 : loader_of dataloaders phase s1 = (Ok dl, s1)).
  { unfold loader_of. rewrite Hdl. reflexivity. }
  rewrite (bind_step _ _ _ _ _ E1).
  destruct (train_batches_return phase (batches dl)
              (optimizer l, PrimFloat.zero, CInt 0) s1) as (r & s2 & E2).
  rewrite (bind_step _ _ _ _ _ E2).
  apply train_batches_shapes in E2 as [Hw2 Hn]. destruct (Hn Hne) as [cnt Hcnt].
  unfold float_div_int.
  destruct (Z.eqb_spec (len_dataset dl) 0) as [|_]; [contradiction|].
  rewrite bind_unfold. unfold ret at 1. cbv iota beta.
  rewrite Hcnt. rewrite bind_unfold. unfold double at 1, ret at 1. cbv iota beta.
  assert (Hkeep : forall a w l0, shape <$> w = shape <$> w0 ->
            shape <$> best_model_wts l0 = shape <$> w0 ->
            shape <$> best_model_wts (keep_best phase a w l0) = shape <$> w0).
  { intros a w l0 Hw' Hb'. unfold keep_best.
    destruct (bool_decide (phase = "val") && fgt a (best_acc l0)); [|exact Hb'].
    simpl. destruct (fgt a (best_acc l0)); simpl; assumption. }
  assert (Hw2' : shape <$> weights s2 = shape <$> w0) by (rewrite Hw2; exact Hw).
  destruct (decide (phase = "train")) as [Hp|Hp].
  - unfold scheduler_step.
    rewrite bind_unfold. rewrite (bind_step _ _ _ _ _ (log_run _ _)).
    destruct (plateau_step _ _ _) as [sc o].
    unfold ret at 1. rewrite (bind_step _ _ _ _ _ (time_run _)).
    mrun. unfold log. mrun.
    eexists _, _. split; [reflexivity|]. split; [exact Hw2'|].
    unfold record_metrics. simpl. apply Hkeep; assumption.
  - rewrite bind_unfold. unfold ret at 1. cbv iota beta.
    rewrite (bind_step _ _ _ _ _ (time_run _)).
    mrun. unfold log. mrun.
    eexists _, _. split; [reflexivity|]. split; [exact Hw2'|].
    unfold record_metrics. simpl. apply Hkeep; assumption.
Qed.

Lemma for_locals_returns {A} (body : A -> Locals -> M State Locals)
    (Inv : Locals -> State -> Prop) xs :
  (forall x l s, x ∈ xs -> Inv l s ->
     exists l' s', body x l s = (Ok l', s') /\ Inv l' s') ->
  forall l s, Inv l s ->
    exists l' s', for_locals body xs l s = (Ok l', s') /\ Inv l' s'.
Proof.
  induction xs as [|x xs IH]; intros Hbody l s HI.
  - exists l, s. auto.
  - destruct (Hbody x l s ltac:(left) HI) as (l1 & s1 & E1 & HI1).
    simpl. rewrite (bind_step _ _ _ _ _ E1). apply IH; [|exact HI1].
    intros y l0 s0 Hy. apply Hbody. right. exact Hy.
Qed.

Lemma for_tasks_returns tasks : forall d0 s,
  Forall (fun task : Z * DataLoader => batches task.2 <> []) tasks ->
  exists res s', for_tasks tasks d0 s = (Ok res, s') /\ weights s' = weights s.
Proof.
  induction tasks as [|t ts IH]; intros d0 s Hall.
  - exists d0, s. auto.
  - apply Forall_cons in Hall as [Ht Hall]. simpl. unfold infer_task at 1.
    rewrite bind_unfold, bind_unfold, infer_spec.
    destruct (batches t.2) eqn:Hb; [congruence|]. cbv iota beta. unfold ret at 1.
    destruct (IH (dict_set d0 t.1
                    (PrimFloat.div
                       (float_of_int (total_correct (weights s) (b :: l)))
                       (float_of_int (len_dataset t.2))))
                 (after_infer t.2 s) Hall) as (res & s' & E & Hw).
    exists res, s'. split; [exact E | exact Hw].
Qed.

Lemma dict_get_elem {K V} `{EqDecision K} (d : dict K V) k :
  k ∈ keys d -> exists v, dict_get d k = Some v.
Proof.
  unfold keys. induction d as [|[k0 v0] d IH]; intros Hk.
  - apply elem_of_nil in Hk. contradiction.
  - simpl. destruct (decide (k0 = k)); [eauto|].
    rewrite fmap_cons in Hk. apply elem_of_cons in Hk as [Hk|Hk]; [simpl in Hk; congruence|].
    auto.
Qed.

Lemma test_subprofile_returns w0 d epoch (tasks : dict Z DataLoader) l s :
  dict_get d epoch = Some tasks ->
  Forall (fun task : Z * DataLoader => batches task.2 <> []) tasks ->
  shaped w0 l s ->
  exists l' s', test_subprofile d epoch l s = (Ok l', s') /\ shaped w0 l' s'.
Proof.
  intros Hd Hall [Hw Hb]. unfold test_subprofile. rewrite Hd.
  rewrite bind_unfold. unfold ret at 1. cbv iota beta.
  destruct (for_tasks_returns tasks [] s Hall) as (res & s' & E & Hw').
  rewrite (bind_step _ _ _ _ _ E). eexists _, _. split; [reflexivity|].
  split; [rewrite Hw'; exact Hw | exact Hb].
Qed.

Lemma run_epoch_returns w0 dataloaders (d : dict Z (dict Z DataLoader)) epoch l s :
  (forall phase, phase ∈ keys dataloaders ->
     exists dl : DataLoader,
       dict_get dataloaders phase = Some (Some dl) /\
       batches dl <> [] /\ len_dataset dl <> 0) ->
  (forall e tasks, dict_get d e = Some tasks ->
     Forall (fun task : Z * DataLoader => batches task.2 <> []) tasks) ->
  shaped w0 l s ->
  exists l' s',
    run_epoch dataloaders (Some d) epoch l s = (Ok l', s') /\ shaped w0 l' s'.
Proof.
  intros Hphases Htasks Hinv. unfold run_epoch.
  rewrite (bind_step _ _ _ _ _ (time_run s)).
  rewrite (bind_step _ _ _ _ _ (log_run _ _)).
  match goal with |- context [bind (for_locals _ _ ?l1) _ ?s1] =>
    destruct (for_locals_returns (run_phase dataloaders) (shaped w0) (keys dataloaders))
      with (l := l1) (s := s1) as (lk & sk & Ek & Hk)
  end.
  { intros phase l1 s1 Hphase Hinv1.
    destruct (Hphases phase Hphase) as (dl & Hdl & Hne & Hlen).
    eapply run_phase_returns; eauto. }
  { exact Hinv. }
  rewrite (bind_step _ _ _ _ _ Ek).
  rewrite bind_unfold. unfold keys_of at 1, ret at 1. cbv iota beta.
  unfold dict_mem. destruct (decide (epoch ∈ keys d)) as [Hin|Hin].
  - rewrite bool_decide_eq_true_2 by exact Hin.
    destruct (dict_get_elem d epoch Hin) as [tasks Hd].
    eapply test_subprofile_returns; [exact Hd | eapply Htasks; exact Hd |].
    exact Hk.
  - rewrite bool_decide_eq_false_2 by exact Hin. eexists _, _. split; [reflexivity|].
    exact Hk.
Qed.
End Returns.

(** X16: [train_model] returns when the optimiser accepts the parameters,
    [dataloaders['train']] is a loader, every value of [dataloaders] is a
    loader that yields a batch from a dataset that is not empty,
    [subprofile_test_epochs] is a dict and every loader of its tasks yields
    a batch.  The model then has a state dict with the keys and the shapes
    it had at the call (that torch's forward pass and optimiser step keep
    them is torch's part). *)
Theorem train_model_returns `{Framework} self dataloaders
    (d : dict Z (dict Z DataLoader)) n lr momentum s opt (train : DataLoader) :
  shapes_kept ->
  sgd_init (keys (params_of self s)) lr momentum = Ok opt ->
  dict_get dataloaders "train" = Some (Some train) ->
  (forall phase, phase ∈ keys dataloaders ->
     exists dl : DataLoader,
       dict_get dataloaders phase = Some (Some dl) /\
       batches dl <> [] /\ len_dataset dl <> 0) ->
  (forall epoch tasks, dict_get d epoch = Some tasks ->
     Forall (fun task : Z * DataLoader => batches task.2 <> []) tasks) ->
  exists res s',
    train_model self dataloaders (Some d) n lr momentum s = (Ok res, s') /\
    shape <$> weights s' = shape <$> weights s.
Proof.
  intros Hshapes Hopt Htrain Hphases Htasks. unfold train_model.
  rewrite (bind_step _ _ _ _ _ (time_run s)).
  rewrite bind_unfold, optim_SGD_run.
  change (params_of self (set_ticks (S (ticks s)) s)) with (params_of self s).
  rewrite Hopt. cbv iota beta. set (s0 := listed self _).
  assert (Hw0 : weights s0 = weights s) by exact (listed_weights self _).
  rewrite bind_unfold. unfold get at 1. cbv iota beta.
  rewrite bind_unfold. unfold subscript. rewrite Htrain.
  unfold lift at 1, ret at 1. cbv iota beta.
  rewrite bind_unfold. unfold ret at 1. cbv iota beta.
  set (l0 := initial_locals opt (weights s0)).
  destruct (for_locals_returns (run_epoch dataloaders (Some d)) (shaped (weights s))
              (range n)) with (l := l0) (s := s0) as (l1 & s1 & E1 & [Hw1 Hb1]).
  { intros epoch l2 s2 _ Hinv. apply run_epoch_returns; assumption. }
  { split; simpl; rewrite Hw0; reflexivity. }
  rewrite (bind_step _ _ _ _ _ E1).
  rewrite (bind_step _ _ _ _ _ (time_run s1)).
  rewrite bind_unfold, load_state_dict_same by (simpl; congruence).
  eexists _, _. split; [reflexivity|]. exact Hb1.
Qed.

(** ** The accuracy is a number *)

Lemma binary_round_aux_sign sx mx ex lx :
  0 <= mx ->
  binary_round_aux prec emax sx mx ex lx = S754_zero sx \/
  binary_round_aux prec emax sx mx ex lx = S754_infinity sx \/
  exists m e, binary_round_aux prec emax sx mx ex lx = S754_finite sx m e.
Proof.
  intros Hm. unfold binary_round_aux.
  pose proof (shr_fexp_nonneg mx ex lx Hm) as H1.
  destruct (shr_fexp prec emax mx ex lx) as [mrs1 e1]. simpl in H1.
  pose proof (round_nearest_even_bounds (shr_m mrs1) (loc_of_shr_record mrs1)) as Hr.
  set (m2 := round_nearest_even _ _) in *.
  pose proof (shr_fexp_nonneg m2 e1 loc_Exact ltac:(lia)) as H2.
  destruct (shr_fexp prec emax m2 e1 loc_Exact) as [mrs2 e2]. simpl in H2.
  destruct (shr_m mrs2) as [|m|m]; [auto| |lia].
  destruct (Z.leb _ _); eauto.
Qed.

Lemma SFdiv_finite_sign mx ex my ey :
  let q := SFdiv prec emax (S754_finite false mx ex) (S754_finite false my ey) in
  q = S754_zero false \/ q = S754_infinity false \/
  exists m e, q = S754_finite false m e.
Proof.
  unfold SFdiv, SFdiv_core_binary.
  set (m' := match _ with Z0 => Z.pos mx | Z.pos _ => _ | Z.neg _ => 0 end).
  assert (Hm' : 0 <= m').
  { unfold m'. destruct (_ - _ - _) as [|k|k]; try lia.
    apply Z.shiftl_nonneg. lia. }
  pose proof (Z.div_pos m' (Z.pos my) Hm' ltac:(lia)) as Hq.
  unfold Z.div in Hq. destruct (Z.div_eucl m' (Z.pos my)) as [q r].
  apply binary_round_aux_sign. exact Hq.
Qed.

Lemma count_div_len_nonneg (c : Z) (n : Uint63.int) :
  Uint63.to_Z n <> 0 ->
  fle PrimFloat.zero
    (PrimFloat.div (float_of_int c) (float_of_int (Uint63.to_Z n))) = true.
Proof.
  intros Hn. unfold fle. rewrite leb_spec, div_spec. unfold float_of_int.
  rewrite Uint63.of_to_Z.
  change (Prim2SF PrimFloat.zero) with (S754_zero false).
  destruct (of_uint63_finite n) as [[Hz _]|(_ & my & ey & ->)]; [contradiction|].
  destruct (of_uint63_finite (Uint63.of_Z c)) as [[_ ->]|(_ & mx & ex & ->)].
  - reflexivity.
  - unfold SF64div.
    destruct (SFdiv_finite_sign mx ex my ey) as [->|[->|(m0 & e0 & ->)]]; reflexivity.
Qed.

(** X17: the accuracy of [infer] and of a phase, [running_corrects.double()
    / len(dataloader.dataset)], is a float that is not NaN and not below
    [0.0], for every loader whose dataset is not empty and whatever the
    model predicts. *)
Theorem accuracy_is_a_nonnegative_number `{Framework} (w : gmap string Tensor)
    (dataloader : DataLoader) :
  len_dataset dataloader <> 0 ->
  fle PrimFloat.zero (accuracy w dataloader) = true /\
  PrimFloat.is_nan (accuracy w dataloader) = false.
Proof.
  intros Hlen. unfold accuracy, len_dataset in *. split.
  - apply count_div_len_nonneg. exact Hlen.
  - apply count_div_len_number. exact Hlen.
Qed.

(** ** Loading keeps the architecture *)

(** X18: a [load] that returns has replaced the state dict of the model by
    the one read from the file, which has the keys and the shapes of the
    one replaced; nothing else of the object has changed. *)
Theorem load_keeps_shapes `{Framework} path s s' :
  load path s = (Ok tt, s') ->
  torch_load path (files s) = Ok (weights s') /\
  shape <$> weights s' = shape <$> weights s /\
  s' = set_weights (weights s') s.
Proof.
  intros Hload. apply load_Ok in Hload as (sd & Hsd & Hshape & ->).
  simpl. auto.
Qed.

(** ** The theorems on concrete runs *)

Lemma run_eq {S A} (m : result A * S) r : m.1 = r -> m = (r, m.2).
Proof. destruct m. simpl. intros ->. reflexivity. Qed.

Lemma toy_keys_NoDup : NoDup (keys Toy.train_and_val).
Proof.
  unfold Toy.train_and_val, keys. simpl.
  apply NoDup_cons. split; [rewrite list_elem_of_singleton; discriminate|].
  apply NoDup_singleton.
Qed.

Lemma toy_round_trips : serialization_round_trips (H := Toy.framework).
Proof.
  intros sd path fs fs' [= <-]. simpl. rewrite lookup_insert_eq. reflexivity.
Qed.

Local Abbreviation one_epoch :=
  (train_model Toy.constructed Toy.train_and_val (Some []) 1 Toy.lr Toy.momentum
     (Toy.start 0)).

Local Abbreviation one_epoch_profile :=
  [[PyFloat 1; PyFloat 1; PyFloat 1; PyFloat 0; PyInt 1;
    PyFloat 1; PyFloat 0; PyFloat 1; PyInt 2;
    PyInt 0; PyInt 0; PyInt 0; PyInt 0]].

Local Abbreviation two_epochs :=
  (train_model Toy.constructed Toy.train_and_even_val (Some []) 2
     Toy.lr Toy.momentum (Toy.start 0)).

Local Abbreviation two_epochs_profile :=
  [[PyFloat 1; PyFloat 1; PyFloat 1; PyFloat 0; PyInt 1;
    PyFloat 1; PyFloat 1; PyFloat 0.5; PyInt 2;
    PyInt 0; PyInt 0; PyInt 0; PyInt 0];
   [PyFloat 6; PyFloat 1; PyFloat 1; PyFloat 0; PyInt 1;
    PyFloat 1; PyFloat 1; PyFloat 0.5; PyInt 2;
    PyInt 0; PyInt 0; PyInt 0; PyInt 0]].

Local Abbreviation constructing := (__init__ (Some Toy.hyper) true None (Toy.start 0)).

Local Abbreviation saving := (save "resnet.pt" (Toy.start 3)).

(** One epoch over a training set and a validation set: the scheduler is
    stepped with the training loss. *)
Lemma scheduler_steps_on_train_loss_witness :
  NoDup (keys Toy.train_and_val) /\
  extends (scheduler_driven_by "train") (Toy.start 0) one_epoch.2.
Proof.
  split; [exact toy_keys_NoDup|].
  exact (proj1 (scheduler_steps_on_train_loss Toy.constructed Toy.train_and_val
                  (Some []) 1 Toy.lr Toy.momentum (Toy.start 0) toy_keys_NoDup)).
Defined.

(** One epoch in which the validation accuracy is [1.0]: it is the best
    accuracy, and no validation accuracy exceeds it. *)
Lemma best_checkpoint_retention_witness :
  one_epoch.1 = Ok ([1%float], 1%float, one_epoch_profile, []) /\
  exists tr,
    trace one_epoch.2 = (trace (Toy.start 0) ++ tr)%list /\
    none_exceeds 1%float (epoch_accs "val" tr).
Proof.
  assert (E : one_epoch.1 = Ok ([1%float], 1%float, one_epoch_profile, []))
    by (vm_compute; reflexivity).
  split; [exact E|].
  pose proof (best_checkpoint_retention Toy.constructed Toy.train_and_val
                (Some []) 1 Toy.lr Toy.momentum (Toy.start 0) [1%float] 1%float
                one_epoch_profile [] one_epoch.2 (run_eq one_epoch _ E))
    as (tr & Htr & Hmax & _).
  exists tr. split; [exact Htr | exact Hmax].
Defined.

(** Two epochs with the same validation accuracy [0.5]: the history has one
    entry only. *)
Lemma val_acc_history_increasing_witness :
  two_epochs.1 = Ok ([0.5%float], 0.5%float, two_epochs_profile, []) /\
  exists tr,
    trace two_epochs.2 = (trace (Toy.start 0) ++ tr)%list /\
    sublist [0.5%float] (epoch_accs "val" tr).
Proof.
  assert (E : two_epochs.1 = Ok ([0.5%float], 0.5%float, two_epochs_profile, []))
    by (vm_compute; reflexivity).
  split; [exact E|].
  pose proof (val_acc_history_increasing Toy.constructed Toy.train_and_even_val
                (Some []) 2 Toy.lr Toy.momentum (Toy.start 0) [0.5%float] 0.5%float
                two_epochs_profile [] two_epochs.2 (run_eq two_epochs _ E))
    as (tr & Htr & _ & Hsub & _).
  exists tr. split; [exact Htr | exact Hsub].
Defined.

(** The history of that run is shorter than the list of the validation
    accuracies of its epochs. *)
Lemma val_acc_history_skips_epochs :
  two_epochs.1 = Ok ([0.5%float], 0.5%float, two_epochs_profile, []) /\
  epoch_accs "val" (trace two_epochs.2) = [0.5%float; 0.5%float].
Proof. split; vm_compute; reflexivity. Qed.

(** Construction with [last_layer_only] true. *)
Lemma freezing_policy_witness :
  constructing.1 = Ok Toy.constructed /\
  subscript (hyperparameters Toy.constructed) "last_layer_only"
  = Ok (last_layer_only Toy.constructed).
Proof.
  assert (E : constructing.1 = Ok Toy.constructed) by (vm_compute; reflexivity).
  split; [exact E|].
  exact (proj1 (freezing_policy (Some Toy.hyper) true None (Toy.start 0)
                  Toy.constructed constructing.2 (run_eq constructing _ E))).
Defined.

(** A checkpoint saved by a model at [3] and loaded by a model at [7]. *)
Lemma save_load_round_trip_witness :
  saving.1 = Ok tt /\
  weights (load "resnet.pt" (set_weights {["1.bias" := 7]} saving.2)).2
  = weights (Toy.start 3).
Proof.
  assert (E : saving.1 = Ok tt) by (vm_compute; reflexivity).
  split; [exact E|].
  assert (Hfiles : files (set_weights {["1.bias" := 7]} saving.2) = files saving.2)
    by reflexivity.
  assert (Hshape : shape <$> weights (set_weights {["1.bias" := 7]} saving.2)
                   = shape <$> weights (Toy.start 3))
    by (vm_compute; reflexivity).
  exact (proj2 (proj2 (save_load_round_trip "resnet.pt" (Toy.start 3) saving.2
                         (set_weights {["1.bias" := 7]} saving.2)
                         toy_round_trips (run_eq saving _ E) Hfiles Hshape))).
Defined.

(** The profile of the run of two epochs. *)
Lemma profile_rows_witness :
  two_epochs.1 = Ok ([0.5%float], 0.5%float, two_epochs_profile, []) /\
  exists tr,
    trace two_epochs.2 = (trace (Toy.start 0) ++ tr)%list /\
    epochs_of tr = range 2.
Proof.
  assert (E : two_epochs.1 = Ok ([0.5%float], 0.5%float, two_epochs_profile, []))
    by (vm_compute; reflexivity).
  split; [exact E|].
  pose proof (profile_rows Toy.constructed Toy.train_and_even_val (Some []) 2
                Toy.lr Toy.momentum (Toy.start 0) [0.5%float] 0.5%float
                two_epochs_profile [] two_epochs.2
                (Toy.loader [Toy.batch [0] [5]] 1)
                toy_keys_NoDup eq_refl (run_eq two_epochs _ E))
    as (tr & Htr & He & _).
  exists tr. split; [exact Htr | exact He].
Defined.

(** A validation phase and an inference leave the state dict alone. *)
Lemma parameters_change_only_in_train_witness :
  "val" <> "train" /\
  quiet (Toy.start 0)
    (run_phase Toy.train_and_val "val"
       (initial_locals (H := Toy.framework) tt (weights (Toy.start 0)))
       (Toy.start 0)).2.
Proof.
  assert (Hne : "val" <> "train") by discriminate.
  split; [exact Hne|].
  exact (proj2 (parameters_change_only_in_train Toy.train_and_val "val"
                  (initial_locals (H := Toy.framework) tt (weights (Toy.start 0)))
                  (Toy.loader [] 1) (Toy.start 0) Hne)).
Defined.

(** *** Further runs *)

Lemma infer_returns_accuracy_witness :
  batches Examples.val_loader <> [] /\
  (infer Examples.val_loader (Toy.start 1)).1 = Ok 1%float.
Proof.
  assert (Hne : batches Examples.val_loader <> []) by discriminate.
  split; [exact Hne|].
  rewrite (proj1 (infer_returns_accuracy Examples.val_loader (Toy.start 1) Hne)).
  vm_compute. reflexivity.
Defined.

Local Abbreviation constructing_all :=
  (__init__ (Some Examples.hyper_all) true None (Toy.start 0)).
Local Abbreviation training_only :=
  (train_model Toy.constructed Toy.train_only (Some []) 1 Toy.lr Toy.momentum
     (Toy.start 0)).
Local Abbreviation training_only_profile :=
  [[PyFloat 1; PyFloat 1; PyFloat 1; PyFloat 0; PyInt 1;
    PyInt 0; PyInt 0; PyInt 0; PyInt 0;
    PyInt 0; PyInt 0; PyInt 0; PyInt 0]].
Local Abbreviation first_head :=
  (initialize_last_layer (Bare Toy.resnet) (HInt 10) (HInt 512) (Toy.start 0)).
Local Abbreviation head :=
  (Sequential {| body := body Toy.resnet; fc := nn_Linear 512 512 |} (nn_Linear 512 10)).

Lemma init_requires_keys_witness :
  constructing.1 = Ok Toy.constructed /\
  Some Toy.hyper = Some (hyperparameters Toy.constructed).
Proof.
  assert (E : constructing.1 = Ok Toy.constructed) by (vm_compute; reflexivity).
  split; [exact E|].
  destruct (init_requires_keys (Some Toy.hyper) true None (Toy.start 0)
              Toy.constructed constructing.2 (run_eq constructing _ E))
    as (name & nc & nh & Hhp & _).
  exact Hhp.
Defined.

Lemma phase_without_data_raises_witness :
  (run_phase [("val", Some (Toy.loader [] 1))] "val"
     (initial_locals (H := Toy.framework) tt (weights (Toy.start 0))) (Toy.start 0)).1
  = Raise (AttributeError "'int' object has no attribute 'double'").
Proof.
  assert (Hlen : len_dataset (Toy.loader [] 1) <> 0) by (vm_compute; discriminate).
  exact (proj2 (proj2 (phase_without_data_raises [("val", Some (Toy.loader [] 1))] "val"
                         (initial_locals (H := Toy.framework) tt (weights (Toy.start 0)))
                         (Toy.start 0))
                  (Toy.loader [] 1) eq_refl) Hlen eq_refl).
Defined.

Lemma initialize_last_layer_twice_raises_witness :
  first_head.1 = Ok head /\
  initialize_last_layer head (HInt 10) (HInt 512) first_head.2
  = (Raise (AttributeError "'Sequential' object has no attribute 'fc'"), first_head.2).
Proof.
  assert (E : first_head.1 = Ok head) by (vm_compute; reflexivity).
  split; [exact E|].
  exact (initialize_last_layer_twice_raises (Bare Toy.resnet) (HInt 10) (HInt 512)
           (Toy.start 0) head first_head.2 (run_eq first_head _ E)
           (HInt 10) (HInt 512) first_head.2).
Defined.

Lemma train_model_needs_data_witness :
  one_epoch.1 = Ok ([1%float], 1%float, one_epoch_profile, []) /\
  exists train, dict_get Toy.train_and_val "train" = Some train.
Proof.
  assert (E : one_epoch.1 = Ok ([1%float], 1%float, one_epoch_profile, []))
    by (vm_compute; reflexivity).
  split; [exact E|].
  destruct (train_model_needs_data Toy.constructed Toy.train_and_val (Some []) 1
              Toy.lr Toy.momentum (Toy.start 0) _ one_epoch.2 (run_eq one_epoch _ E))
    as (train & Htrain & _).
  exists train. exact Htrain.
Defined.

Lemma training_without_validation_is_discarded_witness :
  ("val" ∉ keys Toy.train_only) /\
  training_only.1 = Ok ([], PrimFloat.zero, training_only_profile, []) /\
  weights training_only.2 = weights (Toy.start 0).
Proof.
  assert (Hval : "val" ∉ keys Toy.train_only).
  { apply not_elem_of_cons. split; [discriminate | apply not_elem_of_nil]. }
  assert (E : training_only.1 = Ok ([], PrimFloat.zero, training_only_profile, []))
    by (vm_compute; reflexivity).
  split; [exact Hval|]. split; [exact E|].
  exact (proj2 (proj2 (training_without_validation_is_discarded Toy.constructed
                         Toy.train_only (Some []) 1 Toy.lr Toy.momentum (Toy.start 0)
                         [] PrimFloat.zero training_only_profile [] training_only.2
                         Hval (run_eq training_only _ E)))).
Defined.

Local Abbreviation tested :=
  (train_model Toy.constructed Toy.train_and_val (Some Examples.test_epochs) 2
     Toy.lr Toy.momentum (Toy.start 0)).
Local Abbreviation inferring :=
  (train_model Toy.constructed Examples.no_training (Some Examples.test_epochs) 1
     Toy.lr Toy.momentum (Toy.start 1)).
Local Abbreviation saved := ((save "resnet.pt" constructing.2).2).
Local Abbreviation restoring :=
  (__init__ (Some Toy.hyper) true (Some "resnet.pt") saved).
Local Abbreviation loading := (load "resnet.pt" saving.2).

Lemma toy_shapes_kept : shapes_kept (H := Toy.framework).
Proof.
  split; [reflexivity|]. intros o g w. simpl.
  apply map_eq. intros i. rewrite !lookup_fmap, lookup_alter.
  case_decide as Hi; [|reflexivity]. subst i.
  rewrite <- option_fmap_compose. reflexivity.
Qed.

Lemma subprofile_epochs_tested_witness :
  exists res, tested.1 = Ok res /\ keys res.2 = [0].
Proof.
  assert (E : exists res, tested.1 = Ok res) by (vm_compute; eexists; reflexivity).
  destruct E as [[[[history best] prof] sub] E].
  exists (history, best, prof, sub). split; [exact E|]. cbn [snd].
  rewrite (subprofile_epochs_tested Toy.constructed Toy.train_and_val
             Examples.test_epochs 2 Toy.lr Toy.momentum (Toy.start 0) history best prof sub tested.2
             (Toy.loader [Toy.batch [0] [5]] 1) eq_refl (run_eq tested _ E)).
  vm_compute. reflexivity.
Defined.

Lemma inference_only_run_witness :
  dict_get Examples.no_training "train" = Some None /\
  quiet (Toy.start 1) inferring.2.
Proof.
  split; [reflexivity|].
  exact (proj1 (inference_only_run Toy.constructed Examples.no_training
                  (Some Examples.test_epochs) 1 Toy.lr Toy.momentum (Toy.start 1)
                  eq_refl)).
Defined.

Lemma phase_protocol_witness :
  exists l' s',
    run_phase Toy.train_and_val "val"
      (initial_locals (H := Toy.framework) tt (weights (Toy.start 1))) (Toy.start 1)
    = (Ok l', s') /\
    training s' = false.
Proof.
  assert (Hne : batches Examples.val_loader <> []) by discriminate.
  assert (Hlen : len_dataset Examples.val_loader <> 0) by (vm_compute; discriminate).
  destruct (run_phase_returns toy_shapes_kept (weights (Toy.start 1))
              Toy.train_and_val "val" Examples.val_loader
              (initial_locals (H := Toy.framework) tt (weights (Toy.start 1)))
              (Toy.start 1) eq_refl Hne Hlen (conj eq_refl eq_refl))
    as (l' & s' & Hrun & _).
  exists l', s'. split; [exact Hrun|].
  destruct (phase_protocol Toy.train_and_val "val" _ (Toy.start 1) l' s' Hrun)
    as (dl & loss & acc & _ & Hmode & _).
  rewrite Hmode. reflexivity.
Defined.

Lemma evaluation_phase_reports_witness :
  exists l' s',
    run_phase Toy.train_and_val "val"
      (initial_locals (H := Toy.framework) tt (weights (Toy.start 1))) (Toy.start 1)
    = (Ok l', s') /\
    weights s' = weights (Toy.start 1).
Proof.
  assert (Hp : "val" <> "train") by discriminate.
  assert (Hne : batches Examples.val_loader <> []) by discriminate.
  assert (Hlen : len_dataset Examples.val_loader <> 0) by (vm_compute; discriminate).
  destruct (evaluation_phase_reports Toy.train_and_val "val"
              (initial_locals (H := Toy.framework) tt (weights (Toy.start 1)))
              (Toy.start 1) Examples.val_loader Hp eq_refl Hne Hlen)
    as (l' & s' & Hrun & Hw & _).
  exists l', s'. split; [exact Hrun | exact Hw].
Defined.

Lemma construction_keeps_pretrained_weights_witness :
  constructing.1 = Ok Toy.constructed /\
  weights constructing.2 !! "0.conv1.weight" = Some 3.
Proof.
  assert (E : constructing.1 = Ok Toy.constructed) by (vm_compute; reflexivity).
  split; [exact E|].
  pose proof (proj1 (construction_keeps_pretrained_weights (Some Toy.hyper) true
                       (Toy.start 0) Toy.constructed constructing.2
                       (run_eq constructing _ E))
                "conv1.weight" ltac:(discriminate) ltac:(discriminate)) as Hk.
  etransitivity; [exact Hk|]. vm_compute. reflexivity.
Defined.

Lemma construction_restores_checkpoint_witness :
  "resnet.pt" <> "" /\
  restoring.1 = Ok Toy.constructed /\
  torch_load "resnet.pt" (files saved) = Ok (weights restoring.2).
Proof.
  assert (Hpath : "resnet.pt" <> "") by discriminate.
  assert (E : restoring.1 = Ok Toy.constructed) by (vm_compute; reflexivity).
  split; [exact Hpath|]. split; [exact E|].
  destruct (construction_restores_checkpoint (Some Toy.hyper) true "resnet.pt" saved
              Toy.constructed restoring.2 Hpath (run_eq restoring _ E))
    as (s1 & _ & Hload & _).
  exact Hload.
Defined.

Local Abbreviation first_call :=
  (train_model Examples.constructed_all Toy.train_and_val (Some []) 1
     Toy.lr Toy.momentum constructing_all.2).

Lemma second_train_model_call_raises_witness :
  constructing_all.1 = Ok Examples.constructed_all /\
  truthy (last_layer_only Examples.constructed_all) = false /\
  (train_model Examples.constructed_all Toy.train_and_val (Some []) 1
     Toy.lr Toy.momentum first_call.2).1
  = Raise (ValueError "optimizer got an empty parameter list").
Proof.
  assert (E : constructing_all.1 = Ok Examples.constructed_all)
    by (vm_compute; reflexivity).
  split; [exact E|]. split; [reflexivity|].
  exact (f_equal fst
           (proj2 (proj2 (second_train_model_call_raises (Some Examples.hyper_all)
                            true None (Toy.start 0) Examples.constructed_all
                            constructing_all.2 Toy.train_and_val (Some []) 1
                            Toy.lr Toy.momentum tt Toy.train_and_val (Some []) 1
                            Toy.lr Toy.momentum
                            (ValueError "optimizer got an empty parameter list")
                            (run_eq constructing_all _ E) eq_refl eq_refl eq_refl)))).
Defined.

Lemma toy_loaders_usable phase :
  phase ∈ keys Toy.train_and_val ->
  exists dl : DataLoader,
    dict_get Toy.train_and_val phase = Some (Some dl) /\
    batches dl <> [] /\ len_dataset dl <> 0.
Proof.
  intros Hp. apply elem_of_cons in Hp as [->|Hp].
  - eexists. split; [reflexivity|]. split; [discriminate|]. vm_compute. discriminate.
  - apply list_elem_of_singleton in Hp as ->.
    eexists. split; [reflexivity|]. split; [discriminate|]. vm_compute. discriminate.
Qed.

Lemma train_model_returns_witness :
  exists res s',
    train_model Toy.constructed Toy.train_and_val (Some []) 1 Toy.lr Toy.momentum
      (Toy.start 0)
    = (Ok res, s') /\
    shape <$> weights s' = shape <$> weights (Toy.start 0).
Proof.
  exact (train_model_returns Toy.constructed Toy.train_and_val [] 1
           Toy.lr Toy.momentum
           (Toy.start 0) tt (Toy.loader [Toy.batch [0] [5]] 1)
           toy_shapes_kept eq_refl eq_refl toy_loaders_usable
           (fun epoch tasks (E : dict_get [] epoch = Some tasks) =>
              match E in _ = o return match o with None => True | Some _ => _ end
              with eq_refl => I end)).
Defined.

Lemma accuracy_is_a_nonnegative_number_witness :
  len_dataset Examples.val_loader <> 0 /\
  fle PrimFloat.zero (accuracy (weights (Toy.start 1)) Examples.val_loader) = true.
Proof.
  assert (Hlen : len_dataset Examples.val_loader <> 0) by (vm_compute; discriminate).
  split; [exact Hlen|].
  exact (proj1 (accuracy_is_a_nonnegative_number (weights (Toy.start 1))
                  Examples.val_loader Hlen)).
Defined.

Lemma load_keeps_shapes_witness :
  loading.1 = Ok tt /\
  torch_load "resnet.pt" (files saving.2) = Ok (weights loading.2).
Proof.
  assert (E : loading.1 = Ok tt) by (vm_compute; reflexivity).
  split; [exact E|].
  exact (proj1 (load_keeps_shapes "resnet.pt" saving.2 loading.2 (run_eq loading _ E))).
Defined.
